(** * go-zond: the state-transition and execution core

    A shallow embedding of the parts of go-zond that the specification's
    testable properties talk about:

    - [types]: the typed transaction envelope (core/types/transaction.go,
      core/types/tx_legacy.go);
    - [state]: the snapshot/revert view of the state database that the
      virtual machine drives;
    - [vm]: the sub-call operations of the ZVM (core/vm/zvm.go: Call,
      DelegateCall, StaticCall, create);
    - [core]: the block processor (core/state_processor.go) and the
      transition tool (cmd/qrvm/internal/t8ntool/execution.go);
    - [misc] and [zond]: the check of a header's gas limit
      (consensus/misc/gaslimit.go) and the miner's extra data
      (zond/backend.go).

    Go values are threaded explicitly: a method that mutates its receiver
    returns the new receiver next to its results.  Unsigned 64-bit
    arithmetic is written on [Z] with its wrap-around. *)

From Stdlib Require Import ZArith List Lia Bool String.
From Stdlib.Strings Require Import Byte.
From stdpp Require Import base gmap list.
From Stdlib Require Import Sorted.

Abbreviation bytes := (list byte).

#[export] Instance byte_eq : EqDecision byte := byte_eq_dec.

#[export] Instance byte_countable : Countable byte :=
  inj_countable Byte.to_N Byte.of_N Byte.of_to_N.

(** Go's uint64: addition and multiplication wrap around at 2^64. *)
Definition MaxUint64 : Z := 2 ^ 64 - 1.
Definition wrap64 (z : Z) : Z := z mod 2 ^ 64.
Definition uint64 (z : Z) : Prop := (0 <= z <= MaxUint64)%Z.

(** What a Go call can do besides returning: panic. *)
Inductive Outcome (A : Type) : Type :=
| Return (a : A)
| Panic (msg : string).
Arguments Return {A} a.
Arguments Panic {A} msg.

Definition obind {A B} (o : Outcome A) (k : A -> Outcome B) : Outcome B :=
  match o with
  | Return a => k a
  | Panic m => Panic m
  end.

Definition panics {A} (o : Outcome A) : bool :=
  match o with
  | Return _ => false
  | Panic _ => true
  end.

(* ================================================================== *)
(** ** common: addresses and hashes *)
(* ================================================================== *)

Module common.

(** common.Address is a 20-byte value; it is kept as the integer it spells. *)
Abbreviation Address := Z (only parsing).

(** common.Hash.  A Keccak-256 digest is named by its preimage, so two
    digests are equal exactly when their inputs are (collision freedom is
    what the node relies on throughout); [BytesToHash] is a literal 32-byte
    value, and [BytesToHash 0] is the zero value common.Hash{}. *)
Inductive Hash : Type :=
| BytesToHash (v : Z)
| Keccak256Hash (data : bytes).

#[export] Instance Hash_eq : EqDecision Hash.
Proof. solve_decision. Defined.

Definition ZeroHash : Hash := BytesToHash 0.

#[export] Instance Hash_countable : Countable Hash :=
  inj_countable'
    (fun h => match h with
              | BytesToHash v => inl v
              | Keccak256Hash data => inr data
              end)
    (fun x => match x with
              | inl v => BytesToHash v
              | inr data => Keccak256Hash data
              end)
    (fun h => match h with
              | BytesToHash _ => eq_refl
              | Keccak256Hash _ => eq_refl
              end).

End common.

(* ================================================================== *)
(** ** core/types: the transaction envelope *)
(* ================================================================== *)

Module types.
Import common.

Inductive error : Type :=
| ErrTxTypeNotSupported
| ErrGasFeeCapTooLow
| errShortTypedTx
| errPayload (code : Z).   (* an error of the payload codec (rlp) *)

#[export] Instance error_eq : EqDecision error.
Proof. solve_decision. Defined.

(** Transaction types. *)
Definition DynamicFeeTxType : byte := x02.

(** EmptyCodeHash is the known hash of the empty ZVM bytecode. *)
Definition EmptyCodeHash : Hash := Keccak256Hash [].

(** DynamicFeeTx (core/types/tx_dynamic_fee.go) and the RLP codec are not
    among the sources: the payload type, its zero value, its copy and its
    codec are parameters.  [dyn_encode] gives the bytes written to the
    buffer and the error returned, [dyn_decode] the receiver as the decoder
    left it and the error returned. *)
Class DynamicFeeTxImpl : Type := {
  DynamicFeeTx : Type;
  dyn_new : DynamicFeeTx;
  dyn_txType : DynamicFeeTx -> byte;
  dyn_copy : DynamicFeeTx -> DynamicFeeTx;
  dyn_encode : DynamicFeeTx -> bytes * option error;
  dyn_decode : DynamicFeeTx -> bytes -> DynamicFeeTx * option error;
  (* constants of files that are not among the sources *)
  LegacyTxType : byte;
  DilithiumPublicKeyLength : nat;
  DilithiumSignatureLength : nat
}.

(** LegacyTx is the transaction data of the original Zond transactions. *)
Record LegacyTx : Type := {
  Nonce : Z;                    (* nonce of sender account *)
  GasPrice : option Z;          (* wei per gas; *big.Int, nil is None *)
  Gas : Z;                      (* gas limit *)
  To : option Address;          (* nil means contract creation *)
  Value : option Z;             (* wei amount *)
  Data : bytes;                 (* contract invocation input data *)
  PublicKey : option bytes;     (* public key of signer *)
  Signature : option bytes      (* signature values *)
}.

Section Envelope.
Context `{DynamicFeeTxImpl}.

(** TxData is the underlying data of a transaction: the interface has the
    two implementations below. *)
Inductive TxData : Type :=
| DynamicFeeTxData (d : DynamicFeeTx)
| LegacyTxData (l : LegacyTx).

(** make([]byte, n) followed by copy(dst[:n], src). *)
Definition make_copy (n : nat) (src : bytes) : bytes :=
  take n src ++ repeat x00 (n - length (take n src)).

(** copy creates a deep copy of the transaction data and initializes all
    fields. *)
Definition LegacyTx_copy (tx : LegacyTx) : LegacyTx :=
  {| Nonce := Nonce tx;
     To := To tx;
     Data := Data tx;
     Gas := Gas tx;
     Value := Some (default 0%Z (Value tx));
     GasPrice := Some (default 0%Z (GasPrice tx));
     PublicKey := Some (make_copy DilithiumPublicKeyLength (default [] (PublicKey tx)));
     Signature := Some (make_copy DilithiumSignatureLength (default [] (Signature tx))) |}.

Definition txType (d : TxData) : byte :=
  match d with
  | DynamicFeeTxData x => dyn_txType x
  | LegacyTxData _ => LegacyTxType
  end.

Definition copy (d : TxData) : TxData :=
  match d with
  | DynamicFeeTxData x => DynamicFeeTxData (dyn_copy x)
  | LegacyTxData l => LegacyTxData (LegacyTx_copy l)
  end.


Definition decode (d : TxData) (input : bytes) : Outcome (TxData * option error) :=
  match d with
  | DynamicFeeTxData x =>
      let '(x', e) := dyn_decode x input in Return (DynamicFeeTxData x', e)
  | LegacyTxData _ => Panic "decode called on LegacyTx)"
  end.

(** Transaction is a Zond transaction.  [inner] is an interface value, nil
    in the zero Transaction; [time] is the clock reading at decoding; the
    last three fields are the caches. *)
Record Transaction : Type := {
  inner : option TxData;
  time : Z;
  hash : option Hash;
  size : option Z;
  from : option Address
}.

(** new(Transaction) *)
Definition new_Transaction : Transaction :=
  {| inner := None; time := 0; hash := None; size := None; from := None |}.

(** setDecoded sets the inner transaction and size after decoding; [now] is
    what time.Now() reads. *)
Definition setDecoded (tx : Transaction) (i : option TxData) (sz : Z) (now : Z)
  : Transaction :=
  {| inner := i;
     time := now;
     hash := hash tx;
     size := if (0 <? sz)%Z then Some sz else size tx;
     from := from tx |}.

(** NewTx creates a new transaction. *)
Definition NewTx (i : TxData) (now : Z) : Transaction :=
  setDecoded new_Transaction (Some (copy i)) 0 now.

(** NewTransaction creates an unsigned legacy transaction. *)
Definition NewTransaction (nonce : Z) (to : Address) (amount : option Z)
  (gasLimit : Z) (gasPrice : option Z) (data : bytes) (now : Z) : Transaction :=
  NewTx (LegacyTxData {| Nonce := nonce; To := Some to; Value := amount;
                         Gas := gasLimit; GasPrice := gasPrice; Data := data;
                         PublicKey := None; Signature := None |}) now.

(** NewContractCreation creates an unsigned legacy transaction. *)
Definition NewContractCreation (nonce : Z) (amount : option Z) (gasLimit : Z)
  (gasPrice : option Z) (data : bytes) (now : Z) : Transaction :=
  NewTx (LegacyTxData {| Nonce := nonce; To := None; Value := amount;
                         Gas := gasLimit; GasPrice := gasPrice; Data := data;
                         PublicKey := None; Signature := None |}) now.

(** Type returns the transaction type. *)
Definition Type_ (tx : Transaction) : Outcome byte :=
  match inner tx with
  | Some d => Return (txType d)
  | None => Panic "nil pointer dereference"
  end.



(** decodeTyped decodes a typed transaction from the canonical format. *)
Definition decodeTyped (b : bytes) : Outcome (option TxData * option error) :=
  if (length b <=? 1)%nat then Return (None, Some errShortTypedTx)
  else
    match b with
    | b0 :: rest =>
        if decide (b0 = DynamicFeeTxType) then
          obind (decode (DynamicFeeTxData dyn_new) rest) (fun '(i, e) =>
            Return (Some i, e))
        else Return (None, Some ErrTxTypeNotSupported)
    | [] => Panic "index out of range"
    end.

(** UnmarshalBinary decodes the canonical encoding of transactions.  The
    receiver comes back next to the error. *)
Definition UnmarshalBinary (tx : Transaction) (b : bytes) (now : Z)
  : Outcome (Transaction * option error) :=
  obind (decodeTyped b) (fun '(i, e) =>
    match e with
    | Some e => Return (tx, Some e)
    | None => Return (setDecoded tx i (Z.of_nat (length b)) now, None)
    end).

End Envelope.

(** prefixedRlpHash (core/types/hashing.go) is not among the sources. *)
Class TxHasher `{DynamicFeeTxImpl} : Type := {
  prefixedRlpHash : byte -> TxData -> Hash
}.

Section Hashing.
Context `{TxHasher}.

(** Hash returns the transaction hash, and stores it in the cache. *)
Definition Hash_ (tx : Transaction) : Outcome (Hash * Transaction) :=
  match hash tx with
  | Some h => Return (h, tx)
  | None =>
      obind (Type_ tx) (fun t =>
        match inner tx with
        | Some d =>
            let h := prefixedRlpHash t d in
            Return (h, {| inner := inner tx; time := time tx; hash := Some h;
                          size := size tx; from := from tx |})
        | None => Panic "nil pointer dereference"
        end)
  end.

End Hashing.

(** The accessors of DynamicFeeTx (core/types/tx_dynamic_fee.go, not among
    the sources) that the methods of Transaction below read; a *big.Int is
    an [option Z], nil being [None]. *)
Class DynamicFeeTxFields `{DynamicFeeTxImpl} : Type := {
  dyn_gas : DynamicFeeTx -> Z;
  dyn_gasPrice : DynamicFeeTx -> option Z;
  dyn_gasTipCap : DynamicFeeTx -> option Z;
  dyn_gasFeeCap : DynamicFeeTx -> option Z;
  dyn_value : DynamicFeeTx -> option Z;
  dyn_nonce : DynamicFeeTx -> Z;
  dyn_to : DynamicFeeTx -> option Address
}.

(** What rlp.Encode writes for the inner data of a transaction, counted by
    Size's writeCounter (the codec is not among the sources). *)
Class TxSizer `{DynamicFeeTxImpl} : Type := {
  rlpEncodedSize : option TxData -> Z
}.

Section Accessors.
Context `{DynamicFeeTxFields}.

(** accessors for innerTx. *)
Definition gas (d : TxData) : Z :=
  match d with
  | DynamicFeeTxData x => dyn_gas x
  | LegacyTxData l => Gas l
  end.

Definition gasPrice (d : TxData) : option Z :=
  match d with
  | DynamicFeeTxData x => dyn_gasPrice x
  | LegacyTxData l => GasPrice l
  end.

Definition gasTipCap (d : TxData) : option Z :=
  match d with
  | DynamicFeeTxData x => dyn_gasTipCap x
  | LegacyTxData l => GasPrice l
  end.

Definition gasFeeCap (d : TxData) : option Z :=
  match d with
  | DynamicFeeTxData x => dyn_gasFeeCap x
  | LegacyTxData l => GasPrice l
  end.

Definition value (d : TxData) : option Z :=
  match d with
  | DynamicFeeTxData x => dyn_value x
  | LegacyTxData l => Value l
  end.

Definition nonce (d : TxData) : Z :=
  match d with
  | DynamicFeeTxData x => dyn_nonce x
  | LegacyTxData l => Nonce l
  end.

Definition to (d : TxData) : option Address :=
  match d with
  | DynamicFeeTxData x => dyn_to x
  | LegacyTxData l => To l
  end.

(** A method call on the interface value tx.inner: nil panics. *)
Definition inner_ {A : Type} (tx : Transaction) (f : TxData -> Outcome A)
  : Outcome A :=
  match inner tx with
  | Some d => f d
  | None => Panic "nil pointer dereference"
  end.

(** new(big.Int).Set(x): a nil x panics. *)
Definition bigSet (x : option Z) : Outcome Z :=
  match x with
  | Some z => Return z
  | None => Panic "nil pointer dereference"
  end.

(** math.BigMin returns the smaller of x or y. *)
Definition BigMin (x y : Z) : Z := if (y <? x)%Z then y else x.

(** Gas returns the gas limit of the transaction. *)
Definition Gas_ (tx : Transaction) : Outcome Z :=
  inner_ tx (fun d => Return (gas d)).

(** GasPrice returns the gas price of the transaction. *)
Definition GasPrice_ (tx : Transaction) : Outcome Z :=
  inner_ tx (fun d => bigSet (gasPrice d)).

(** GasTipCap returns the gasTipCap per gas of the transaction. *)
Definition GasTipCap (tx : Transaction) : Outcome Z :=
  inner_ tx (fun d => bigSet (gasTipCap d)).

(** GasFeeCap returns the fee cap per gas of the transaction. *)
Definition GasFeeCap (tx : Transaction) : Outcome Z :=
  inner_ tx (fun d => bigSet (gasFeeCap d)).

(** Value returns the zond amount of the transaction. *)
Definition Value_ (tx : Transaction) : Outcome Z :=
  inner_ tx (fun d => bigSet (value d)).

(** Nonce returns the sender account nonce of the transaction. *)
Definition Nonce_ (tx : Transaction) : Outcome Z :=
  inner_ tx (fun d => Return (nonce d)).

(** copyAddressPtr copies an address. *)
Definition copyAddressPtr (a : option Address) : option Address :=
  match a with
  | None => None
  | Some cpy => Some cpy
  end.

(** To returns the recipient address of the transaction.
    For contract-creation transactions, To returns nil. *)
Definition To_ (tx : Transaction) : Outcome (option Address) :=
  inner_ tx (fun d => Return (copyAddressPtr (to d))).

(** Cost returns (gas * gasPrice) + value. *)
Definition Cost (tx : Transaction) : Outcome Z :=
  obind (GasPrice_ tx) (fun price =>
  obind (Gas_ tx) (fun g =>
    let total := (price * g)%Z in
    obind (Value_ tx) (fun v => Return (total + v)%Z))).

(** EffectiveGasTip returns the effective miner gasTipCap for the given base
    fee.  Note: if the effective gasTipCap is negative, this method returns
    both error the actual negative value, _and_ ErrGasFeeCapTooLow *)
Definition EffectiveGasTip (tx : Transaction) (baseFee : option Z)
  : Outcome (Z * option error) :=
  match baseFee with
  | None => obind (GasTipCap tx) (fun tip => Return (tip, None))
  | Some baseFee =>
      obind (GasFeeCap tx) (fun gasFeeCap =>
        let err :=
          if (gasFeeCap <? baseFee)%Z then Some ErrGasFeeCapTooLow else None in
        obind (GasTipCap tx) (fun tip =>
          Return (BigMin tip (gasFeeCap - baseFee), err)))
  end.

(** EffectiveGasTipValue is identical to EffectiveGasTip, but does not
    return an error in case the effective gasTipCap is negative *)
Definition EffectiveGasTipValue (tx : Transaction) (baseFee : option Z)
  : Outcome Z :=
  obind (EffectiveGasTip tx baseFee) (fun '(effectiveTip, _) =>
    Return effectiveTip).

(** x.Cmp(y): -1, 0 or +1. *)
Definition Cmp (x y : Z) : Z :=
  match (x ?= y)%Z with
  | Lt => (-1)%Z
  | Eq => 0%Z
  | Gt => 1%Z
  end.

(** GasTipCapCmp compares the gasTipCap of two transactions.  Cmp reads its
    operands without copying them: a nil operand panics. *)
Definition GasTipCapCmp (tx other : Transaction) : Outcome Z :=
  obind (GasTipCap tx) (fun x =>
  obind (GasTipCap other) (fun y => Return (Cmp x y))).

(** EffectiveGasTipCmp compares the effective gasTipCap of two transactions
    assuming the given base fee. *)
Definition EffectiveGasTipCmp (tx other : Transaction) (baseFee : option Z)
  : Outcome Z :=
  match baseFee with
  | None => GasTipCapCmp tx other
  | Some _ =>
      obind (EffectiveGasTipValue tx baseFee) (fun x =>
      obind (EffectiveGasTipValue other baseFee) (fun y => Return (Cmp x y)))
  end.

End Accessors.

Section Sizing.
Context `{TxSizer}.

(** Size returns the true encoded storage size of the transaction, either
    by encoding and returning it, or returning a previously cached value. *)
Definition Size (tx : Transaction) : Z * Transaction :=
  match size tx with
  | Some sz => (sz, tx)
  | None =>
      (* Cache miss, encode and cache. *)
      let c := rlpEncodedSize (inner tx) in
      let sz := wrap64 (c + 1) in
      (sz, {| inner := inner tx; time := time tx; hash := hash tx;
              size := Some sz; from := from tx |})
  end.

End Sizing.

(** HashDifference returns a new set which is the difference between a and
    b. *)
Definition HashDifference (a b : list Hash) : list Hash :=
  let remove : gset Hash := foldl (fun remove h => {[h]} ∪ remove) ∅ b in
  foldl (fun keep h => if decide (h ∈ remove) then keep else keep ++ [h]) [] a.

Section Difference.
Context `{TxHasher}.

(** The first loop of TxDifference: the hashes of b. *)
Fixpoint removeSet (b : list Transaction) (remove : gset Hash)
  : Outcome (gset Hash) :=
  match b with
  | [] => Return remove
  | tx :: rest =>
      obind (Hash_ tx) (fun '(h, _) => removeSet rest ({[h]} ∪ remove))
  end.

(** The second loop: the transactions of a, as their call of Hash left
    them, whose hash is not among those of b. *)
Fixpoint keepTxs (remove : gset Hash) (a : list Transaction)
  (keep : list Transaction) : Outcome (list Transaction) :=
  match a with
  | [] => Return keep
  | tx :: rest =>
      obind (Hash_ tx) (fun '(h, tx) =>
        keepTxs remove rest
          (if decide (h ∈ remove) then keep else keep ++ [tx]))
  end.

(** TxDifference returns a new set which is the difference between a and
    b. *)
Definition TxDifference (a b : list Transaction) : Outcome (list Transaction) :=
  obind (removeSet b ∅) (fun remove => keepTxs remove a []).

End Difference.

End types.

(* ================================================================== *)
(** ** core/state: the state database as the virtual machine sees it *)
(* ================================================================== *)

Module state.
Import common.

(** Account record of the world state (spec, data model): nonce, balance,
    code and the account's storage slots.  The code hash is the digest of
    [code]; a slot holding zero is absent. *)
Record Account : Type := {
  nonce : Z;
  balance : Z;
  code : bytes;
  storage : gmap Z Z
}.

Definition newAccount : Account :=
  {| nonce := 0; balance := 0; code := []; storage := ∅ |}.

Record Log : Type := {
  log_address : Address;
  log_topics : list Z;
  log_data : bytes
}.

(** What the journal covers, and so what a revert restores: accounts, the
    access list and the logs (by transaction hash). *)
Record Journaled : Type := {
  accounts : gmap Z Account;
  accessList : gset Z;
  logs : list (Hash * Log)
}.

(** Modelled from the spec: core/state/statedb.go and journal.go are not
    among the sources.  Section 4.2: OpenCheckpoint() -> id, RevertTo(id);
    nested checkpoints; RevertTo(id) unwinds the checkpoints opened after
    id; after RevertTo(id) the observable state is identical to the state
    immediately before OpenCheckpoint() returned id.  A checkpoint is kept
    as the journaled state at the time it was opened, and its id is its
    position among the open checkpoints. *)
Record StateDB : Type := {
  live : Journaled;
  thash : Hash;
  txIndex : Z;
  validRevisions : list Journaled
}.

Definition with_live (f : Journaled -> Journaled) (s : StateDB) : StateDB :=
  {| live := f (live s); thash := thash s; txIndex := txIndex s;
     validRevisions := validRevisions s |}.

Definition with_accounts (f : gmap Z Account -> gmap Z Account) : StateDB -> StateDB :=
  with_live (fun j => {| accounts := f (accounts j); accessList := accessList j;
                         logs := logs j |}).

(** Snapshot returns an identifier for the current revision of the state. *)
Definition Snapshot (s : StateDB) : nat * StateDB :=
  (length (validRevisions s),
   {| live := live s; thash := thash s; txIndex := txIndex s;
      validRevisions := validRevisions s ++ [live s] |}).

(** RevertToSnapshot reverts all state changes made since the given
    revision.  An id that names no open checkpoint leaves the state as it
    is (the spec gives such a call no meaning). *)
Definition RevertToSnapshot (revid : nat) (s : StateDB) : StateDB :=
  match validRevisions s !! revid with
  | Some j =>
      {| live := j; thash := thash s; txIndex := txIndex s;
         validRevisions := take revid (validRevisions s) |}
  | None => s
  end.

Definition getStateObject (addr : Address) (s : StateDB) : option Account :=
  accounts (live s) !! addr.

Definition getOrNewStateObject (addr : Address) (s : StateDB) : Account :=
  default newAccount (getStateObject addr s).

Definition setStateObject (addr : Address) (a : Account) : StateDB -> StateDB :=
  with_accounts (fun m => <[addr := a]> m).

(** Exist reports whether the given account address exists in the state. *)
Definition Exist (addr : Address) (s : StateDB) : bool :=
  bool_decide (is_Some (getStateObject addr s)).

(** CreateAccount explicitly creates a state object; a balance already held
    at the address is carried over. *)
Definition CreateAccount (addr : Address) (s : StateDB) : StateDB :=
  setStateObject addr
    {| nonce := 0; balance := balance (getOrNewStateObject addr s);
       code := []; storage := ∅ |} s.

Definition GetBalance (addr : Address) (s : StateDB) : Z :=
  balance (getOrNewStateObject addr s).

Definition GetNonce (addr : Address) (s : StateDB) : Z :=
  nonce (getOrNewStateObject addr s).

Definition GetCode (addr : Address) (s : StateDB) : bytes :=
  code (getOrNewStateObject addr s).

(** The zero hash for an address without an account, the digest of the
    code otherwise. *)
Definition GetCodeHash (addr : Address) (s : StateDB) : Hash :=
  match getStateObject addr s with
  | Some a => Keccak256Hash (code a)
  | None => ZeroHash
  end.

(** AddBalance adds amount to the account associated with addr.  Adding
    zero still touches the account: an absent one comes into being (the
    comments at StaticCall and in the transition tool rely on it). *)
Definition AddBalance (addr : Address) (amount : Z) (s : StateDB) : StateDB :=
  let a := getOrNewStateObject addr s in
  setStateObject addr
    {| nonce := nonce a; balance := balance a + amount; code := code a;
       storage := storage a |} s.

Definition SubBalance (addr : Address) (amount : Z) (s : StateDB) : StateDB :=
  let a := getOrNewStateObject addr s in
  setStateObject addr
    {| nonce := nonce a; balance := balance a - amount; code := code a;
       storage := storage a |} s.

Definition SetBalance (addr : Address) (amount : Z) (s : StateDB) : StateDB :=
  let a := getOrNewStateObject addr s in
  setStateObject addr
    {| nonce := nonce a; balance := amount; code := code a;
       storage := storage a |} s.

Definition SetNonce (addr : Address) (n : Z) (s : StateDB) : StateDB :=
  let a := getOrNewStateObject addr s in
  setStateObject addr
    {| nonce := n; balance := balance a; code := code a;
       storage := storage a |} s.

Definition SetCode (addr : Address) (c : bytes) (s : StateDB) : StateDB :=
  let a := getOrNewStateObject addr s in
  setStateObject addr
    {| nonce := nonce a; balance := balance a; code := c;
       storage := storage a |} s.

(** SetState writes a storage slot; writing zero clears it. *)
Definition SetState (addr : Address) (key value : Z) (s : StateDB) : StateDB :=
  let a := getOrNewStateObject addr s in
  setStateObject addr
    {| nonce := nonce a; balance := balance a; code := code a;
       storage := if (value =? 0)%Z then delete key (storage a)
                  else <[key := value]> (storage a) |} s.

(** AddAddressToAccessList adds the given address to the access list. *)
Definition AddAddressToAccessList (addr : Address) : StateDB -> StateDB :=
  with_live (fun j => {| accounts := accounts j;
                         accessList := {[addr]} ∪ accessList j;
                         logs := logs j |}).

Definition AddLog (l : Log) (s : StateDB) : StateDB :=
  with_live (fun j => {| accounts := accounts j; accessList := accessList j;
                         logs := logs j ++ [(thash s, l)] |}) s.

(** SetTxContext sets the current transaction hash and index which are
    used when the ZVM emits new state logs. *)
Definition SetTxContext (h : Hash) (ti : Z) (s : StateDB) : StateDB :=
  {| live := live s; thash := h; txIndex := ti;
     validRevisions := validRevisions s |}.

Definition TxIndex (s : StateDB) : Z := txIndex s.

(** GetLogs returns the logs matching the specified transaction hash. *)
Definition GetLogs (h : Hash) (s : StateDB) : list Log :=
  (filter (fun p => p.1 = h) (logs (live s))).*2.

Definition Logs (s : StateDB) : list Log := (logs (live s)).*2.

(** state.New over a committed account map: nothing journaled, no open
    checkpoint. *)
Definition New (m : gmap Z Account) : StateDB :=
  {| live := {| accounts := m; accessList := ∅; logs := [] |};
     thash := ZeroHash; txIndex := 0; validRevisions := [] |}.

(** [grows s s']: every checkpoint open in [s] is still open, unchanged,
    in [s']. *)
Definition grows (s s' : StateDB) : Prop :=
  validRevisions s `prefix_of` validRevisions s'.

End state.

(* ================================================================== *)
(** ** core/vm: the sub-call operations of the ZVM *)
(* ================================================================== *)

Module vm.
Import common.

Inductive error : Type :=
| ErrOutOfGas
| ErrCodeStoreOutOfGas
| ErrDepth
| ErrInsufficientBalance
| ErrContractAddressCollision
| ErrExecutionReverted
| ErrMaxCodeSizeExceeded
| ErrInvalidCode
| ErrWriteProtection
| ErrNonceUintOverflow
| errInterpreter (code : Z).   (* any other error of the interpreter *)

#[export] Instance error_eq : EqDecision error.
Proof. solve_decision. Defined.

Inductive OpCode : Type := CALL | DELEGATECALL | STATICCALL | CREATE | CREATE2.

(** BlockContext provides the ZVM with auxiliary information. Once provided
    it shouldn't be modified. *)
Record BlockContext : Type := {
  (* CanTransfer returns whether the account contains sufficient zond to
     transfer the value *)
  CanTransfer : state.StateDB -> Address -> Z -> bool;
  (* Transfer transfers zond from one account to the other *)
  Transfer : state.StateDB -> Address -> Address -> Z -> state.StateDB;
  (* GetHash returns the hash corresponding to n *)
  GetHash : Z -> Hash;
  Coinbase : Address;
  GasLimit : Z;
  BlockNumber : Z;
  Time : Z;
  BaseFee : option Z;
  Random : option Hash
}.

(** TxContext provides the ZVM with information about a transaction. *)
Record TxContext : Type := {
  Origin : Address;
  GasPrice : option Z
}.

(** What a tracer is told.  Config.Tracer is an interface value: [Tracer]
    says whether it is non-nil, and the calls made on it are collected in
    the machine's [trace]. *)
Inductive TraceEvent : Type :=
| CaptureStart (from to : Address) (create : bool) (input : bytes) (gas value : Z)
| CaptureEnd (output : bytes) (gasUsed : Z) (err : option error)
| CaptureEnter (typ : OpCode) (from to : Address) (input : bytes) (gas : Z)
    (value : option Z)
| CaptureExit (output : bytes) (gasUsed : Z) (err : option error).

Record Config : Type := {
  Tracer : bool
}.

(** ZVM is the Zond Virtual Machine base object. *)
Record ZVM : Type := {
  Context : BlockContext;
  zvm_TxContext : TxContext;
  StateDB : state.StateDB;
  depth : Z;
  zvm_Config : Config;
  trace : list TraceEvent
}.

Definition set_StateDB (zvm : ZVM) (db : state.StateDB) : ZVM :=
  {| Context := Context zvm; zvm_TxContext := zvm_TxContext zvm; StateDB := db;
     depth := depth zvm; zvm_Config := zvm_Config zvm; trace := trace zvm |}.

Definition set_depth (zvm : ZVM) (d : Z) : ZVM :=
  {| Context := Context zvm; zvm_TxContext := zvm_TxContext zvm;
     StateDB := StateDB zvm; depth := d; zvm_Config := zvm_Config zvm;
     trace := trace zvm |}.

Definition capture (e : TraceEvent) (zvm : ZVM) : ZVM :=
  {| Context := Context zvm; zvm_TxContext := zvm_TxContext zvm;
     StateDB := StateDB zvm; depth := depth zvm; zvm_Config := zvm_Config zvm;
     trace := trace zvm ++ [e] |}.

(** Reset resets the ZVM with a new transaction context. *)
Definition Reset (zvm : ZVM) (txCtx : TxContext) (statedb : state.StateDB) : ZVM :=
  {| Context := Context zvm; zvm_TxContext := txCtx; StateDB := statedb;
     depth := depth zvm; zvm_Config := zvm_Config zvm; trace := trace zvm |}.

(** Contract (core/vm/contract.go, not among the sources): the fields the
    operations below set and read. *)
Record Contract : Type := {
  CallerAddress : Address;
  self : Address;
  Code : bytes;
  CodeHash : Hash;
  CodeAddr : option Address;
  Gas : Z;
  value : option Z
}.

(** ContractRef is a reference to the contract's backing object. *)
Inductive ContractRef : Type :=
| AccountRef (a : Address)
| ContractOf (c : Contract).

Definition Address_of (r : ContractRef) : Address :=
  match r with
  | AccountRef a => a
  | ContractOf c => self c
  end.

Definition NewContract (caller : ContractRef) (object : ContractRef)
  (value : option Z) (gas : Z) : Contract :=
  {| CallerAddress := Address_of caller; self := Address_of object; Code := [];
     CodeHash := ZeroHash; CodeAddr := None; Gas := gas; value := value |}.

(** AsDelegate sets the contract to be a delegate call: caller and value are
    the parent's. *)
Definition AsDelegate (c : Contract) (parent : Contract) : Contract :=
  {| CallerAddress := CallerAddress parent; self := self c; Code := Code c;
     CodeHash := CodeHash c; CodeAddr := CodeAddr c; Gas := Gas c;
     value := value parent |}.

Definition SetCallCode (c : Contract) (addr : Address) (h : Hash) (code : bytes)
  : Contract :=
  {| CallerAddress := CallerAddress c; self := self c; Code := code;
     CodeHash := h; CodeAddr := Some addr; Gas := Gas c; value := value c |}.

Record codeAndHash : Type := {
  cah_code : bytes;
  cah_hash : Hash
}.

(** Hash of a codeAndHash: computed on first use. *)
Definition codeAndHash_Hash (c : codeAndHash) : Hash :=
  if decide (cah_hash c = ZeroHash) then Keccak256Hash (cah_code c)
  else cah_hash c.

Definition SetCodeOptionalHash (c : Contract) (addr : Address) (cah : codeAndHash)
  : Contract :=
  {| CallerAddress := CallerAddress c; self := self c; Code := cah_code cah;
     CodeHash := cah_hash cah; CodeAddr := Some addr; Gas := Gas c;
     value := value c |}.

(** Modelled from the spec: Contract.UseGas is not among the sources.
    Section 4.3: Charge(amount) -> error if insufficient; the remaining
    budget is lowered by the amount otherwise. *)
Definition UseGas (c : Contract) (gas : Z) : bool * Contract :=
  if (Gas c <? gas)%Z then (false, c)
  else (true, {| CallerAddress := CallerAddress c; self := self c;
                 Code := Code c; CodeHash := CodeHash c; CodeAddr := CodeAddr c;
                 Gas := Gas c - gas; value := value c |}).

(** PrecompiledContract is the basic interface for native Go contracts. *)
Record PrecompiledContract : Type := {
  RequiredGas : bytes -> Z;
  p_Run : bytes -> bytes * option error
}.

(** Modelled from the spec: RunPrecompiledContract (core/vm/contracts.go) is
    not among the sources.  Section 4.4: a precompile is a gas cost function
    and a computation; the tests of contracts_test.go fix that the supplied
    gas must cover RequiredGas (one unit less is "out of gas"). *)
Definition RunPrecompiledContract (p : PrecompiledContract) (input : bytes)
  (suppliedGas : Z) : bytes * Z * option error :=
  let gasCost := RequiredGas p input in
  if (suppliedGas <? gasCost)%Z then ([], 0%Z, Some ErrOutOfGas)
  else
    let suppliedGas := (suppliedGas - gasCost)%Z in
    let '(output, e) := p_Run p input in
    (output, suppliedGas, e).

(** Results of Call, DelegateCall and StaticCall, with the machine as the
    call left it. *)
Record CallResult : Type := {
  ret : bytes;
  leftOverGas : Z;
  err : option error;
  zvm_out : ZVM
}.

(** Results of create. *)
Record CreateResult : Type := {
  c_ret : bytes;
  c_addr : Address;
  c_leftOverGas : Z;
  c_err : option error;
  c_zvm : ZVM
}.

(** The operations of the machine that the interpreter reaches from the
    CALL, DELEGATECALL, STATICCALL, CREATE and CREATE2 instructions. *)
Record Ops : Type := {
  op_Call : ZVM -> ContractRef -> Address -> bytes -> Z -> Z -> CallResult;
  op_DelegateCall : ZVM -> Contract -> Address -> bytes -> Z -> CallResult;
  op_StaticCall : ZVM -> ContractRef -> Address -> bytes -> Z -> CallResult;
  op_create : ZVM -> ContractRef -> codeAndHash -> Z -> Z -> Address -> OpCode
              -> CreateResult
}.

(** What running a contract leaves behind: return data, error, the
    contract's remaining gas, the state database and the tracer's record. *)
Record ExecResult : Type := {
  x_ret : bytes;
  x_err : option error;
  x_gas : Z;
  x_StateDB : state.StateDB;
  x_trace : list TraceEvent
}.

(** The interpreter loop (core/vm/interpreter.go), the precompile table and
    the protocol constants (params/protocol_params.go) are not among the
    sources; they are parameters.  [exec sub zvm contract input readOnly]
    runs the contract's code; [sub] are the operations its instructions can
    call back. *)
Class Machine : Type := {
  exec : Ops -> ZVM -> Contract -> bytes -> bool -> ExecResult;
  PrecompiledContractsBerlin : Address -> option PrecompiledContract;
  CallCreateDepth : Z;
  MaxCodeSize : Z;
  CreateDataGas : Z;
  CreateAddress : Address -> Z -> Address;
  CreateAddress2 : Address -> Z -> Hash -> Address
}.

Section Operations.
Context `{Machine}.

Definition precompile (zvm : ZVM) (addr : Address) : option PrecompiledContract :=
  let precompiles := PrecompiledContractsBerlin in
  precompiles addr.

(** Modelled from the spec: ZVMInterpreter.Run is not among the sources.
    Section 4.4: the call depth is part of the current call's control
    state; entering a frame raises it by one for the code that runs in the
    frame, and leaving restores it (see [after]). *)
Definition Run (sub : Ops) (zvm : ZVM) (contract : Contract) (input : bytes)
  (readOnly : bool) : ExecResult :=
  exec sub (set_depth zvm (depth zvm + 1)) contract input readOnly.

(** The machine after a run: the state database and the tracer's record are
    the run's, the rest is as before. *)
Definition after (zvm : ZVM) (r : ExecResult) : ZVM :=
  {| Context := Context zvm; zvm_TxContext := zvm_TxContext zvm;
     StateDB := x_StateDB r; depth := depth zvm; zvm_Config := zvm_Config zvm;
     trace := x_trace r |}.

(** The tracer calls at the start and at the end of a frame. *)
Definition captureStart (zvm : ZVM) (typ : OpCode) (from to : Address)
  (create : bool) (input : bytes) (gas : Z) (value : option Z) : ZVM :=
  if (depth zvm =? 0)%Z
  then capture (CaptureStart from to create input gas (default 0%Z value)) zvm
  else capture (CaptureEnter typ from to input gas value) zvm.

Definition captureEnd (zvm : ZVM) (output : bytes) (gasUsed : Z)
  (e : option error) : ZVM :=
  if (depth zvm =? 0)%Z
  then capture (CaptureEnd output gasUsed e) zvm
  else capture (CaptureExit output gasUsed e) zvm.

(** Call executes the contract associated with the addr with the given
    input as parameters. It also handles any necessary value transfer
    required and takes the necessary steps to create accounts and reverses
    the state in case of an execution error or failed value transfer. *)
Definition Call (sub : Ops) (zvm : ZVM) (caller : ContractRef) (addr : Address)
  (input : bytes) (gas : Z) (value : Z) : CallResult :=
  (* Fail if we're trying to execute above the call depth limit *)
  if (CallCreateDepth <? depth zvm)%Z then
    {| ret := []; leftOverGas := gas; err := Some ErrDepth; zvm_out := zvm |}
  (* Fail if we're trying to transfer more than the available balance *)
  else if negb (value =? 0)%Z
          && negb (CanTransfer (Context zvm) (StateDB zvm) (Address_of caller) value)
  then
    {| ret := []; leftOverGas := gas; err := Some ErrInsufficientBalance;
       zvm_out := zvm |}
  else
    let '(snapshot, db) := state.Snapshot (StateDB zvm) in
    let zvm := set_StateDB zvm db in
    let p := precompile zvm addr in
    let isPrecompile := bool_decide (is_Some p) in
    let debug := Tracer (zvm_Config zvm) in
    if negb (state.Exist addr (StateDB zvm))
       && (negb isPrecompile && (value =? 0)%Z)
    then
      (* Calling a non existing account, don't do anything, but ping the
         tracer *)
      let zvm :=
        if debug then
          captureEnd
            (captureStart zvm CALL (Address_of caller) addr false input gas
               (Some value))
            [] 0 None
        else zvm in
      {| ret := []; leftOverGas := gas; err := None; zvm_out := zvm |}
    else
      let zvm :=
        if negb (state.Exist addr (StateDB zvm))
        then set_StateDB zvm (state.CreateAccount addr (StateDB zvm))
        else zvm in
      let zvm :=
        set_StateDB zvm
          (Transfer (Context zvm) (StateDB zvm) (Address_of caller) addr value) in
      (* Capture the tracer start/end events in debug mode *)
      let zvm :=
        if debug
        then captureStart zvm CALL (Address_of caller) addr false input gas
               (Some value)
        else zvm in
      let startGas := gas in
      let '(ret, gas, err, zvm) :=
        match p with
        | Some p =>
            let '(ret, gas, err) := RunPrecompiledContract p input gas in
            (ret, gas, err, zvm)
        | None =>
            (* Initialise a new contract and set the code that is to be used
               by the ZVM. *)
            let code := state.GetCode addr (StateDB zvm) in
            if (length code =? 0)%nat then
              ([], gas, None, zvm)   (* gas is unchanged *)
            else
              let contract :=
                NewContract caller (AccountRef addr) (Some value) gas in
              let contract :=
                SetCallCode contract addr (state.GetCodeHash addr (StateDB zvm))
                  code in
              let r := Run sub zvm contract input false in
              (x_ret r, x_gas r, x_err r, after zvm r)
        end in
      (* When an error was returned by the ZVM or when setting the creation
         code above we revert to the snapshot and consume any gas remaining. *)
      let '(gas, zvm) :=
        match err with
        | Some e =>
            (if decide (e = ErrExecutionReverted) then gas else 0%Z,
             set_StateDB zvm (state.RevertToSnapshot snapshot (StateDB zvm)))
        | None => (gas, zvm)
        end in
      let zvm :=
        if debug then captureEnd zvm ret (wrap64 (startGas - gas)) err
        else zvm in
      {| ret := ret; leftOverGas := gas; err := err; zvm_out := zvm |}.

(** DelegateCall executes the contract associated with the addr with the
    given input as parameters. It reverses the state in case of an
    execution error.  The caller must, at all times, be a contract. *)
Definition DelegateCall (sub : Ops) (zvm : ZVM) (caller : Contract)
  (addr : Address) (input : bytes) (gas : Z) : CallResult :=
  (* Fail if we're trying to execute above the call depth limit *)
  if (CallCreateDepth <? depth zvm)%Z then
    {| ret := []; leftOverGas := gas; err := Some ErrDepth; zvm_out := zvm |}
  else
    let '(snapshot, db) := state.Snapshot (StateDB zvm) in
    let zvm := set_StateDB zvm db in
    let debug := Tracer (zvm_Config zvm) in
    (* Invoke tracer hooks that signal entering/exiting a call frame;
       DELEGATECALL inherits value from parent call *)
    let zvm :=
      if debug
      then capture (CaptureEnter DELEGATECALL (self caller) addr input gas
                      (value caller)) zvm
      else zvm in
    let startGas := gas in
    let '(ret, gas, err, zvm) :=
      (* It is allowed to call precompiles, even via delegatecall *)
      match precompile zvm addr with
      | Some p =>
          let '(ret, gas, err) := RunPrecompiledContract p input gas in
          (ret, gas, err, zvm)
      | None =>
          (* Initialise a new contract and make initialise the delegate
             values *)
          let contract :=
            AsDelegate
              (NewContract (ContractOf caller) (AccountRef (self caller)) None gas)
              caller in
          let contract :=
            SetCallCode contract addr (state.GetCodeHash addr (StateDB zvm))
              (state.GetCode addr (StateDB zvm)) in
          let r := Run sub zvm contract input false in
          (x_ret r, x_gas r, x_err r, after zvm r)
      end in
    let '(gas, zvm) :=
      match err with
      | Some e =>
          (if decide (e = ErrExecutionReverted) then gas else 0%Z,
           set_StateDB zvm (state.RevertToSnapshot snapshot (StateDB zvm)))
      | None => (gas, zvm)
      end in
    let zvm :=
      if debug then capture (CaptureExit ret (wrap64 (startGas - gas)) err) zvm
      else zvm in
    {| ret := ret; leftOverGas := gas; err := err; zvm_out := zvm |}.

(** StaticCall executes the contract associated with the addr with the
    given input as parameters while disallowing any modifications to the
    state during the call. Opcodes that attempt to perform such
    modifications will result in exceptions instead of performing the
    modifications. *)
Definition StaticCall (sub : Ops) (zvm : ZVM) (caller : ContractRef)
  (addr : Address) (input : bytes) (gas : Z) : CallResult :=
  (* Fail if we're trying to execute above the call depth limit *)
  if (CallCreateDepth <? depth zvm)%Z then
    {| ret := []; leftOverGas := gas; err := Some ErrDepth; zvm_out := zvm |}
  else
    (* We take a snapshot here. This is a bit counter-intuitive, and could
       probably be skipped. However, even a staticcall is considered a
       'touch'. *)
    let '(snapshot, db) := state.Snapshot (StateDB zvm) in
    let zvm := set_StateDB zvm db in
    (* We do an AddBalance of zero here, just in order to trigger a touch. *)
    let zvm := set_StateDB zvm (state.AddBalance addr 0 (StateDB zvm)) in
    let debug := Tracer (zvm_Config zvm) in
    (* Invoke tracer hooks that signal entering/exiting a call frame *)
    let zvm :=
      if debug
      then capture (CaptureEnter STATICCALL (Address_of caller) addr input gas
                      None) zvm
      else zvm in
    let startGas := gas in
    let '(ret, gas, err, zvm) :=
      match precompile zvm addr with
      | Some p =>
          let '(ret, gas, err) := RunPrecompiledContract p input gas in
          (ret, gas, err, zvm)
      | None =>
          (* Initialise a new contract and set the code that is to be used by
             the ZVM. *)
          let contract := NewContract caller (AccountRef addr) (Some 0%Z) gas in
          let contract :=
            SetCallCode contract addr (state.GetCodeHash addr (StateDB zvm))
              (state.GetCode addr (StateDB zvm)) in
          let r := Run sub zvm contract input true in
          (x_ret r, x_gas r, x_err r, after zvm r)
      end in
    let '(gas, zvm) :=
      match err with
      | Some e =>
          (if decide (e = ErrExecutionReverted) then gas else 0%Z,
           set_StateDB zvm (state.RevertToSnapshot snapshot (StateDB zvm)))
      | None => (gas, zvm)
      end in
    let zvm :=
      if debug then capture (CaptureExit ret (wrap64 (startGas - gas)) err) zvm
      else zvm in
    {| ret := ret; leftOverGas := gas; err := err; zvm_out := zvm |}.

Definition set_Gas (c : Contract) (g : Z) : Contract :=
  {| CallerAddress := CallerAddress c; self := self c; Code := Code c;
     CodeHash := CodeHash c; CodeAddr := CodeAddr c; Gas := g;
     value := value c |}.

(** create creates a new contract using code as deployment code. *)
Definition create (sub : Ops) (zvm : ZVM) (caller : ContractRef)
  (cah : codeAndHash) (gas : Z) (value : Z) (address : Address) (typ : OpCode)
  : CreateResult :=
  (* Depth check execution. Fail if we're trying to execute above the
     limit. *)
  if (CallCreateDepth <? depth zvm)%Z then
    {| c_ret := []; c_addr := 0; c_leftOverGas := gas; c_err := Some ErrDepth;
       c_zvm := zvm |}
  else if negb (CanTransfer (Context zvm) (StateDB zvm) (Address_of caller) value)
  then
    {| c_ret := []; c_addr := 0; c_leftOverGas := gas;
       c_err := Some ErrInsufficientBalance; c_zvm := zvm |}
  else
    let nonce := state.GetNonce (Address_of caller) (StateDB zvm) in
    if (wrap64 (nonce + 1) <? nonce)%Z then
      {| c_ret := []; c_addr := 0; c_leftOverGas := gas;
         c_err := Some ErrNonceUintOverflow; c_zvm := zvm |}
    else
      let zvm :=
        set_StateDB zvm
          (state.SetNonce (Address_of caller) (wrap64 (nonce + 1)) (StateDB zvm)) in
      (* We add this to the access list _before_ taking a snapshot. Even if
         the creation fails, the access-list change should not be rolled
         back *)
      let zvm :=
        set_StateDB zvm (state.AddAddressToAccessList address (StateDB zvm)) in
      (* Ensure there's no existing contract already at the designated
         address *)
      let contractHash := state.GetCodeHash address (StateDB zvm) in
      if negb (state.GetNonce address (StateDB zvm) =? 0)%Z
         || (negb (bool_decide (contractHash = ZeroHash))
             && negb (bool_decide (contractHash = types.EmptyCodeHash)))
      then
        {| c_ret := []; c_addr := 0; c_leftOverGas := 0;
           c_err := Some ErrContractAddressCollision; c_zvm := zvm |}
      else
        (* Create a new account on the state *)
        let '(snapshot, db) := state.Snapshot (StateDB zvm) in
        let zvm := set_StateDB zvm db in
        let zvm := set_StateDB zvm (state.CreateAccount address (StateDB zvm)) in
        let zvm := set_StateDB zvm (state.SetNonce address 1 (StateDB zvm)) in
        let zvm :=
          set_StateDB zvm
            (Transfer (Context zvm) (StateDB zvm) (Address_of caller) address
               value) in
        (* Initialise a new contract and set the code that is to be used by
           the ZVM. *)
        let contract := NewContract caller (AccountRef address) (Some value) gas in
        let contract := SetCodeOptionalHash contract address cah in
        let zvm :=
          if Tracer (zvm_Config zvm)
          then captureStart zvm typ (Address_of caller) address true
                 (cah_code cah) gas (Some value)
          else zvm in
        let r := Run sub zvm contract [] false in
        let ret := x_ret r in
        let err := x_err r in
        let contract := set_Gas contract (x_gas r) in
        let zvm := after zvm r in
        (* Check whether the max code size has been exceeded, assign err if
           the case. *)
        let err :=
          if bool_decide (err = None) && (MaxCodeSize <? Z.of_nat (length ret))%Z
          then Some ErrMaxCodeSizeExceeded else err in
        (* Reject code starting with 0xEF if EIP-3541 is enabled. *)
        let err :=
          if bool_decide (err = None)
             && ((1 <=? length ret)%nat && bool_decide (head ret = Some xef))
          then Some ErrInvalidCode else err in
        (* if the contract creation ran successfully and no errors were
           returned calculate the gas required to store the code. If the
           code could not be stored due to not enough gas set an error and
           let it be handled by the error checking condition below. *)
        let '(err, contract, zvm) :=
          match err with
          | None =>
              let createDataGas :=
                wrap64 (Z.of_nat (length ret) * CreateDataGas) in
              let '(ok, contract') := UseGas contract createDataGas in
              if ok
              then (None, contract',
                    set_StateDB zvm (state.SetCode address ret (StateDB zvm)))
              else (Some ErrCodeStoreOutOfGas, contract', zvm)
          | Some _ => (err, contract, zvm)
          end in
        (* When an error was returned by the ZVM or when setting the
           creation code above we revert to the snapshot and consume any gas
           remaining. Additionally when we're in homestead this also counts
           for code storage gas errors. *)
        let '(contract, zvm) :=
          match err with
          | Some e =>
              if negb (bool_decide (e = ErrCodeStoreOutOfGas)) then
                let zvm :=
                  set_StateDB zvm
                    (state.RevertToSnapshot snapshot (StateDB zvm)) in
                let contract :=
                  if negb (bool_decide (e = ErrExecutionReverted))
                  then (UseGas contract (Gas contract)).2
                  else contract in
                (contract, zvm)
              else (contract, zvm)
          | None => (contract, zvm)
          end in
        let zvm :=
          if Tracer (zvm_Config zvm)
          then captureEnd zvm ret (wrap64 (gas - Gas contract)) err
          else zvm in
        {| c_ret := ret; c_addr := address; c_leftOverGas := Gas contract;
           c_err := err; c_zvm := zvm |}.

(** Create creates a new contract using code as deployment code. *)
Definition Create (sub : Ops) (zvm : ZVM) (caller : ContractRef) (code : bytes)
  (gas : Z) (value : Z) : CreateResult :=
  let contractAddr :=
    CreateAddress (Address_of caller)
      (state.GetNonce (Address_of caller) (StateDB zvm)) in
  create sub zvm caller {| cah_code := code; cah_hash := ZeroHash |} gas value
    contractAddr CREATE.

(** Create2 creates a new contract using code as deployment code; the
    address is derived from the sender, the salt and the hash of the init
    code. *)
Definition Create2 (sub : Ops) (zvm : ZVM) (caller : ContractRef) (code : bytes)
  (gas : Z) (endowment : Z) (salt : Z) : CreateResult :=
  let h := codeAndHash_Hash {| cah_code := code; cah_hash := ZeroHash |} in
  let cah := {| cah_code := code; cah_hash := h |} in
  let contractAddr := CreateAddress2 (Address_of caller) salt h in
  create sub zvm caller cah gas endowment contractAddr CREATE2.

(** The operations at a depth above the limit: each fails at its first
    check. *)
Definition aboveLimit : Ops :=
  {| op_Call := fun zvm _ _ _ gas _ =>
       {| ret := []; leftOverGas := gas; err := Some ErrDepth; zvm_out := zvm |};
     op_DelegateCall := fun zvm _ _ _ gas =>
       {| ret := []; leftOverGas := gas; err := Some ErrDepth; zvm_out := zvm |};
     op_StaticCall := fun zvm _ _ _ gas =>
       {| ret := []; leftOverGas := gas; err := Some ErrDepth; zvm_out := zvm |};
     op_create := fun zvm _ _ gas _ _ _ =>
       {| c_ret := []; c_addr := 0; c_leftOverGas := gas;
          c_err := Some ErrDepth; c_zvm := zvm |} |}.

(** The machine's operations with [n] more frames below the limit: the code
    a frame runs calls back the operations with one frame less.  The
    recursion of Call -> Run -> Call ... ends because the depth is bounded. *)
Fixpoint ops (n : nat) : Ops :=
  match n with
  | O => aboveLimit
  | S n' =>
      let sub := ops n' in
      {| op_Call := Call sub;
         op_DelegateCall := DelegateCall sub;
         op_StaticCall := StaticCall sub;
         op_create := create sub |}
  end.

(** Frames that can still be entered from the machine's depth. *)
Definition levels (zvm : ZVM) : nat :=
  Z.to_nat (CallCreateDepth + 1 - depth zvm).

(** The methods of the machine. *)
Definition ZVM_Call (zvm : ZVM) := Call (ops (levels zvm)) zvm.
Definition ZVM_DelegateCall (zvm : ZVM) := DelegateCall (ops (levels zvm)) zvm.
Definition ZVM_StaticCall (zvm : ZVM) := StaticCall (ops (levels zvm)) zvm.
Definition ZVM_create (zvm : ZVM) := create (ops (levels zvm)) zvm.
Definition ZVM_Create (zvm : ZVM) := Create (ops (levels zvm)) zvm.
Definition ZVM_Create2 (zvm : ZVM) := Create2 (ops (levels zvm)) zvm.

End Operations.

(** NewZVM returns a new ZVM. The returned ZVM is not thread safe and should
    only ever be used *once*. *)
Definition NewZVM (blockCtx : BlockContext) (txCtx : TxContext)
  (statedb : state.StateDB) (config : Config) : ZVM :=
  {| Context := blockCtx; zvm_TxContext := txCtx; StateDB := statedb;
     depth := 0; zvm_Config := config; trace := [] |}.

(** core.CanTransfer and core.Transfer (core/zvm.go, not among the sources),
    the functions the block context is built with. *)
Definition core_CanTransfer (db : state.StateDB) (addr : Address) (amount : Z)
  : bool :=
  (amount <=? state.GetBalance addr db)%Z.

Definition core_Transfer (db : state.StateDB) (sender recipient : Address)
  (amount : Z) : state.StateDB :=
  state.AddBalance recipient amount (state.SubBalance sender amount db).

End vm.

(* ================================================================== *)
(** ** core: the block processor *)
(* ================================================================== *)

Module core.
Import common.

Inductive error : Type :=
| ErrGasLimitReached
| ErrIntrinsicGas
| errSender (code : Z)        (* TransactionToMessage: sender recovery *)
| errValidation (code : Z).   (* nonce, balance and fee checks *)

#[export] Instance error_eq : EqDecision error.
Proof. solve_decision. Defined.

(** Modelled from the spec: GasPool (core/gaspool.go) is not among the
    sources.  Section 4.3: a block-level gas pool is decremented per
    included transaction and must never go negative; Charge(amount) ->
    error if insufficient.  GasPool tracks the amount of gas available
    during execution of the transactions in a block. *)
Abbreviation GasPool := Z (only parsing).

(** AddGas makes gas available for execution. *)
Definition AddGas (gp : GasPool) (amount : Z) : GasPool := (gp + amount)%Z.

(** SubGas deducts the given amount from the pool if enough gas is
    available and returns an error otherwise. *)
Definition SubGas (gp : GasPool) (amount : Z) : error + GasPool :=
  if (gp <? amount)%Z then inl ErrGasLimitReached else inr (gp - amount)%Z.

(** Gas returns the amount of gas remaining in the pool. *)
Definition Gas (gp : GasPool) : Z := gp.

(** SetGas sets the amount of gas with the provided number. *)
Definition SetGas (gp : GasPool) (gas : Z) : GasPool := gas.

(** A Message contains the data derived from a single transaction that is
    relevant to state processing. *)
Record Message : Type := {
  To : option Address;
  From : Address;
  Nonce : Z;
  Value : Z;
  GasLimit : Z;
  GasPrice : option Z;
  Data : bytes
}.

(** ExecutionResult includes all output after executing given zvm message,
    no matter the execution itself is successful or not. *)
Record ExecutionResult : Type := {
  UsedGas : Z;
  Err : option vm.error;
  ReturnData : bytes
}.

(** Failed returns the indicator whether the execution is successful or
    not. *)
Definition Failed (r : ExecutionResult) : bool := bool_decide (is_Some (Err r)).

Definition ReceiptStatusFailed : Z := 0.
Definition ReceiptStatusSuccessful : Z := 1.

(** Receipt represents the results of a transaction. *)
Record Receipt : Type := {
  r_Type : byte;
  PostState : bytes;
  Status : Z;
  CumulativeGasUsed : Z;
  Bloom : Z;
  Logs : list state.Log;
  TxHash : Hash;
  ContractAddress : option Address;
  GasUsed : Z;
  BlockHash : option Hash;
  BlockNumber : option Z;
  TransactionIndex : Z
}.

Record Header : Type := {
  h_Number : Z;
  h_GasLimit : Z;
  h_BaseFee : option Z
}.

(** What the execution of a message leaves: the gas that remains of the
    message's limit, the error of the virtual machine, the return data, the
    machine, and the block numbers whose hashes the code asked for. *)
Record ExecOut : Type := {
  gasRemaining : Z;
  vmerr : option vm.error;
  returnData : bytes;
  out_zvm : vm.ZVM;
  hashQueries : list Z
}.

(** The parts of the node that the block processor calls and that are not
    among the sources.  [Env] stands for whatever a run could read besides
    its arguments (the clock, the scheduler, the order of a map range). *)
Class Chain : Type := {
  Env : Type;
  (* core/types: a block's transactions are read through these *)
  Transaction : Type;
  tx_Hash : Transaction -> Hash;
  tx_Type : Transaction -> byte;
  tx_Nonce : Transaction -> Z;
  (* core/state_transition.go *)
  TransactionToMessage : Transaction -> option Z -> error + Message;
  validate : Message -> state.StateDB -> option error;
  purchase : Message -> state.StateDB -> state.StateDB;
  IntrinsicGas : Message -> Z;
  execute : Env -> vm.ZVM -> Message -> Z -> ExecOut;
  (* core/state/statedb.go and the trie *)
  Finalise : bool -> state.StateDB -> state.StateDB;
  IntermediateRoot : bool -> state.StateDB -> Hash * state.StateDB;
  Commit : Z -> bool -> state.StateDB -> Hash * option Z * state.StateDB;
  Reopen : Hash -> state.StateDB -> Z + state.StateDB;
  (* consensus engine and block context *)
  engine_Finalize : Env -> Header -> state.StateDB -> list Transaction
                    -> state.StateDB;
  NewZVMBlockContext : Header -> vm.BlockContext;
  (* hashing *)
  CreateBloom : list (list state.Log) -> Z;
  DeriveSha_txs : list Transaction -> Hash;
  DeriveSha_receipts : list Receipt -> Hash;
  rlpHash_logs : list state.Log -> Hash
}.

(** Block represents an entire block in the Zond blockchain. *)
Record Block `{Chain} : Type := {
  header : Header;
  transactions : list Transaction;
  b_hash : Hash
}.

Section Processor.
Context `{vm.Machine} `{Chain}.

(** NewZVMTxContext creates a new transaction context for a single
    transaction. *)
Definition NewZVMTxContext (msg : Message) : vm.TxContext :=
  {| vm.Origin := From msg; vm.GasPrice := GasPrice msg |}.

(** Modelled from the spec: ApplyMessage (core/state_transition.go) is not
    among the sources.  Section 4.5 (b)-(e): the nonce and balance checks
    come before any execution; the intrinsic gas is deducted before
    execution begins, failing outright if it exceeds the limit.  Section
    4.3: the per-transaction budget starts at the transaction's gas limit;
    the block-level pool is charged for the transaction and refuses one
    that would exceed what remains, which is then not executed; what the
    execution leaves of the budget goes back to the pool.  The results are
    the outcome, the machine, the pool and the block numbers asked for. *)
Definition ApplyMessage (w : Env) (zvm : vm.ZVM) (msg : Message) (gp : GasPool)
  : (error + ExecutionResult) * vm.ZVM * GasPool * list Z :=
  match validate msg (vm.StateDB zvm) with
  | Some e => (inl e, zvm, gp, [])
  | None =>
      match SubGas gp (GasLimit msg) with
      | inl e => (inl e, zvm, gp, [])
      | inr gp =>
          let zvm := vm.set_StateDB zvm (purchase msg (vm.StateDB zvm)) in
          if (GasLimit msg <? IntrinsicGas msg)%Z then
            (inl ErrIntrinsicGas, zvm, gp, [])
          else
            let out := execute w zvm msg (GasLimit msg - IntrinsicGas msg) in
            let gp := AddGas gp (gasRemaining out) in
            (inr {| UsedGas := GasLimit msg - gasRemaining out;
                    Err := vmerr out;
                    ReturnData := returnData out |},
             out_zvm out, gp, hashQueries out)
      end
  end.

(** What applyTransaction threads besides its results: the gas pool, the
    state database (the machine's StateDB field and the statedb argument
    are one object), the gas used so far and the machine. *)
Record Running : Type := {
  cur_gp : GasPool;
  cur_statedb : state.StateDB;
  cur_usedGas : Z;
  cur_vmenv : vm.ZVM
}.

Definition applyTransaction (w : Env) (msg : Message) (st : Running)
  (blockNumber : Z) (blockHash : Hash) (tx : Transaction)
  : (error + Receipt) * Running :=
  (* Create a new context to be used in the ZVM environment. *)
  let txContext := NewZVMTxContext msg in
  let zvm := vm.Reset (cur_vmenv st) txContext (cur_statedb st) in
  (* Apply the transaction to the current state (included in the env). *)
  let '(result, zvm, gp, _) := ApplyMessage w zvm msg (cur_gp st) in
  let statedb := vm.StateDB zvm in
  match result with
  | inl e =>
      (inl e, {| cur_gp := gp; cur_statedb := statedb;
                 cur_usedGas := cur_usedGas st; cur_vmenv := zvm |})
  | inr result =>
      (* Update the state with pending changes. *)
      let root : bytes := [] in
      let statedb := Finalise true statedb in
      let usedGas := wrap64 (cur_usedGas st + UsedGas result) in
      (* Create a new receipt for the transaction, storing the intermediate
         root and gas used by the tx. *)
      let logs := state.GetLogs (tx_Hash tx) statedb in
      let receipt :=
        {| r_Type := tx_Type tx;
           PostState := root;
           CumulativeGasUsed := usedGas;
           Status := if Failed result then ReceiptStatusFailed
                     else ReceiptStatusSuccessful;
           TxHash := tx_Hash tx;
           GasUsed := UsedGas result;
           (* If the transaction created a contract, store the creation
              address in the receipt. *)
           ContractAddress :=
             match To msg with
             | None => Some (vm.CreateAddress (vm.Origin (vm.zvm_TxContext zvm))
                               (tx_Nonce tx))
             | Some _ => None
             end;
           (* Set the receipt logs and create the bloom filter. *)
           Logs := logs;
           Bloom := CreateBloom [logs];
           BlockHash := Some blockHash;
           BlockNumber := Some blockNumber;
           TransactionIndex := state.TxIndex statedb |} in
      (inr receipt,
       {| cur_gp := gp; cur_statedb := statedb; cur_usedGas := usedGas;
          cur_vmenv := vm.set_StateDB zvm statedb |})
  end.

(** The loop of Process over the block's transactions, from index [i]. *)
Fixpoint processTxs (w : Env) (hd : Header) (blockHash : Hash) (i : Z)
  (txs : list Transaction) (receipts : list Receipt) (allLogs : list state.Log)
  (st : Running)
  : (error + list Receipt * list state.Log) * Running :=
  match txs with
  | [] => (inr (receipts, allLogs), st)
  | tx :: rest =>
      match TransactionToMessage tx (h_BaseFee hd) with
      | inl e => (inl e, st)
      | inr msg =>
          let st :=
            {| cur_gp := cur_gp st;
               cur_statedb := state.SetTxContext (tx_Hash tx) i (cur_statedb st);
               cur_usedGas := cur_usedGas st; cur_vmenv := cur_vmenv st |} in
          match applyTransaction w msg st (h_Number hd) blockHash tx with
          | (inl e, st) => (inl e, st)
          | (inr receipt, st) =>
              processTxs w hd blockHash (i + 1) rest (receipts ++ [receipt])
                (allLogs ++ Logs receipt) st
          end
      end
  end.

(** What Process returns: receipts, logs, gas used and error, next to the
    state database it worked on. *)
Record Processed : Type := {
  p_receipts : list Receipt;
  p_logs : list state.Log;
  p_usedGas : Z;
  p_err : option error;
  p_statedb : state.StateDB
}.

(** Process processes the state changes according to the Ethereum rules by
    running the transaction messages using the statedb and applying any
    rewards to the processor (coinbase).

    Process returns the receipts and logs accumulated during the process
    and returns the amount of gas that was used in the process. If any of
    the transactions failed to execute due to insufficient gas it will
    return an error. *)
Definition Process (w : Env) (block : Block) (statedb : state.StateDB)
  (cfg : vm.Config) : Processed :=
  let usedGas := 0%Z in
  let hd := header block in
  let blockHash := b_hash block in
  let gp := AddGas 0 (h_GasLimit hd) in
  let context := NewZVMBlockContext hd in
  let vmenv :=
    vm.NewZVM context {| vm.Origin := 0; vm.GasPrice := None |} statedb cfg in
  (* Iterate over and process the individual transactions *)
  match processTxs w hd blockHash 0 (transactions block) [] []
          {| cur_gp := gp; cur_statedb := statedb; cur_usedGas := usedGas;
             cur_vmenv := vmenv |}
  with
  | (inl e, st) =>
      {| p_receipts := []; p_logs := []; p_usedGas := 0; p_err := Some e;
         p_statedb := cur_statedb st |}
  | (inr (receipts, allLogs), st) =>
      (* Finalize the block, applying any consensus engine specific extras
         (e.g. block rewards) *)
      let statedb :=
        engine_Finalize w hd (cur_statedb st) (transactions block) in
      {| p_receipts := receipts; p_logs := allLogs;
         p_usedGas := cur_usedGas st; p_err := None; p_statedb := statedb |}
  end.

End Processor.

End core.

(* ================================================================== *)
(** ** params and cmd/qrvm/internal/t8ntool: the transition tool *)
(* ================================================================== *)

Module params.

(** These are the multipliers for zond denominations. *)
Definition Planck : Z := 1.
Definition GPlanck : Z := 10 ^ 9.
Definition Zond : Z := 10 ^ 18.

End params.

Module t8ntool.
Import common.

(** GenesisAccount is an account in the state of the genesis block. *)
Record GenesisAccount : Type := {
  ga_Code : bytes;
  ga_Storage : gmap Z Z;
  ga_Balance : Z;
  ga_Nonce : Z
}.

Record Withdrawal : Type := {
  w_Address : Address;
  w_Amount : Z
}.

Record stEnv : Type := {
  Coinbase : Address;
  Random : option Z;
  GasLimit : Z;
  Number : Z;
  Timestamp : Z;
  BlockHashes : option (gmap Z Hash);
  Withdrawals : option (list Withdrawal);
  BaseFee : option Z
}.

Record Prestate : Type := {
  p_Env : stEnv;
  Pre : gmap Z GenesisAccount
}.

Record rejectedTx : Type := {
  Index : Z;
  Err : core.error
}.

(** The two errors the getHash closure records. *)
Inductive hashErr : Type :=
| noBlockhashes (num : Z)          (* no blockhashes provided *)
| blockhashNotProvided (num : Z).  (* blockhash for that block not provided *)

Inductive error : Type :=
| errTracer (code : Z)                  (* the error of getTracerFn *)
| ErrorMissingBlockhash (e : hashErr)
| ErrorQRVM (code : Z).                 (* commit or reopen failed *)

(** The order in which a Go range statement visits a map is not fixed:
    [range_accounts] and [range_storage] say in which order the ranges of
    MakePreState visit the allocation and each account's storage. *)
Record MapRange : Type := {
  range_accounts : gmap Z GenesisAccount -> list (Z * GenesisAccount);
  range_storage : Address -> gmap Z Z -> list (Z * Z)
}.

(** A range visits every entry of the map exactly once. *)
Definition visits_all (r : MapRange) : Prop :=
  (forall m, range_accounts r m ≡ₚ map_to_list m)
  /\ (forall a m, range_storage r a m ≡ₚ map_to_list m).

Section Tool.
Context `{vm.Machine} `{core.Chain}.

(** ExecutionResult contains the execution status after running a state
    test, any error that might have occurred and a dump of the final state
    if requested. *)
Record ExecutionResult : Type := {
  StateRoot : Hash;
  TxRoot : Hash;
  ReceiptRoot : Hash;
  LogsHash : Hash;
  Bloom : Z;
  Receipts : list core.Receipt;
  Rejected : list rejectedTx;
  GasUsed : Z;
  er_BaseFee : option Z;
  WithdrawalsRoot : option (list Withdrawal)
}.

(** The body of the inner loop of MakePreState. *)
Definition setStorage (addr : Address) (statedb : state.StateDB)
  (kv : Z * Z) : state.StateDB :=
  state.SetState addr kv.1 kv.2 statedb.

(** The body of the outer loop of MakePreState. *)
Definition setAccount (rng : MapRange) (statedb : state.StateDB)
  (e : Z * GenesisAccount) : state.StateDB :=
  let '(addr, a) := e in
  let statedb := state.SetCode addr (ga_Code a) statedb in
  let statedb := state.SetNonce addr (ga_Nonce a) statedb in
  let statedb := state.SetBalance addr (ga_Balance a) statedb in
  foldl (setStorage addr) statedb (range_storage rng addr (ga_Storage a)).

(** MakePreState: the result is a nil pointer ([None]) when reopening the
    committed state fails, as both errors are dropped. *)
Definition MakePreState (rng : MapRange) (accounts : gmap Z GenesisAccount)
  : option state.StateDB :=
  let statedb := state.New ∅ in
  let statedb := foldl (setAccount rng) statedb (range_accounts rng accounts) in
  (* Commit and re-open to start with a clean state. *)
  let '(root, _, statedb) := core.Commit 0 false statedb in
  match core.Reopen root statedb with
  | inr statedb => Some statedb
  | inl _ => None
  end.

(** getHash of Apply: the hash it returns and the error it records. *)
Definition getHash (pre : Prestate) (num : Z) : Hash * option hashErr :=
  match BlockHashes (p_Env pre) with
  | None => (ZeroHash, Some (noBlockhashes num))
  | Some hashes =>
      match hashes !! num with
      | Some h => (h, None)
      | None => (ZeroHash, Some (blockhashNotProvided num))
      end
  end.

(** hashError after the code of a transaction asked for the hashes of
    [queries], in this order. *)
Definition recordHashError (pre : Prestate) (hashError : option hashErr)
  (queries : list Z) : option hashErr :=
  foldl (fun acc num =>
           match (getHash pre num).2 with
           | Some e => Some e
           | None => acc
           end) hashError queries.

(** The variables of Apply's loop. *)
Record Vars : Type := {
  statedb : state.StateDB;
  gaspool : core.GasPool;
  rejectedTxs : list rejectedTx;
  includedTxs : list core.Transaction;
  gasUsed : Z;
  receipts : list core.Receipt;
  txIndex : Z;
  hashError : option hashErr
}.

(** One iteration of the loop of Apply over the transactions: [inl] when
    Apply returns from inside the loop. *)
Definition applyTx (w : core.Env) (pre : Prestate) (vmContext : vm.BlockContext)
  (getTracerFn : Z -> Hash -> Z + bool) (blockHash : Hash)
  (i : Z) (tx : core.Transaction) (v : Vars) : error + Vars :=
  match core.TransactionToMessage tx (BaseFee (p_Env pre)) with
  | inl e =>
      inr {| statedb := statedb v; gaspool := gaspool v;
             rejectedTxs := rejectedTxs v ++ [{| Index := i; Err := e |}];
             includedTxs := includedTxs v; gasUsed := gasUsed v;
             receipts := receipts v; txIndex := txIndex v;
             hashError := hashError v |}
  | inr msg =>
      match getTracerFn (txIndex v) (core.tx_Hash tx) with
      | inl e => inl (errTracer e)
      | inr tracer =>
          let vmConfig := {| vm.Tracer := tracer |} in
          let sdb := state.SetTxContext (core.tx_Hash tx) (txIndex v) (statedb v) in
          let txContext := core.NewZVMTxContext msg in
          let '(snapshot, sdb) := state.Snapshot sdb in
          let prevGas := core.Gas (gaspool v) in
          let qrvm := vm.NewZVM vmContext txContext sdb vmConfig in
          let '(msgResult, qrvm, gp, queries) :=
            core.ApplyMessage w qrvm msg (gaspool v) in
          let sdb := vm.StateDB qrvm in
          let hashError := recordHashError pre (hashError v) queries in
          match msgResult with
          | inl e =>
              let sdb := state.RevertToSnapshot snapshot sdb in
              inr {| statedb := sdb; gaspool := core.SetGas gp prevGas;
                     rejectedTxs := rejectedTxs v ++ [{| Index := i; Err := e |}];
                     includedTxs := includedTxs v; gasUsed := gasUsed v;
                     receipts := receipts v; txIndex := txIndex v;
                     hashError := hashError |}
          | inr msgResult =>
              let includedTxs := includedTxs v ++ [tx] in
              match hashError with
              | Some e => inl (ErrorMissingBlockhash e)
              | None =>
                  let gasUsed := wrap64 (gasUsed v + core.UsedGas msgResult) in
                  (* Receipt: *)
                  let root : bytes := [] in
                  let sdb := core.Finalise true sdb in
                  let logs := state.GetLogs (core.tx_Hash tx) sdb in
                  let receipt :=
                    {| core.r_Type := core.tx_Type tx;
                       core.PostState := root;
                       core.CumulativeGasUsed := gasUsed;
                       core.Status :=
                         if core.Failed msgResult then core.ReceiptStatusFailed
                         else core.ReceiptStatusSuccessful;
                       core.TxHash := core.tx_Hash tx;
                       core.GasUsed := core.UsedGas msgResult;
                       core.ContractAddress :=
                         match core.To msg with
                         | None =>
                             Some (vm.CreateAddress
                                     (vm.Origin (vm.zvm_TxContext qrvm))
                                     (core.tx_Nonce tx))
                         | Some _ => None
                         end;
                       core.Logs := logs;
                       core.Bloom := core.CreateBloom [logs];
                       (* These three are non-consensus fields *)
                       core.BlockHash := None;
                       core.BlockNumber := None;
                       core.TransactionIndex := txIndex v |} in
                  inr {| statedb := sdb; gaspool := gp;
                         rejectedTxs := rejectedTxs v;
                         includedTxs := includedTxs; gasUsed := gasUsed;
                         receipts := receipts v ++ [receipt];
                         txIndex := txIndex v + 1; hashError := None |}
              end
          end
      end
  end.

(** The loop of Apply over the transactions, from position [i]. *)
Fixpoint applyTxs (w : core.Env) (pre : Prestate) (vmContext : vm.BlockContext)
  (getTracerFn : Z -> Hash -> Z + bool) (blockHash : Hash)
  (i : Z) (txs : list core.Transaction) (v : Vars) : error + Vars :=
  match txs with
  | [] => inr v
  | tx :: rest =>
      match applyTx w pre vmContext getTracerFn blockHash i tx v with
      | inl e => inl e
      | inr v => applyTxs w pre vmContext getTracerFn blockHash (i + 1) rest v
      end
  end.

(** Apply applies a set of transactions to a pre-state. *)
Definition Apply (w : core.Env) (rng : MapRange) (pre : Prestate)
  (txs : list core.Transaction) (miningReward : Z)
  (getTracerFn : Z -> Hash -> Z + bool)
  : Outcome (error + state.StateDB * ExecutionResult) :=
  match MakePreState rng (Pre pre) with
  | None => Panic "nil pointer dereference"
  | Some sdb =>
      let blockHash := BytesToHash 4919 in
      let vmContext :=
        {| vm.CanTransfer := vm.core_CanTransfer;
           vm.Transfer := vm.core_Transfer;
           vm.Coinbase := Coinbase (p_Env pre);
           vm.BlockNumber := Number (p_Env pre);
           vm.Time := Timestamp (p_Env pre);
           vm.GasLimit := GasLimit (p_Env pre);
           vm.GetHash := fun num => (getHash pre num).1;
           (* If currentBaseFee is defined, add it to the vmContext. *)
           vm.BaseFee := BaseFee (p_Env pre);
           (* If random is defined, add it to the vmContext. *)
           vm.Random := BytesToHash <$> Random (p_Env pre) |} in
      let v :=
        {| statedb := sdb;
           gaspool := core.AddGas 0 (GasLimit (p_Env pre));
           rejectedTxs := []; includedTxs := []; gasUsed := 0; receipts := [];
           txIndex := 0; hashError := None |} in
      match applyTxs w pre vmContext getTracerFn blockHash 0 txs v with
      | inl e => Return (inl e)
      | inr v =>
          let sdb := (core.IntermediateRoot true (statedb v)).2 in
          (* Add mining reward? (-1 means rewards are disabled) *)
          let sdb :=
            if (0 <=? miningReward)%Z
            then state.AddBalance (Coinbase (p_Env pre)) miningReward sdb
            else sdb in
          (* Apply withdrawals *)
          let sdb :=
            foldl (fun sdb wd =>
                     (* Amount is in gplanck, turn into planck *)
                     let amount := (w_Amount wd * params.GPlanck)%Z in
                     state.AddBalance (w_Address wd) amount sdb)
                  sdb (default [] (Withdrawals (p_Env pre))) in
          (* Commit block *)
          match core.Commit (Number (p_Env pre)) true sdb with
          | (_, Some e, _) => Return (inl (ErrorQRVM e))
          | (root, None, sdb) =>
              let execRs :=
                {| StateRoot := root;
                   TxRoot := core.DeriveSha_txs (includedTxs v);
                   ReceiptRoot := core.DeriveSha_receipts (receipts v);
                   Bloom := core.CreateBloom (core.Logs <$> receipts v);
                   LogsHash := core.rlpHash_logs (state.Logs sdb);
                   Receipts := receipts v;
                   Rejected := rejectedTxs v;
                   GasUsed := gasUsed v;
                   er_BaseFee := BaseFee (p_Env pre);
                   WithdrawalsRoot := Withdrawals (p_Env pre) |} in
              (* Re-create statedb instance with new root upon the updated
                 database for accessing latest states. *)
              match core.Reopen root sdb with
              | inl e => Return (inl (ErrorQRVM e))
              | inr sdb => Return (inr (sdb, execRs))
              end
          end
      end
  end.

End Tool.

End t8ntool.

(* ================================================================== *)
(** ** consensus/misc and zond: header gas limit and extra data *)
(* ================================================================== *)

Module misc.

Inductive error : Type :=
| errBeyond (limit : Z)   (* invalid gas limit beyond ... *)
| errBelow (limit : Z).   (* invalid gas limit below ... *)

Section GasLimit.
(** params.MaxGasLimit and params.MinGasLimit (params/protocol_params.go,
    not among the sources). *)
Variables MaxGasLimit MinGasLimit : Z.

(** VerifyGaslimit verifies the header gas limit according
    increase/decrease in relation to the parent gas limit. *)
Definition VerifyGaslimit (parentGasLimit headerGasLimit : Z) : option error :=
  if (MaxGasLimit <? headerGasLimit)%Z then Some (errBeyond MaxGasLimit)
  else if (headerGasLimit <? MinGasLimit)%Z then Some (errBelow MinGasLimit)
  else None.

End GasLimit.

End misc.

Module zond.

Section ExtraData.
(** params.MaximumExtraDataSize, and the default extra data: the RLP
    encoding of the version, "gzond", the Go version and the operating
    system (none of them among the sources). *)
Variable MaximumExtraDataSize : Z.
Variable defaultExtraData : bytes.

Definition makeExtraData (extra : bytes) : bytes :=
  let extra :=
    if (length extra =? 0)%nat then
      (* create default extradata *)
      defaultExtraData
    else extra in
  if (MaximumExtraDataSize <? Z.of_nat (length extra))%Z
  then []
  else extra.

End ExtraData.

End zond.

(* ================================================================== *)
(** ** Instances used by the examples *)
(* ================================================================== *)

Module demo.
Import common.

(** A payload codec: the payload is a byte string, written after the list
    marker 0xc0. *)
Definition codec : types.DynamicFeeTxImpl :=
  {| types.DynamicFeeTx := bytes;
     types.dyn_new := [];
     types.dyn_txType := fun _ => types.DynamicFeeTxType;
     types.dyn_copy := fun d => d;
     types.dyn_encode := fun d => (xc0 :: d, None);
     types.dyn_decode := fun _ p =>
       match p with
       | xc0 :: d => (d, None)
       | _ => ([], Some (types.errPayload 1))
       end;
     types.LegacyTxType := x00;
     types.DilithiumPublicKeyLength := 4;
     types.DilithiumSignatureLength := 8 |}.

Definition hasher : @types.TxHasher codec :=
  {| types.prefixedRlpHash := fun (t : byte) (d : @types.TxData codec) =>
       Keccak256Hash
         (t :: match d with
               | types.DynamicFeeTxData x => xc0 :: (x : bytes)
               | types.LegacyTxData l => types.Data l
               end) |}.

(** A dynamic-fee transaction and a legacy transaction. *)
Definition dynTx : @types.Transaction codec :=
  @types.NewTx codec (types.DynamicFeeTxData (H := codec) [x01; x02; x03]) 7.

Definition legacyTx : @types.Transaction codec :=
  @types.NewTransaction codec 0 1 (Some 50%Z) 21000 (Some 1%Z) [] 7.

(** A machine.  Its interpreter knows six instructions and looks at the
    first byte of the code only: STOP (0x00) and empty code stop; REVERT
    (0xfd) reverts; RETURN (0xf3) returns the rest of the code as data; SSTORE
    (0x55) writes slot 0 of the contract unless the frame is read-only; CALL
    (0xf1) calls address 7 with all the gas and no value; anything else is an
    invalid instruction. *)
Definition interp (sub : vm.Ops) (zvm : vm.ZVM) (contract : vm.Contract)
  (input : bytes) (readOnly : bool) : vm.ExecResult :=
  let stay (e : option vm.error) (g : Z) :=
    {| vm.x_ret := []; vm.x_err := e; vm.x_gas := g;
       vm.x_StateDB := vm.StateDB zvm; vm.x_trace := vm.trace zvm |} in
  match vm.Code contract with
  | [] => stay None (vm.Gas contract)
  | x00 :: _ => stay None (vm.Gas contract)
  | xfd :: _ => stay (Some vm.ErrExecutionReverted) (vm.Gas contract)
  | xf3 :: data =>
      {| vm.x_ret := data; vm.x_err := None; vm.x_gas := vm.Gas contract;
         vm.x_StateDB := vm.StateDB zvm; vm.x_trace := vm.trace zvm |}
  | x55 :: _ =>
      if readOnly then stay (Some vm.ErrWriteProtection) 0%Z
      else
        {| vm.x_ret := []; vm.x_err := None; vm.x_gas := vm.Gas contract;
           vm.x_StateDB := state.SetState (vm.self contract) 0 1 (vm.StateDB zvm);
           vm.x_trace := vm.trace zvm |}
  | xf1 :: _ =>
      let r := vm.op_Call sub zvm (vm.ContractOf contract) 7 [] (vm.Gas contract) 0 in
      {| vm.x_ret := vm.ret r; vm.x_err := None; vm.x_gas := vm.leftOverGas r;
         vm.x_StateDB := vm.StateDB (vm.zvm_out r);
         vm.x_trace := vm.trace (vm.zvm_out r) |}
  | _ => stay (Some (vm.errInterpreter 1)) 0%Z
  end.

(** The identity precompile at address 4. *)
Definition dataCopy : vm.PrecompiledContract :=
  {| vm.RequiredGas := fun input => (15 + 3 * ((Z.of_nat (length input) + 31) / 32))%Z;
     vm.p_Run := fun input => (input, None) |}.

Definition machine : vm.Machine :=
  {| vm.exec := interp;
     vm.PrecompiledContractsBerlin := fun a => if (a =? 4)%Z then Some dataCopy else None;
     vm.CallCreateDepth := 1024;
     vm.MaxCodeSize := 24576;
     vm.CreateDataGas := 200;
     vm.CreateAddress := fun a n => (1000 * a + n + 100)%Z;
     vm.CreateAddress2 := fun a salt _ => (1000 * a + salt + 500)%Z |}.

Definition account (n b : Z) (c : bytes) : state.Account :=
  {| state.nonce := n; state.balance := b; state.code := c; state.storage := ∅ |}.

(** A state: account 1 holds 100, account 2 is a contract that reverts,
    account 3 a contract that writes its storage, account 5 a contract that
    calls address 7. *)
Definition world : state.StateDB :=
  state.New (<[1%Z := account 0 100 []]>
             (<[2%Z := account 1 0 [xfd]]>
              (<[3%Z := account 1 0 [x55]]>
               (<[5%Z := account 1 0 [xf1]]> ∅)))).

Definition blockContext : vm.BlockContext :=
  {| vm.CanTransfer := vm.core_CanTransfer; vm.Transfer := vm.core_Transfer;
     vm.GetHash := fun _ => ZeroHash; vm.Coinbase := 99; vm.GasLimit := 30000000;
     vm.BlockNumber := 1; vm.Time := 12; vm.BaseFee := Some 1%Z;
     vm.Random := None |}.

Definition zvmAt (d : Z) (tracing : bool) : vm.ZVM :=
  {| vm.Context := blockContext;
     vm.zvm_TxContext := {| vm.Origin := 1; vm.GasPrice := Some 1%Z |};
     vm.StateDB := world; vm.depth := d;
     vm.zvm_Config := {| vm.Tracer := tracing |}; vm.trace := [] |}.

(** Init code that reverts, init code that returns one byte of code, and
    init code that returns more code than MaxCodeSize allows. *)
Definition revertingInit : vm.codeAndHash :=
  {| vm.cah_code := [xfd]; vm.cah_hash := ZeroHash |}.
Definition oneByteInit : vm.codeAndHash :=
  {| vm.cah_code := [xf3; x60]; vm.cah_hash := ZeroHash |}.
Definition oversizedInit : vm.codeAndHash :=
  {| vm.cah_code := xf3 :: repeat x00 (Z.to_nat 24577); vm.cah_hash := ZeroHash |}.


Local Open Scope Z_scope.
(** A chain.  A transaction is its message; its sender is known unless the
    sender field is negative.  A message is valid when its nonce is the
    sender's and the sender can pay for the gas and the value; the gas is
    bought at the message's price; the intrinsic gas is 21000 and 16 for
    each byte of data.  Executing a message increments the sender's nonce
    and calls the recipient on the machine; what the call leaves of the gas
    goes back, capped by the gas it was given.  Roots and hashes are
    digests of what they cover. *)
Definition price (msg : core.Message) : Z := default 0 (core.GasPrice msg).

Definition root (s : state.StateDB) : Hash :=
  BytesToHash
    (map_fold (fun k a acc => acc + k + state.nonce a + state.balance a) 0
       (state.accounts (state.live s))).

Definition run (w : nat) (zvm : vm.ZVM) (msg : core.Message) (g : Z)
  : core.ExecOut :=
  let sender := core.From msg in
  let sdb := vm.StateDB zvm in
  let zvm :=
    vm.set_StateDB zvm (state.SetNonce sender (state.GetNonce sender sdb + 1) sdb) in
  match core.To msg with
  | Some to =>
      let r := @vm.ZVM_Call machine zvm (vm.AccountRef sender) to
                 (core.Data msg) g (core.Value msg) in
      {| core.gasRemaining := Z.max 0 (Z.min g (vm.leftOverGas r));
         core.vmerr := vm.err r; core.returnData := vm.ret r;
         core.out_zvm := vm.zvm_out r; core.hashQueries := [] |}
  | None =>
      {| core.gasRemaining := Z.max 0 g; core.vmerr := None;
         core.returnData := []; core.out_zvm := zvm; core.hashQueries := [] |}
  end.

Definition chain : core.Chain :=
  {| core.Env := nat;
     core.Transaction := core.Message;
     core.tx_Hash := fun tx => BytesToHash (1000 * core.From tx + core.Nonce tx);
     core.tx_Type := fun _ => types.DynamicFeeTxType;
     core.tx_Nonce := core.Nonce;
     core.TransactionToMessage := fun tx _ =>
       if (core.From tx <? 0) then inl (core.errSender 1) else inr tx;
     core.validate := fun msg sdb =>
       if negb (state.GetNonce (core.From msg) sdb =? core.Nonce msg)
       then Some (core.errValidation 1)
       else if (state.GetBalance (core.From msg) sdb
                <? core.GasLimit msg * price msg + core.Value msg)
            then Some (core.errValidation 2)
            else None;
     core.purchase := fun msg sdb =>
       state.SubBalance (core.From msg) (core.GasLimit msg * price msg) sdb;
     core.IntrinsicGas := fun msg =>
       21000 + 16 * Z.of_nat (length (core.Data msg));
     core.execute := run;
     core.Finalise := fun _ s => s;
     core.IntermediateRoot := fun _ s => (root s, s);
     core.Commit := fun _ _ s => (root s, None, s);
     core.Reopen := fun _ s => inr s;
     core.engine_Finalize := fun _ _ s _ => s;
     core.NewZVMBlockContext := fun hd =>
       {| vm.CanTransfer := vm.core_CanTransfer; vm.Transfer := vm.core_Transfer;
          vm.GetHash := fun _ => ZeroHash; vm.Coinbase := 99;
          vm.GasLimit := core.h_GasLimit hd; vm.BlockNumber := core.h_Number hd;
          vm.Time := 12; vm.BaseFee := core.h_BaseFee hd; vm.Random := None |};
     core.CreateBloom := fun ls => Z.of_nat (length (concat ls));
     core.DeriveSha_txs := fun txs => BytesToHash (Z.of_nat (length txs));
     core.DeriveSha_receipts := fun rs => BytesToHash (Z.of_nat (length rs));
     core.rlpHash_logs := fun ls => BytesToHash (Z.of_nat (length ls)) |}.

(** Transfers from account 1 to account 2: [pay n g] has nonce [n] and gas
    limit [g]. *)
Definition pay (n g : Z) : @core.Transaction chain :=
  {| core.To := Some 2; core.From := 1; core.Nonce := n; core.Value := 10;
     core.GasLimit := g; core.GasPrice := Some 1; core.Data := [] |}.

Definition ledger : state.StateDB :=
  state.New (<[1 := account 0 1000000 []]>
             (<[2 := account 0 0 []]> ∅)).

Definition head50 : core.Header :=
  {| core.h_Number := 1; core.h_GasLimit := 50000; core.h_BaseFee := Some 1 |}.

(** A block whose transactions fit the gas limit of 50000, and one whose
    second transaction asks for more gas than the first has left. *)
Definition block : @core.Block chain :=
  {| core.header := head50; core.transactions := [pay 0 21000; pay 1 25000];
     core.b_hash := BytesToHash 77 |}.

Definition overfull : @core.Block chain :=
  {| core.header := head50; core.transactions := [pay 0 21000; pay 1 40000];
     core.b_hash := BytesToHash 78 |}.

(** The input of the transition tool: the allocation, the environment with a
    gas limit of 50000, and three transactions of which the second asks for
    more gas than is left. *)
Definition prestate : t8ntool.Prestate :=
  {| t8ntool.p_Env :=
       {| t8ntool.Coinbase := 99; t8ntool.Random := None;
          t8ntool.GasLimit := 50000; t8ntool.Number := 1;
          t8ntool.Timestamp := 12; t8ntool.BlockHashes := None;
          t8ntool.Withdrawals := None; t8ntool.BaseFee := Some 1 |};
     t8ntool.Pre :=
       <[1 := {| t8ntool.ga_Code := []; t8ntool.ga_Storage := <[0 := 5]> (<[1 := 6]> ∅);
                 t8ntool.ga_Balance := 1000000; t8ntool.ga_Nonce := 0 |}]>
       (<[2 := {| t8ntool.ga_Code := []; t8ntool.ga_Storage := ∅;
                  t8ntool.ga_Balance := 0; t8ntool.ga_Nonce := 0 |}]> ∅) |}.

Definition txs : list (@core.Transaction chain) :=
  [pay 0 21000; pay 1 40000; pay 1 25000].

Definition noTracer (i : Z) (h : Hash) : Z + bool := inr false.

(** Two orders in which a range can visit a map. *)
Definition ascending : t8ntool.MapRange :=
  {| t8ntool.range_accounts := map_to_list;
     t8ntool.range_storage := fun _ => map_to_list |}.

Definition descending : t8ntool.MapRange :=
  {| t8ntool.range_accounts := fun m => reverse (map_to_list m);
     t8ntool.range_storage := fun _ m => reverse (map_to_list m) |}.

(** The fields of a payload, read off its bytes, and the size of its
    encoding. *)
Definition fields : @types.DynamicFeeTxFields codec :=
  {| types.dyn_gas := fun d : @types.DynamicFeeTx codec =>
       21000 + 16 * Z.of_nat (length (d : bytes));
     types.dyn_gasPrice := fun _ => Some 7;
     types.dyn_gasTipCap := fun _ => Some 2;
     types.dyn_gasFeeCap := fun _ => Some 7;
     types.dyn_value := fun _ => Some 0;
     types.dyn_nonce := fun d : @types.DynamicFeeTx codec =>
       Z.of_nat (length (d : bytes));
     types.dyn_to := fun _ => Some 2 |}.

Definition sizer : @types.TxSizer codec :=
  {| types.rlpEncodedSize := fun i : option (@types.TxData codec) =>
       match i with
       | Some (types.DynamicFeeTxData d) => 1 + Z.of_nat (length (d : bytes))
       | Some (types.LegacyTxData _) | None => 1
       end |}.

(** Init code that returns code starting with 0xEF. *)
Definition efInit : vm.codeAndHash :=
  {| vm.cah_code := [xf3; xef; x00]; vm.cah_hash := ZeroHash |}.


End demo.

(* ================================================================== *)
(** * Properties *)
(* ================================================================== *)

(* ------------------------------------------------------------------ *)
(** ** The transaction envelope *)
(* ------------------------------------------------------------------ *)

Section EnvelopeProperties.
Import common types.
Context `{TxHasher}.



Lemma decodeTyped_short (b : bytes) :
  (length b <= 1)%nat -> decodeTyped b = Return (None, Some errShortTypedTx).
Proof.
  intros Hlen. unfold decodeTyped.
  destruct (Nat.leb_spec (length b) 1) as [_|Hgt]; [reflexivity | lia].
Qed.

Lemma decodeTyped_unsupported (b0 : byte) (rest : bytes) :
  rest <> [] -> b0 <> DynamicFeeTxType ->
  decodeTyped (b0 :: rest) = Return (None, Some ErrTxTypeNotSupported).
Proof.
  intros Hrest Hne. unfold decodeTyped.
  destruct rest as [|r rest']; [congruence|]. simpl.
  destruct (decide (b0 = DynamicFeeTxType)); [contradiction | reflexivity].
Qed.

Lemma decodeTyped_dynamic (rest : bytes) :
  rest <> [] ->
  decodeTyped (DynamicFeeTxType :: rest)
  = Return (Some (DynamicFeeTxData (dyn_decode dyn_new rest).1),
            (dyn_decode dyn_new rest).2).
Proof.
  intros Hrest. unfold decodeTyped.
  destruct rest as [|r rest']; [congruence|].
  cbn [length Nat.leb]. 
  destruct (decide (DynamicFeeTxType = DynamicFeeTxType)); [|contradiction].
  unfold decode, obind. destruct (dyn_decode dyn_new (r :: rest')); reflexivity.
Qed.

(** decodeTyped returns; what it decodes is never a LegacyTx. *)
Lemma decodeTyped_returns (b : bytes) :
  exists i e, decodeTyped b = Return (i, e)
              /\ (e = None -> exists d, i = Some (DynamicFeeTxData d)).
Proof.
  destruct (le_lt_dec (length b) 1) as [Hle|Hgt].
  - rewrite decodeTyped_short by exact Hle. eexists _, _. split; [reflexivity|].
    discriminate.
  - destruct b as [|b0 rest]; [simpl in Hgt; lia|].
    assert (rest <> []) by (destruct rest; simpl in Hgt; [lia | discriminate]).
    destruct (decide (b0 = DynamicFeeTxType)) as [->|Hne].
    + rewrite decodeTyped_dynamic by assumption.
      eexists _, _. split; [reflexivity|]. intros _. eexists. reflexivity.
    + rewrite decodeTyped_unsupported by assumption.
      eexists _, _. split; [reflexivity|]. discriminate.
Qed.

(** C9.  Decoding is total and knows one transaction type: for every
    input, UnmarshalBinary and decodeTyped return errShortTypedTx when the
    input has at most one byte; they return ErrTxTypeNotSupported when the
    input is longer and its first byte is not 0x02 (DynamicFeeTxType); they
    never panic; and what they decode is a DynamicFeeTx, never a LegacyTx
    (whose decode method, which panics, is out of their reach). *)
Theorem decoding_total_single_type (tx : Transaction) (b : bytes) (now : Z) :
  ((length b <= 1)%nat ->
     decodeTyped b = Return (None, Some errShortTypedTx)
     /\ UnmarshalBinary tx b now = Return (tx, Some errShortTypedTx))
  /\ ((1 < length b)%nat -> head b <> Some x02 ->
        decodeTyped b = Return (None, Some ErrTxTypeNotSupported)
        /\ UnmarshalBinary tx b now = Return (tx, Some ErrTxTypeNotSupported))
  /\ panics (decodeTyped b) = false
  /\ panics (UnmarshalBinary tx b now) = false
  /\ (forall i, decodeTyped b = Return (i, None) ->
        exists d, i = Some (DynamicFeeTxData d))
  /\ (forall tx', UnmarshalBinary tx b now = Return (tx', None) ->
        exists d, inner tx' = Some (DynamicFeeTxData d)).
Proof.
  repeat split.
  - apply decodeTyped_short. assumption.
  - unfold UnmarshalBinary. rewrite decodeTyped_short by assumption. reflexivity.
  - destruct b as [|b0 rest]; [simpl in *; lia|].
    apply decodeTyped_unsupported.
    + destruct rest; simpl in *; [lia | discriminate].
    + intros ->. simpl in *. unfold DynamicFeeTxType in *. congruence.
  - destruct b as [|b0 rest]; [simpl in *; lia|].
    unfold UnmarshalBinary. rewrite decodeTyped_unsupported; [reflexivity| |].
    + destruct rest; simpl in *; [lia | discriminate].
    + intros ->. simpl in *. unfold DynamicFeeTxType in *. congruence.
  - destruct (decodeTyped_returns b) as (i & e & -> & _). reflexivity.
  - unfold UnmarshalBinary.
    destruct (decodeTyped_returns b) as (i & e & -> & _).
    simpl. destruct e; reflexivity.
  - intros i Hd. destruct (decodeTyped_returns b) as (i' & e & Hr & Hdyn).
    rewrite Hr in Hd. injection Hd as -> ->. apply Hdyn. reflexivity.
  - intros tx' Hu. unfold UnmarshalBinary in Hu.
    destruct (decodeTyped_returns b) as (i' & e & Hr & Hdyn).
    rewrite Hr in Hu. simpl in Hu. destruct e; [discriminate|].
    injection Hu as <-. simpl. apply Hdyn. reflexivity.
Qed.


End EnvelopeProperties.



(* ------------------------------------------------------------------ *)
(** ** Checkpoints of the state database *)
(* ------------------------------------------------------------------ *)

Section StateProperties.
Import state.

Lemma grows_refl (s : StateDB) : grows s s.
Proof. unfold grows. reflexivity. Qed.

Lemma grows_trans (s1 s2 s3 : StateDB) : grows s1 s2 -> grows s2 s3 -> grows s1 s3.
Proof. unfold grows. intros H12 H23. etransitivity; eassumption. Qed.

Lemma grows_same (s s' s'' : StateDB) :
  validRevisions s'' = validRevisions s' -> grows s s' -> grows s s''.
Proof. unfold grows. intros ->. trivial. Qed.

Lemma Snapshot_grows (s : StateDB) : grows s (Snapshot s).2.
Proof. unfold grows, Snapshot. simpl. apply prefix_app_r. reflexivity. Qed.

Lemma Snapshot_live (s : StateDB) : live (Snapshot s).2 = live s.
Proof. reflexivity. Qed.

(** Reverting to a checkpoint restores the journaled state as it was when
    the checkpoint was opened, whatever was done and whichever checkpoints
    were opened since, and closes the checkpoints opened since. *)
Lemma RevertToSnapshot_restores (s s2 : StateDB) :
  grows (Snapshot s).2 s2 ->
  live (RevertToSnapshot (Snapshot s).1 s2) = live s
  /\ validRevisions (RevertToSnapshot (Snapshot s).1 s2) = validRevisions s.
Proof.
  unfold grows, Snapshot, RevertToSnapshot. simpl.
  intros [k Hk]. rewrite Hk. rewrite <- app_assoc. simpl.
  rewrite list_lookup_middle by reflexivity. simpl.
  split; [reflexivity|]. rewrite take_app_length. reflexivity.
Qed.

(** Snapshot idempotence: a checkpoint opened and reverted at once leaves
    the state as it was. *)
Lemma Snapshot_Revert (s : StateDB) :
  RevertToSnapshot (Snapshot s).1 (Snapshot s).2 = s.
Proof.
  destruct (RevertToSnapshot_restores s (Snapshot s).2 (grows_refl _)) as [Hl Hr].
  destruct s as [l t i r]. unfold RevertToSnapshot, Snapshot in *. simpl in *.
  rewrite list_lookup_middle by reflexivity.
  rewrite take_app_length. reflexivity.
Qed.

End StateProperties.

(* ------------------------------------------------------------------ *)
(** ** The sub-call operations *)
(* ------------------------------------------------------------------ *)

Section MachineProperties.
Import common.
Context `{vm.Machine}.

Definition transfers_keep (c : vm.BlockContext) : Prop :=
  forall s a b v, state.grows s (vm.Transfer c s a b v).

Definition ops_keep (c : vm.BlockContext) (o : vm.Ops) : Prop :=
  (forall zvm caller addr input gas value, vm.Context zvm = c ->
     state.grows (vm.StateDB zvm)
       (vm.StateDB (vm.zvm_out (vm.op_Call o zvm caller addr input gas value))))
  /\ (forall zvm caller addr input gas, vm.Context zvm = c ->
     state.grows (vm.StateDB zvm)
       (vm.StateDB (vm.zvm_out (vm.op_DelegateCall o zvm caller addr input gas))))
  /\ (forall zvm caller addr input gas, vm.Context zvm = c ->
     state.grows (vm.StateDB zvm)
       (vm.StateDB (vm.zvm_out (vm.op_StaticCall o zvm caller addr input gas))))
  /\ (forall zvm caller cah gas value address typ, vm.Context zvm = c ->
     state.grows (vm.StateDB zvm)
       (vm.StateDB (vm.c_zvm (vm.op_create o zvm caller cah gas value address typ)))).

Definition exec_keeps : Prop :=
  forall sub zvm contract input readOnly,
    ops_keep (vm.Context zvm) sub ->
    state.grows (vm.StateDB zvm)
      (vm.x_StateDB (vm.exec sub zvm contract input readOnly)).

Lemma Run_keeps sub zvm contract input readOnly :
  exec_keeps -> ops_keep (vm.Context zvm) sub ->
  state.grows (vm.StateDB zvm) (vm.x_StateDB (vm.Run sub zvm contract input readOnly)).
Proof.
  intros He Hs. unfold vm.Run. apply (He sub (vm.set_depth zvm _)). exact Hs.
Qed.

Lemma StateDB_captureStart zvm typ a b c i g v :
  vm.StateDB (vm.captureStart zvm typ a b c i g v) = vm.StateDB zvm.
Proof. unfold vm.captureStart. destruct (_ =? _)%Z; reflexivity. Qed.

Lemma Context_captureStart zvm typ a b c i g v :
  vm.Context (vm.captureStart zvm typ a b c i g v) = vm.Context zvm.
Proof. unfold vm.captureStart. destruct (_ =? _)%Z; reflexivity. Qed.

Lemma Context_captureEnd zvm o g e :
  vm.Context (vm.captureEnd zvm o g e) = vm.Context zvm.
Proof. unfold vm.captureEnd. destruct (_ =? _)%Z; reflexivity. Qed.

Lemma StateDB_captureEnd zvm o g e :
  vm.StateDB (vm.captureEnd zvm o g e) = vm.StateDB zvm.
Proof. unfold vm.captureEnd. destruct (_ =? _)%Z; reflexivity. Qed.


Lemma grows_Transfer c s s1 a b v :
  transfers_keep c -> state.grows s s1 -> state.grows s (vm.Transfer c s1 a b v).
Proof. intros Ht Hg. eapply grows_trans; [exact Hg | apply Ht]. Qed.

Lemma grows_with_live s s1 f :
  state.grows s s1 -> state.grows s (state.with_live f s1).
Proof. intros Hg. eapply grows_same; [|exact Hg]. reflexivity. Qed.

Lemma grows_CreateAccount s s1 a :
  state.grows s s1 -> state.grows s (state.CreateAccount a s1).
Proof. apply grows_with_live. Qed.

Lemma grows_SetNonce s s1 a n :
  state.grows s s1 -> state.grows s (state.SetNonce a n s1).
Proof. apply grows_with_live. Qed.

Lemma grows_SetCode s s1 a c :
  state.grows s s1 -> state.grows s (state.SetCode a c s1).
Proof. apply grows_with_live. Qed.

Lemma grows_AddBalance s s1 a n :
  state.grows s s1 -> state.grows s (state.AddBalance a n s1).
Proof. apply grows_with_live. Qed.

Lemma grows_AddAddressToAccessList s s1 a :
  state.grows s s1 -> state.grows s (state.AddAddressToAccessList a s1).
Proof. apply grows_with_live. Qed.

Lemma grows_Run s c sub zvm contract input readOnly :
  exec_keeps -> vm.Context zvm = c -> ops_keep c sub ->
  state.grows s (vm.StateDB zvm) ->
  state.grows s (vm.x_StateDB (vm.Run sub zvm contract input readOnly)).
Proof.
  intros He <- Hs Hg. eapply grows_trans; [exact Hg|]. apply Run_keeps; assumption.
Qed.

Lemma grows_Snapshot s s1 n s2 :
  state.Snapshot s1 = (n, s2) -> state.grows s s1 -> state.grows s s2.
Proof.
  intros Hs Hg. eapply grows_trans; [exact Hg|].
  replace s2 with (state.Snapshot s1).2 by (rewrite Hs; reflexivity).
  apply Snapshot_grows.
Qed.

Lemma Revert_live s n s1 s2 :
  state.Snapshot s = (n, s1) -> state.grows s1 s2 ->
  state.live (state.RevertToSnapshot n s2) = state.live s.
Proof.
  intros Hs Hg.
  replace n with (state.Snapshot s).1 by (rewrite Hs; reflexivity).
  apply RevertToSnapshot_restores. rewrite Hs. exact Hg.
Qed.

Lemma Revert_grows s0 s n s1 s2 :
  state.Snapshot s = (n, s1) -> state.grows s1 s2 -> state.grows s0 s ->
  state.grows s0 (state.RevertToSnapshot n s2).
Proof.
  intros Hs Hg H0.
  eapply grows_same; [|exact H0].
  replace n with (state.Snapshot s).1 by (rewrite Hs; reflexivity).
  apply RevertToSnapshot_restores. rewrite Hs. exact Hg.
Qed.


(** The tracer calls, folded: they leave the state database and the
    context alone. *)
Definition traced (b : bool) (f : vm.ZVM -> vm.ZVM) (zvm : vm.ZVM) : vm.ZVM :=
  if b then f zvm else zvm.

Definition silent (f : vm.ZVM -> vm.ZVM) : Prop :=
  forall z, vm.StateDB (f z) = vm.StateDB z /\ vm.Context (f z) = vm.Context z
            /\ vm.depth (f z) = vm.depth z /\ vm.zvm_Config (f z) = vm.zvm_Config z.

Lemma silent_capture e : silent (vm.capture e).
Proof. intros z. repeat split. Qed.

Lemma silent_captureStart typ a b c i g v :
  silent (fun z => vm.captureStart z typ a b c i g v).
Proof. intros z. unfold vm.captureStart. destruct (_ =? _)%Z; repeat split. Qed.

Lemma silent_captureEnd o g e : silent (fun z => vm.captureEnd z o g e).
Proof. intros z. unfold vm.captureEnd. destruct (_ =? _)%Z; repeat split. Qed.

Lemma silent_compose f g : silent f -> silent g -> silent (fun z => f (g z)).
Proof.
  intros Hf Hg z. destruct (Hf (g z)) as (-> & -> & -> & ->). apply Hg.
Qed.

Lemma StateDB_traced b f z : silent f -> vm.StateDB (traced b f z) = vm.StateDB z.
Proof. intros Hf. unfold traced. destruct b; [apply Hf | reflexivity]. Qed.

Lemma Context_traced b f z : silent f -> vm.Context (traced b f z) = vm.Context z.
Proof. intros Hf. unfold traced. destruct b; [apply Hf | reflexivity]. Qed.

Lemma silent_captureEndStart typ a b c i g v o g' e :
  silent (fun z => vm.captureEnd (vm.captureStart z typ a b c i g v) o g' e).
Proof.
  apply (silent_compose (fun z => vm.captureEnd z o g' e)
           (fun z => vm.captureStart z typ a b c i g v)).
  - apply silent_captureEnd.
  - apply silent_captureStart.
Qed.

Create HintDb silent.
#[local] Hint Resolve silent_capture silent_captureStart silent_captureEnd
  silent_captureEndStart : silent.

Ltac fold_traced :=
  repeat match goal with
  | |- context C [if ?b then vm.captureEnd (vm.captureStart ?z ?t ?a1 ?a2 ?a3 ?a4 ?a5 ?a6) ?o ?g ?e else ?z] =>
      let G := context C [traced b (fun z' => vm.captureEnd (vm.captureStart z' t a1 a2 a3 a4 a5 a6) o g e) z] in
      change G
  | |- context C [if ?b then vm.captureStart ?z ?t ?a1 ?a2 ?a3 ?a4 ?a5 ?a6 else ?z] =>
      let G := context C [traced b (fun z' => vm.captureStart z' t a1 a2 a3 a4 a5 a6) z] in
      change G
  | |- context C [if ?b then vm.captureEnd ?z ?o ?g ?e else ?z] =>
      let G := context C [traced b (fun z' => vm.captureEnd z' o g e) z] in
      change G
  | |- context C [if ?b then vm.capture ?e ?z else ?z] =>
      let G := context C [traced b (vm.capture e) z] in
      change G
  end.

Ltac vm_norm :=
  repeat (progress (
    cbn beta iota zeta delta
        [vm.StateDB vm.set_StateDB vm.after vm.Context
         vm.zvm_out vm.err vm.ret vm.leftOverGas vm.c_zvm vm.c_err
         vm.c_ret vm.c_leftOverGas vm.c_addr vm.depth vm.zvm_Config
         vm.set_depth fst snd];
    rewrite ?StateDB_traced, ?Context_traced by (auto 6 with silent))).

Ltac atomic x :=
  lazymatch x with
  | vm.Tracer _ => fail
  | context [if _ then _ else _] => fail
  | context [match _ with (_, _) => _ end] => fail
  | context [match _ with Some _ => _ | None => _ end] => fail
  | _ => idtac
  end.

Ltac vm_step :=
  match goal with
  | |- context [if ?c then _ else _] => atomic c; destruct c eqn:?
  | |- context [match ?x with Some _ => _ | None => _ end] =>
      atomic x; destruct x eqn:?
  | |- context [match ?x with (_, _) => _ end] => atomic x; destruct x eqn:?
  end.

Ltac vm_cases := repeat (fold_traced; vm_norm; vm_step); fold_traced; vm_norm.

Create HintDb frame.
#[local] Hint Resolve grows_refl grows_Transfer grows_CreateAccount grows_SetNonce
  grows_SetCode grows_AddBalance grows_AddAddressToAccessList grows_Run
  grows_Snapshot Revert_grows : frame.
#[local] Hint Extern 1 (state.grows _ (vm.StateDB _)) => progress vm_norm : frame.
#[local] Hint Extern 1 (vm.Context _ = _) => vm_norm; reflexivity : frame.

Ltac frame_solve := solve [eauto 12 with frame].

Ltac vm_finish :=
  split;
  [ frame_solve
  | intros ? [=]; subst;
    try reflexivity;
    try (eapply Revert_live; [eassumption | frame_solve]) ].

Lemma Call_live sub zvm caller addr input gas value :
  exec_keeps -> transfers_keep (vm.Context zvm) -> ops_keep (vm.Context zvm) sub ->
  let r := vm.Call sub zvm caller addr input gas value in
  state.grows (vm.StateDB zvm) (vm.StateDB (vm.zvm_out r))
  /\ (forall e, vm.err r = Some e ->
       state.live (vm.StateDB (vm.zvm_out r)) = state.live (vm.StateDB zvm)).
Proof.
  intros He Ht Hs. cbv zeta. unfold vm.Call.
  vm_cases; vm_finish.
Qed.

Lemma DelegateCall_live sub zvm caller addr input gas :
  exec_keeps -> ops_keep (vm.Context zvm) sub ->
  let r := vm.DelegateCall sub zvm caller addr input gas in
  state.grows (vm.StateDB zvm) (vm.StateDB (vm.zvm_out r))
  /\ (forall e, vm.err r = Some e ->
       state.live (vm.StateDB (vm.zvm_out r)) = state.live (vm.StateDB zvm)).
Proof.
  intros He Hs. cbv zeta. unfold vm.DelegateCall.
  vm_cases; vm_finish.
Qed.

Lemma StaticCall_live sub zvm caller addr input gas :
  exec_keeps -> ops_keep (vm.Context zvm) sub ->
  let r := vm.StaticCall sub zvm caller addr input gas in
  state.grows (vm.StateDB zvm) (vm.StateDB (vm.zvm_out r))
  /\ (forall e, vm.err r = Some e ->
       state.live (vm.StateDB (vm.zvm_out r)) = state.live (vm.StateDB zvm)).
Proof.
  intros He Hs. cbv zeta. unfold vm.StaticCall.
  vm_cases; vm_finish.
Qed.

(** create refuses at one of its first three checks: depth, balance, nonce
    overflow. *)
Definition create_refuses (zvm : vm.ZVM) (caller : vm.ContractRef) (value : Z)
  : bool :=
  (vm.CallCreateDepth <? vm.depth zvm)%Z
  || negb (vm.CanTransfer (vm.Context zvm) (vm.StateDB zvm)
             (vm.Address_of caller) value)
  || (wrap64 (state.GetNonce (vm.Address_of caller) (vm.StateDB zvm) + 1)
      <? state.GetNonce (vm.Address_of caller) (vm.StateDB zvm))%Z.

(** The state in which create opens its checkpoint: the caller's nonce is
    raised and the new address is on the access list. *)
Definition create_entry (zvm : vm.ZVM) (caller : vm.ContractRef)
  (address : Address) : state.StateDB :=
  state.AddAddressToAccessList address
    (state.SetNonce (vm.Address_of caller)
       (wrap64 (state.GetNonce (vm.Address_of caller) (vm.StateDB zvm) + 1))
       (vm.StateDB zvm)).

Lemma create_refused sub zvm caller cah gas value address typ :
  create_refuses zvm caller value = true ->
  let r := vm.create sub zvm caller cah gas value address typ in
  vm.c_zvm r = zvm /\ vm.c_leftOverGas r = gas /\ vm.c_ret r = []
  /\ (vm.c_err r = Some vm.ErrDepth \/ vm.c_err r = Some vm.ErrInsufficientBalance
      \/ vm.c_err r = Some vm.ErrNonceUintOverflow).
Proof.
  unfold create_refuses, vm.create. intros Hr. cbv zeta.
  destruct (_ <? _)%Z; [simpl; auto|].
  destruct (negb _); [simpl; auto 6|].
  simpl in Hr. rewrite Hr. simpl; auto 6.
Qed.

Lemma create_live sub zvm caller cah gas value address typ :
  exec_keeps -> transfers_keep (vm.Context zvm) -> ops_keep (vm.Context zvm) sub ->
  create_refuses zvm caller value = false ->
  let r := vm.create sub zvm caller cah gas value address typ in
  state.grows (vm.StateDB zvm) (vm.StateDB (vm.c_zvm r))
  /\ (forall e, vm.c_err r = Some e -> e <> vm.ErrCodeStoreOutOfGas ->
       state.live (vm.StateDB (vm.c_zvm r))
       = state.live (create_entry zvm caller address)).
Proof.
  intros He Ht Hs Hr. cbv zeta. unfold vm.create, create_entry.
  apply orb_false_elim in Hr as [Hr H3]. apply orb_false_elim in Hr as [H1 H2].
  rewrite H1, H2, H3. cbn iota.
  vm_cases.
  all: split;
    [ frame_solve
    | intros e0 [=] Hne; subst;
      repeat match goal with
             | H : negb (bool_decide _) = false |- _ =>
                 apply negb_false_iff, bool_decide_eq_true in H
             end;
      try congruence;
      try (eapply Revert_live; [eassumption | frame_solve]) ].
Qed.


(** Every operation of the machine keeps the checkpoints that were open
    when it was called. *)
Lemma ops_keep_ops (c : vm.BlockContext) :
  exec_keeps -> transfers_keep c -> forall n, ops_keep c (vm.ops n).
Proof.
  intros He Ht n. induction n as [|n IH].
  - repeat split; intros; simpl; apply grows_refl.
  - repeat split; intros; subst c; simpl.
    + apply Call_live; assumption.
    + apply DelegateCall_live; assumption.
    + apply StaticCall_live; assumption.
    + destruct (create_refuses zvm caller value) eqn:Hr.
      * destruct (create_refused (vm.ops n) zvm caller cah gas value address typ Hr)
          as (-> & _). apply grows_refl.
      * apply create_live; assumption.
Qed.


(** What an operation returns when it refuses the call at the depth check:
    no data, the gas as supplied, ErrDepth, and the machine as it was. *)
Definition depthRefusal (gas : Z) (zvm : vm.ZVM) : vm.CallResult :=
  {| vm.ret := []; vm.leftOverGas := gas; vm.err := Some vm.ErrDepth;
     vm.zvm_out := zvm |}.

Definition depthRefusalCreate (gas : Z) (zvm : vm.ZVM) : vm.CreateResult :=
  {| vm.c_ret := []; vm.c_addr := 0; vm.c_leftOverGas := gas;
     vm.c_err := Some vm.ErrDepth; vm.c_zvm := zvm |}.

(** C5.  The call depth is bounded by params.CallCreateDepth: Call,
    DelegateCall, StaticCall and create, invoked on a machine whose depth
    exceeds the limit, fail at once with ErrDepth, hand back the supplied
    gas untouched and leave the machine and its state as they were.  This
    holds for the methods of the machine and for the operations handed to
    the interpreter of any frame ([ops n]), which gets the failure as a
    result and goes on. *)
Theorem depth_limit_fails_inner_call (zvm : vm.ZVM) (n : nat) :
  (vm.CallCreateDepth < vm.depth zvm)%Z ->
  (forall caller addr input gas value,
     vm.ZVM_Call zvm caller addr input gas value = depthRefusal gas zvm
     /\ vm.op_Call (vm.ops n) zvm caller addr input gas value
        = depthRefusal gas zvm)
  /\ (forall caller addr input gas,
        vm.ZVM_DelegateCall zvm caller addr input gas = depthRefusal gas zvm
        /\ vm.op_DelegateCall (vm.ops n) zvm caller addr input gas
           = depthRefusal gas zvm)
  /\ (forall caller addr input gas,
        vm.ZVM_StaticCall zvm caller addr input gas = depthRefusal gas zvm
        /\ vm.op_StaticCall (vm.ops n) zvm caller addr input gas
           = depthRefusal gas zvm)
  /\ (forall caller cah gas value address typ,
        vm.ZVM_create zvm caller cah gas value address typ
        = depthRefusalCreate gas zvm
        /\ vm.op_create (vm.ops n) zvm caller cah gas value address typ
           = depthRefusalCreate gas zvm).
Proof.
  intros Hd. apply Z.ltb_lt in Hd.
  repeat split.
  all: try (unfold vm.ZVM_Call, vm.ZVM_DelegateCall, vm.ZVM_StaticCall,
              vm.ZVM_create, vm.Call, vm.DelegateCall, vm.StaticCall, vm.create;
            rewrite Hd; reflexivity).
  all: destruct n; simpl; try reflexivity;
    unfold vm.Call, vm.DelegateCall, vm.StaticCall, vm.create;
    rewrite Hd; reflexivity.
Qed.

(** C10 (as amended).  A Call with zero value, at a depth within the limit,
    to an address that is absent from the state and is no precompile,
    succeeds trivially: no data, no error, all the gas left, no account at
    the address, and the journaled state as before. *)
Theorem call_to_absent_account (sub : vm.Ops) (zvm : vm.ZVM)
  (caller : vm.ContractRef) (addr : Address) (input : bytes) (gas : Z) :
  (vm.depth zvm <= vm.CallCreateDepth)%Z ->
  state.Exist addr (vm.StateDB zvm) = false ->
  vm.precompile zvm addr = None ->
  let r := vm.Call sub zvm caller addr input gas 0 in
  vm.ret r = [] /\ vm.err r = None /\ vm.leftOverGas r = gas
  /\ state.live (vm.StateDB (vm.zvm_out r)) = state.live (vm.StateDB zvm)
  /\ state.Exist addr (vm.StateDB (vm.zvm_out r)) = false.
Proof.
  intros Hd Hex Hp. cbv zeta. unfold vm.Call.
  apply Z.ltb_ge in Hd. rewrite Hd. cbn [Z.eqb negb andb].
  destruct (state.Snapshot (vm.StateDB zvm)) as [n s] eqn:Hs.
  assert (Hl : state.live s = state.live (vm.StateDB zvm))
    by (injection Hs as <- <-; reflexivity).
  assert (Hex' : state.Exist addr s = false)
    by (unfold state.Exist, state.getStateObject in *; rewrite Hl; exact Hex).
  change (vm.precompile _ addr) with (vm.precompile zvm addr). rewrite Hp.
  vm_norm. rewrite Hex'.
  rewrite bool_decide_eq_false_2 by (intros [? ?]; discriminate).
  cbn [negb andb]. fold_traced. vm_norm.
  repeat split; assumption.
Qed.

(** C2 (as amended).  Call, DelegateCall and StaticCall open their
    checkpoint before they change anything, and whenever they return an
    error the journaled state is the state at entry.  create raises the
    caller's nonce and puts the new address on the access list before it
    opens its checkpoint: when it refuses at one of its first three checks
    the state is the state at entry, and whenever it returns another error,
    other than ErrCodeStoreOutOfGas, the journaled state is the state in
    which the checkpoint was opened ([create_entry]).  The error is a
    result of the operation. *)
Theorem failed_subcall_reverts_to_checkpoint (zvm : vm.ZVM) :
  exec_keeps -> transfers_keep (vm.Context zvm) ->
  (forall caller addr input gas value e,
     vm.err (vm.ZVM_Call zvm caller addr input gas value) = Some e ->
     state.live (vm.StateDB (vm.zvm_out (vm.ZVM_Call zvm caller addr input gas value)))
     = state.live (vm.StateDB zvm))
  /\ (forall caller addr input gas e,
     vm.err (vm.ZVM_DelegateCall zvm caller addr input gas) = Some e ->
     state.live (vm.StateDB (vm.zvm_out (vm.ZVM_DelegateCall zvm caller addr input gas)))
     = state.live (vm.StateDB zvm))
  /\ (forall caller addr input gas e,
     vm.err (vm.ZVM_StaticCall zvm caller addr input gas) = Some e ->
     state.live (vm.StateDB (vm.zvm_out (vm.ZVM_StaticCall zvm caller addr input gas)))
     = state.live (vm.StateDB zvm))
  /\ (forall caller cah gas value address typ e,
     vm.c_err (vm.ZVM_create zvm caller cah gas value address typ) = Some e ->
     e <> vm.ErrCodeStoreOutOfGas ->
     state.live (vm.StateDB (vm.c_zvm (vm.ZVM_create zvm caller cah gas value address typ)))
     = state.live (if create_refuses zvm caller value then vm.StateDB zvm
                   else create_entry zvm caller address)).
Proof.
  intros He Ht.
  pose proof (ops_keep_ops (vm.Context zvm) He Ht (vm.levels zvm)) as Hs.
  repeat split.
  - intros. eapply Call_live; eassumption.
  - intros. eapply DelegateCall_live; eassumption.
  - intros. eapply StaticCall_live; eassumption.
  - intros caller cah gas value address typ e Herr Hne.
    destruct (create_refuses zvm caller value) eqn:Hr.
    + unfold vm.ZVM_create.
      destruct (create_refused (vm.ops (vm.levels zvm)) zvm caller cah gas value
                  address typ Hr) as (-> & _). reflexivity.
    + eapply create_live; eassumption.
Qed.




(** create finds a contract at the address already: the second of the two
    checks it makes after raising the nonce. *)
Definition create_collides (zvm : vm.ZVM) (caller : vm.ContractRef)
  (address : Address) : bool :=
  let s := create_entry zvm caller address in
  negb (state.GetNonce address s =? 0)%Z
  || (negb (bool_decide (state.GetCodeHash address s = ZeroHash))
      && negb (bool_decide (state.GetCodeHash address s = types.EmptyCodeHash))).

(** The machine and the contract that create hands to the interpreter. *)
Definition create_frame (zvm : vm.ZVM) (caller : vm.ContractRef)
  (cah : vm.codeAndHash) (gas value : Z) (address : Address) (typ : vm.OpCode)
  : vm.ZVM * vm.Contract :=
  let s := (state.Snapshot (create_entry zvm caller address)).2 in
  let s :=
    vm.Transfer (vm.Context zvm)
      (state.SetNonce address 1 (state.CreateAccount address s))
      (vm.Address_of caller) address value in
  let zvm1 := vm.set_StateDB zvm s in
  (if vm.Tracer (vm.zvm_Config zvm)
   then vm.captureStart zvm1 typ (vm.Address_of caller) address true
          (vm.cah_code cah) gas (Some value)
   else zvm1,
   vm.SetCodeOptionalHash
     (vm.NewContract caller (vm.AccountRef address) (Some value) gas)
     address cah).

Lemma set_StateDB_twice (z : vm.ZVM) (a b : state.StateDB) :
  vm.set_StateDB (vm.set_StateDB z a) b = vm.set_StateDB z b.
Proof. reflexivity. Qed.

Lemma UseGas_all (c : vm.Contract) : vm.Gas (vm.UseGas c (vm.Gas c)).2 = 0%Z.
Proof. unfold vm.UseGas. rewrite Z.ltb_irrefl. simpl. lia. Qed.

Lemma GetCode_live (a : Address) (s1 s2 : state.StateDB) :
  state.live s1 = state.live s2 -> state.GetCode a s1 = state.GetCode a s2.
Proof.
  intros Hl. unfold state.GetCode, state.getOrNewStateObject,
    state.getStateObject. rewrite Hl. reflexivity.
Qed.

Lemma no_collision_no_code (zvm : vm.ZVM) (caller : vm.ContractRef)
  (address : Address) :
  create_collides zvm caller address = false ->
  state.GetCode address (create_entry zvm caller address) = [].
Proof.
  unfold create_collides. cbv zeta. intros Hc.
  apply orb_false_elim in Hc as [_ Hc].
  unfold state.GetCode, state.GetCodeHash, state.getOrNewStateObject in *.
  destruct (state.getStateObject address (create_entry zvm caller address))
    as [a|]; [|reflexivity].
  simpl. apply andb_false_iff in Hc as [Hc|Hc];
    apply negb_false_iff, bool_decide_eq_true in Hc.
  - discriminate Hc.
  - unfold types.EmptyCodeHash in Hc. injection Hc as ->. reflexivity.
Qed.

(** C7.  When the init code of a creation returns, without error, data
    longer than params.MaxCodeSize, create fails with
    ErrMaxCodeSizeExceeded, the state changes of the creation are reverted
    (the journaled state is the one in which create opened its checkpoint),
    so that the address of the would-be contract holds no code, and the
    gas of the creation frame is used up: leftOverGas is 0. *)
Theorem oversized_code_fails_creation (zvm : vm.ZVM) (caller : vm.ContractRef)
  (cah : vm.codeAndHash) (gas value : Z) (address : Address) (typ : vm.OpCode) :
  exec_keeps -> transfers_keep (vm.Context zvm) ->
  create_refuses zvm caller value = false ->
  create_collides zvm caller address = false ->
  let frame := create_frame zvm caller cah gas value address typ in
  let x := vm.Run (vm.ops (vm.levels zvm)) frame.1 frame.2 [] false in
  vm.x_err x = None ->
  (vm.MaxCodeSize < Z.of_nat (length (vm.x_ret x)))%Z ->
  let r := vm.ZVM_create zvm caller cah gas value address typ in
  vm.c_err r = Some vm.ErrMaxCodeSizeExceeded
  /\ vm.c_leftOverGas r = 0%Z
  /\ vm.c_ret r = vm.x_ret x
  /\ vm.c_addr r = address
  /\ state.live (vm.StateDB (vm.c_zvm r))
     = state.live (create_entry zvm caller address)
  /\ state.GetCode address (vm.StateDB (vm.c_zvm r)) = [].
Proof.
  intros He Ht Hr Hc. cbv zeta. intros Hx Hlen.
  pose proof (ops_keep_ops (vm.Context zvm) He Ht (vm.levels zvm)) as Hs.
  assert (Herr : vm.c_err (vm.ZVM_create zvm caller cah gas value address typ)
                 = Some vm.ErrMaxCodeSizeExceeded
                 /\ vm.c_leftOverGas (vm.ZVM_create zvm caller cah gas value address typ) = 0%Z
                 /\ vm.c_ret (vm.ZVM_create zvm caller cah gas value address typ)
                    = vm.x_ret (vm.Run (vm.ops (vm.levels zvm))
                                  (create_frame zvm caller cah gas value address typ).1
                                  (create_frame zvm caller cah gas value address typ).2
                                  [] false)
                 /\ vm.c_addr (vm.ZVM_create zvm caller cah gas value address typ) = address).
  { revert Hx Hlen.
    unfold vm.ZVM_create, vm.create, create_frame. cbv zeta.
    pose proof Hr as Hr'. unfold create_refuses in Hr'.
    apply orb_false_elim in Hr' as [Hr' H3].
    apply orb_false_elim in Hr' as [H1 H2].
    rewrite H1, H2, H3. cbn iota.
    cbn [vm.StateDB vm.set_StateDB vm.Context vm.zvm_Config].
    change (state.AddAddressToAccessList address _)
      with (create_entry zvm caller address).
    unfold create_collides in Hc. cbv zeta in Hc. rewrite Hc.
    destruct (state.Snapshot (create_entry zvm caller address)) as [n s] eqn:Hsnap.
    cbn [snd fst vm.StateDB vm.set_StateDB vm.Context vm.zvm_Config vm.depth
         vm.zvm_TxContext vm.trace].
    rewrite !set_StateDB_twice.
    match goal with
    | |- vm.x_err ?X = None -> _ => set (x := X)
    end.
    intros Hx Hlen. apply Z.ltb_lt in Hlen.
    rewrite Hx, Hlen.
    rewrite (bool_decide_eq_true_2 (None = None)) by reflexivity.
    cbn [andb].
    rewrite (bool_decide_eq_false_2 (Some vm.ErrMaxCodeSizeExceeded = None))
      by discriminate.
    cbn [andb].
    rewrite (bool_decide_eq_false_2 (vm.ErrMaxCodeSizeExceeded = vm.ErrCodeStoreOutOfGas))
      by discriminate.
    rewrite (bool_decide_eq_false_2 (vm.ErrMaxCodeSizeExceeded = vm.ErrExecutionReverted))
      by discriminate.
    cbn [negb]. fold_traced. vm_norm.
    repeat split. apply UseGas_all. }
  destruct Herr as (Herr & Hgas & Hret & Haddr).
  assert (Hlive : state.live
                    (vm.StateDB (vm.c_zvm (vm.ZVM_create zvm caller cah gas value
                                             address typ)))
                  = state.live (create_entry zvm caller address)).
  { eapply create_live; try eassumption. discriminate. }
  repeat split; try assumption.
  rewrite (GetCode_live address _ _ Hlive).
  apply no_collision_no_code. exact Hc.
Qed.

(** The state in which Call runs the callee: a checkpoint is open, the
    account exists, the value has moved. *)
Definition call_entry (zvm : vm.ZVM) (caller : vm.ContractRef) (addr : Address)
  (value : Z) : state.StateDB :=
  let s := (state.Snapshot (vm.StateDB zvm)).2 in
  let s := if state.Exist addr s then s else state.CreateAccount addr s in
  vm.Transfer (vm.Context zvm) s (vm.Address_of caller) addr value.

(** Call gets past its two entry checks. *)
Definition call_proceeds (zvm : vm.ZVM) (caller : vm.ContractRef) (value : Z)
  : bool :=
  negb (vm.CallCreateDepth <? vm.depth zvm)%Z
  && ((value =? 0)%Z
      || vm.CanTransfer (vm.Context zvm) (vm.StateDB zvm) (vm.Address_of caller)
           value).

(** Gas accounting of a failed call.  A Call that is refused for want of
    balance returns all its gas and leaves the machine untouched.  Past the
    entry checks, Call, DelegateCall and StaticCall return no gas at all
    when they fail with any error but ErrExecutionReverted. *)
Theorem failed_call_consumes_gas (sub : vm.Ops) (zvm : vm.ZVM)
  (caller : vm.ContractRef) (parent : vm.Contract) (addr : Address)
  (input : bytes) (gas value : Z) :
  ((vm.depth zvm <= vm.CallCreateDepth)%Z -> value <> 0%Z ->
   vm.CanTransfer (vm.Context zvm) (vm.StateDB zvm) (vm.Address_of caller) value
   = false ->
   vm.Call sub zvm caller addr input gas value
   = {| vm.ret := []; vm.leftOverGas := gas;
        vm.err := Some vm.ErrInsufficientBalance; vm.zvm_out := zvm |})
  /\ (forall e, call_proceeds zvm caller value = true ->
        vm.err (vm.Call sub zvm caller addr input gas value) = Some e ->
        e <> vm.ErrExecutionReverted ->
        vm.leftOverGas (vm.Call sub zvm caller addr input gas value) = 0%Z)
  /\ (forall e, (vm.depth zvm <= vm.CallCreateDepth)%Z ->
        vm.err (vm.DelegateCall sub zvm parent addr input gas) = Some e ->
        e <> vm.ErrExecutionReverted ->
        vm.leftOverGas (vm.DelegateCall sub zvm parent addr input gas) = 0%Z)
  /\ (forall e, (vm.depth zvm <= vm.CallCreateDepth)%Z ->
        vm.err (vm.StaticCall sub zvm caller addr input gas) = Some e ->
        e <> vm.ErrExecutionReverted ->
        vm.leftOverGas (vm.StaticCall sub zvm caller addr input gas) = 0%Z).
Proof.
  repeat apply conj.
  - intros Hd Hv Hc. unfold vm.Call.
    apply Z.ltb_ge in Hd. rewrite Hd, Hc.
    apply Z.eqb_neq in Hv. rewrite Hv. reflexivity.
  - intros e Ha. unfold call_proceeds in Ha.
    apply andb_prop in Ha as [Hd Hc]. apply negb_true_iff in Hd.
    unfold vm.Call. rewrite Hd.
    assert (Hc' : negb (value =? 0)%Z
                  && negb (vm.CanTransfer (vm.Context zvm) (vm.StateDB zvm)
                             (vm.Address_of caller) value) = false).
    { destruct (value =? 0)%Z; simpl in *; [reflexivity|]. rewrite Hc. reflexivity. }
    rewrite Hc'. vm_cases; intros [=] Hne; subst; try reflexivity; try congruence.
  - intros e Hd. apply Z.ltb_ge in Hd. unfold vm.DelegateCall. rewrite Hd.
    vm_cases; intros [=] Hne; subst; try reflexivity; try congruence.
  - intros e Hd. apply Z.ltb_ge in Hd. unfold vm.StaticCall. rewrite Hd.
    vm_cases; intros [=] Hne; subst; try reflexivity; try congruence.
Qed.


Lemma Exist_Snapshot (a : Address) (s : state.StateDB) :
  state.Exist a (state.Snapshot s).2 = state.Exist a s.
Proof. reflexivity. Qed.

(** A call to an account without code is a plain transfer.  When Call gets
    past its entry checks, the address is no precompile, and it exists or
    value is sent to it, and no code is found at it, then Call returns no
    error, no data and all the gas, and leaves the state in which the
    account exists and the value has moved. *)
Theorem call_without_code_transfers (sub : vm.Ops) (zvm : vm.ZVM)
  (caller : vm.ContractRef) (addr : Address) (input : bytes) (gas value : Z) :
  call_proceeds zvm caller value = true ->
  vm.PrecompiledContractsBerlin addr = None ->
  state.Exist addr (vm.StateDB zvm) = true \/ value <> 0%Z ->
  state.GetCode addr (call_entry zvm caller addr value) = [] ->
  let r := vm.Call sub zvm caller addr input gas value in
  vm.err r = None /\ vm.leftOverGas r = gas /\ vm.ret r = []
  /\ vm.StateDB (vm.zvm_out r) = call_entry zvm caller addr value
  /\ state.Exist addr (state.CreateAccount addr (vm.StateDB zvm)) = true.
Proof.
  intros Ha Hp Hex Hcode. cbv zeta.
  unfold call_proceeds in Ha. apply andb_prop in Ha as [Hd Hc].
  apply negb_true_iff in Hd.
  assert (Hc' : negb (value =? 0)%Z
                && negb (vm.CanTransfer (vm.Context zvm) (vm.StateDB zvm)
                           (vm.Address_of caller) value) = false).
  { destruct (value =? 0)%Z; simpl in *; [reflexivity|]. rewrite Hc. reflexivity. }
  assert (Hgo : negb (state.Exist addr (vm.StateDB zvm))
                && (negb (bool_decide (is_Some (@None vm.PrecompiledContract)))
                    && (value =? 0)%Z) = false).
  { destruct Hex as [-> | Hv]; [reflexivity|].
    apply Z.eqb_neq in Hv. rewrite Hv. rewrite !andb_false_r. reflexivity. }
  assert (Hnew : state.Exist addr (state.CreateAccount addr (vm.StateDB zvm)) = true).
  { unfold state.Exist, state.CreateAccount, state.setStateObject,
      state.getStateObject, state.with_accounts, state.with_live.
    simpl. rewrite lookup_insert_eq.
    apply bool_decide_eq_true_2. eexists. reflexivity. }
  unfold call_entry in Hcode |- *.
  unfold vm.Call, vm.precompile. rewrite Hd, Hc'.
  destruct (state.Snapshot (vm.StateDB zvm)) as [n s] eqn:Hs.
  assert (He : state.Exist addr s = state.Exist addr (vm.StateDB zvm)).
  { rewrite <- (Exist_Snapshot addr (vm.StateDB zvm)), Hs. reflexivity. }
  cbn [snd] in Hcode |- *.
  cbn [vm.StateDB vm.set_StateDB vm.Context vm.zvm_Config].
  rewrite Hp, He, Hgo. rewrite He in Hcode.
  destruct (state.Exist addr (vm.StateDB zvm));
    cbn [negb vm.StateDB vm.set_StateDB vm.Context vm.zvm_Config];
    fold_traced; vm_norm; rewrite Hcode; cbn [length Nat.eqb];
    fold_traced; vm_norm; repeat split; exact Hnew.
Qed.

(** With a tracer configured, the last event that a Call past its entry
    checks records is the end of its frame, CaptureEnd at depth 0 and
    CaptureExit below, and it reports what Call returns: the output, the
    gas supplied less the gas left over, and the error. *)
Theorem call_tracer_reports_result (sub : vm.Ops) (zvm : vm.ZVM)
  (caller : vm.ContractRef) (addr : Address) (input : bytes) (gas value : Z) :
  vm.Tracer (vm.zvm_Config zvm) = true ->
  call_proceeds zvm caller value = true ->
  let r := vm.Call sub zvm caller addr input gas value in
  last (vm.trace (vm.zvm_out r))
  = Some (if (vm.depth zvm =? 0)%Z
          then vm.CaptureEnd (vm.ret r) (wrap64 (gas - vm.leftOverGas r)) (vm.err r)
          else vm.CaptureExit (vm.ret r) (wrap64 (gas - vm.leftOverGas r))
                 (vm.err r)).
Proof.
  intros Ht Ha. cbv zeta.
  unfold call_proceeds in Ha. apply andb_prop in Ha as [Hd Hc].
  apply negb_true_iff in Hd.
  assert (Hc' : negb (value =? 0)%Z
                && negb (vm.CanTransfer (vm.Context zvm) (vm.StateDB zvm)
                           (vm.Address_of caller) value) = false).
  { destruct (value =? 0)%Z; simpl in *; [reflexivity|]. rewrite Hc. reflexivity. }
  assert (HE : forall z o g e,
             vm.depth z = vm.depth zvm ->
             last (vm.trace (vm.captureEnd z o g e))
             = Some (if (vm.depth zvm =? 0)%Z then vm.CaptureEnd o g e
                     else vm.CaptureExit o g e)).
  { intros z o g e Hz. unfold vm.captureEnd. rewrite Hz.
    destruct (vm.depth zvm =? 0)%Z; simpl; apply last_snoc. }
  assert (HS : forall z t a b c i g v,
             vm.depth (vm.captureStart z t a b c i g v) = vm.depth z).
  { intros z t a b c i g v. unfold vm.captureStart.
    destruct (vm.depth z =? 0)%Z; reflexivity. }
  remember (vm.Call sub zvm caller addr input gas value) as r eqn:Hr.
  revert r Hr. unfold vm.Call. rewrite Hd, Hc'.
  destruct (state.Snapshot (vm.StateDB zvm)) as [n s].
  cbn [vm.StateDB vm.set_StateDB vm.Context vm.zvm_Config]. rewrite Ht.
  repeat match goal with
         | |- context [if ?c then _ else _] =>
             lazymatch c with
             | context [if _ then _ else _] => fail
             | context [match _ with _ => _ end] => fail
             | (vm.depth _ =? 0)%Z => fail
             | _ => destruct c eqn:?
             end
         | |- context [match ?x with Some _ => _ | None => _ end] =>
             atomic x; destruct x eqn:?
         | |- context [match ?x with (_, _) => _ end] =>
             atomic x; destruct x eqn:?
         end;
    intros r ->; cbn [vm.zvm_out vm.ret vm.leftOverGas vm.err];
    rewrite ?Z.sub_diag; (rewrite HE; [reflexivity|]);
    cbn [vm.depth vm.set_StateDB vm.after]; rewrite ?HS; reflexivity.
Qed.

Lemma create_passes (sub : vm.Ops) (zvm : vm.ZVM) (caller : vm.ContractRef)
  (cah : vm.codeAndHash) (gas value : Z) (address : Address) (typ : vm.OpCode) :
  create_refuses zvm caller value = false ->
  (vm.CallCreateDepth <? vm.depth zvm)%Z = false
  /\ negb (vm.CanTransfer (vm.Context zvm) (vm.StateDB zvm)
             (vm.Address_of caller) value) = false
  /\ (wrap64 (state.GetNonce (vm.Address_of caller) (vm.StateDB zvm) + 1)
      <? state.GetNonce (vm.Address_of caller) (vm.StateDB zvm))%Z = false.
Proof.
  unfold create_refuses. intros Hr.
  apply orb_false_elim in Hr as [Hr H3].
  apply orb_false_elim in Hr as [H1 H2]. auto.
Qed.

(** create at an address that already holds a contract (a nonce, or code)
    fails with ErrContractAddressCollision, returns no gas and the zero
    address, and opens no checkpoint; the caller's nonce has gone up by one
    all the same and the address is on the access list. *)
Theorem create_collision_burns_gas (sub : vm.Ops) (zvm : vm.ZVM)
  (caller : vm.ContractRef) (cah : vm.codeAndHash) (gas value : Z)
  (address : Address) (typ : vm.OpCode) :
  create_refuses zvm caller value = false ->
  create_collides zvm caller address = true ->
  let r := vm.create sub zvm caller cah gas value address typ in
  r = {| vm.c_ret := []; vm.c_addr := 0; vm.c_leftOverGas := 0;
         vm.c_err := Some vm.ErrContractAddressCollision;
         vm.c_zvm := vm.set_StateDB zvm (create_entry zvm caller address) |}
  /\ state.GetNonce (vm.Address_of caller) (vm.StateDB (vm.c_zvm r))
     = wrap64 (state.GetNonce (vm.Address_of caller) (vm.StateDB zvm) + 1)
  /\ address ∈ state.accessList (state.live (vm.StateDB (vm.c_zvm r)))
  /\ state.validRevisions (vm.StateDB (vm.c_zvm r))
     = state.validRevisions (vm.StateDB zvm).
Proof.
  intros Hr Hc. cbv zeta.
  destruct (create_passes sub zvm caller cah gas value address typ Hr)
    as (H1 & H2 & H3).
  assert (Heq : vm.create sub zvm caller cah gas value address typ
                = {| vm.c_ret := []; vm.c_addr := 0; vm.c_leftOverGas := 0;
                     vm.c_err := Some vm.ErrContractAddressCollision;
                     vm.c_zvm := vm.set_StateDB zvm
                                   (create_entry zvm caller address) |}).
  { unfold vm.create. rewrite H1, H2. cbv zeta. rewrite H3.
    cbn [vm.StateDB vm.set_StateDB vm.Context vm.zvm_Config].
    change (state.AddAddressToAccessList address _)
      with (create_entry zvm caller address).
    unfold create_collides in Hc. cbv zeta in Hc. rewrite Hc. reflexivity. }
  rewrite Heq. cbn [vm.c_zvm vm.StateDB vm.set_StateDB].
  split; [reflexivity|]. unfold create_entry. repeat split.
  - unfold state.GetNonce, state.getOrNewStateObject, state.getStateObject,
      state.AddAddressToAccessList, state.SetNonce, state.setStateObject,
      state.with_accounts, state.with_live. simpl.
    rewrite lookup_insert_eq. reflexivity.
  - simpl. set_solver.
Qed.

(** The run of the init code that create starts, and the contract it runs. *)
Definition create_run (zvm : vm.ZVM) (caller : vm.ContractRef)
  (cah : vm.codeAndHash) (gas value : Z) (address : Address) (typ : vm.OpCode)
  : vm.ExecResult :=
  let frame := create_frame zvm caller cah gas value address typ in
  vm.Run (vm.ops (vm.levels zvm)) frame.1 frame.2 [] false.

(** Init code that returns, without error and within the size limit, data
    whose first byte is 0xEF is refused: create fails with ErrInvalidCode,
    the creation is reverted (the journaled state is the one in which create
    opened its checkpoint, so the address holds no code) and all the gas of
    the frame is used up. *)
Theorem create_rejects_ef_code (zvm : vm.ZVM) (caller : vm.ContractRef)
  (cah : vm.codeAndHash) (gas value : Z) (address : Address) (typ : vm.OpCode) :
  exec_keeps -> transfers_keep (vm.Context zvm) ->
  create_refuses zvm caller value = false ->
  create_collides zvm caller address = false ->
  let x := create_run zvm caller cah gas value address typ in
  vm.x_err x = None ->
  (Z.of_nat (length (vm.x_ret x)) <= vm.MaxCodeSize)%Z ->
  head (vm.x_ret x) = Some xef ->
  let r := vm.ZVM_create zvm caller cah gas value address typ in
  vm.c_err r = Some vm.ErrInvalidCode
  /\ vm.c_leftOverGas r = 0%Z
  /\ vm.c_ret r = vm.x_ret x
  /\ vm.c_addr r = address
  /\ state.live (vm.StateDB (vm.c_zvm r))
     = state.live (create_entry zvm caller address)
  /\ state.GetCode address (vm.StateDB (vm.c_zvm r)) = [].
Proof.
  intros He Ht Hr Hc. cbv zeta. intros Hx Hlen Hef.
  pose proof (ops_keep_ops (vm.Context zvm) He Ht (vm.levels zvm)) as Hs.
  assert (Herr : vm.c_err (vm.ZVM_create zvm caller cah gas value address typ)
                 = Some vm.ErrInvalidCode
                 /\ vm.c_leftOverGas (vm.ZVM_create zvm caller cah gas value address typ) = 0%Z
                 /\ vm.c_ret (vm.ZVM_create zvm caller cah gas value address typ)
                    = vm.x_ret (create_run zvm caller cah gas value address typ)
                 /\ vm.c_addr (vm.ZVM_create zvm caller cah gas value address typ) = address).
  { revert Hx Hlen Hef.
    unfold vm.ZVM_create, vm.create, create_run, create_frame. cbv zeta.
    pose proof Hr as Hr'. unfold create_refuses in Hr'.
    apply orb_false_elim in Hr' as [Hr' H3].
    apply orb_false_elim in Hr' as [H1 H2].
    rewrite H1, H2, H3. cbn iota.
    cbn [vm.StateDB vm.set_StateDB vm.Context vm.zvm_Config].
    change (state.AddAddressToAccessList address _)
      with (create_entry zvm caller address).
    unfold create_collides in Hc. cbv zeta in Hc. rewrite Hc.
    destruct (state.Snapshot (create_entry zvm caller address)) as [n s] eqn:Hsnap.
    cbn [snd fst vm.StateDB vm.set_StateDB vm.Context vm.zvm_Config vm.depth
         vm.zvm_TxContext vm.trace].
    rewrite !set_StateDB_twice.
    match goal with
    | |- vm.x_err ?X = None -> _ => set (x := X)
    end.
    intros Hx Hlen Hef.
    assert (Hl1 : (vm.MaxCodeSize <? Z.of_nat (length (vm.x_ret x)))%Z = false)
      by (apply Z.ltb_ge; exact Hlen).
    assert (Hl2 : (1 <=? length (vm.x_ret x))%nat = true).
    { destruct (vm.x_ret x); [discriminate|]. reflexivity. }
    rewrite Hx, Hl1, Hl2, Hef. cbn [andb].
    repeat match goal with
           | |- context [@bool_decide ?P ?d] =>
               let E := fresh in
               destruct (@bool_decide P d) eqn:E;
               [apply bool_decide_eq_true_1 in E; try discriminate E
               |apply bool_decide_eq_false_1 in E;
                try (exfalso; apply E; reflexivity)];
               cbn [andb negb]
           end.
    fold_traced. vm_norm.
    repeat split. apply UseGas_all. }
  destruct Herr as (Herr & Hgas & Hret & Haddr).
  assert (Hlive : state.live
                    (vm.StateDB (vm.c_zvm (vm.ZVM_create zvm caller cah gas value
                                             address typ)))
                  = state.live (create_entry zvm caller address)).
  { eapply create_live; try eassumption. discriminate. }
  repeat split; try assumption.
  rewrite (GetCode_live address _ _ Hlive).
  apply no_collision_no_code. exact Hc.
Qed.

(** A creation that succeeds stores the code.  When the init code returns,
    without error, data within the size limit that does not start with 0xEF,
    and leaves the gas to pay CreateDataGas for each byte of it, create
    returns no error, the data, the address and the gas left after that
    payment, and the address holds the data as its code. *)
Theorem create_stores_code (zvm : vm.ZVM) (caller : vm.ContractRef)
  (cah : vm.codeAndHash) (gas value : Z) (address : Address) (typ : vm.OpCode) :
  create_refuses zvm caller value = false ->
  create_collides zvm caller address = false ->
  let x := create_run zvm caller cah gas value address typ in
  let cost := wrap64 (Z.of_nat (length (vm.x_ret x)) * vm.CreateDataGas) in
  vm.x_err x = None ->
  (Z.of_nat (length (vm.x_ret x)) <= vm.MaxCodeSize)%Z ->
  head (vm.x_ret x) <> Some xef ->
  (cost <= vm.x_gas x)%Z ->
  let r := vm.ZVM_create zvm caller cah gas value address typ in
  vm.c_err r = None
  /\ vm.c_ret r = vm.x_ret x
  /\ vm.c_addr r = address
  /\ vm.c_leftOverGas r = (vm.x_gas x - cost)%Z
  /\ vm.StateDB (vm.c_zvm r) = state.SetCode address (vm.x_ret x) (vm.x_StateDB x)
  /\ state.GetCode address (vm.StateDB (vm.c_zvm r)) = vm.x_ret x.
Proof.
  intros Hr Hc. cbv zeta. intros Hx Hlen Hef Hgas.
  assert (Hcode : forall s, state.GetCode address
                              (state.SetCode address
                                 (vm.x_ret (create_run zvm caller cah gas value
                                              address typ)) s)
                            = vm.x_ret (create_run zvm caller cah gas value
                                          address typ)).
  { intros s. unfold state.GetCode, state.SetCode, state.getOrNewStateObject,
      state.getStateObject, state.setStateObject, state.with_accounts,
      state.with_live. simpl. rewrite lookup_insert_eq. reflexivity. }
  cut (vm.c_err (vm.ZVM_create zvm caller cah gas value address typ) = None
       /\ vm.c_ret (vm.ZVM_create zvm caller cah gas value address typ)
          = vm.x_ret (create_run zvm caller cah gas value address typ)
       /\ vm.c_addr (vm.ZVM_create zvm caller cah gas value address typ) = address
       /\ vm.c_leftOverGas (vm.ZVM_create zvm caller cah gas value address typ)
          = (vm.x_gas (create_run zvm caller cah gas value address typ)
             - wrap64 (Z.of_nat (length (vm.x_ret (create_run zvm caller cah gas
                                                     value address typ)))
                       * vm.CreateDataGas))%Z
       /\ vm.StateDB (vm.c_zvm (vm.ZVM_create zvm caller cah gas value address typ))
          = state.SetCode address
              (vm.x_ret (create_run zvm caller cah gas value address typ))
              (vm.x_StateDB (create_run zvm caller cah gas value address typ))).
  { intros (E1 & E2 & E3 & E4 & E5). repeat split; try assumption.
    rewrite E5. apply Hcode. }
  clear Hcode. revert Hx Hlen Hef Hgas.
  unfold vm.ZVM_create, vm.create, create_run, create_frame. cbv zeta.
  pose proof Hr as Hr'. unfold create_refuses in Hr'.
  apply orb_false_elim in Hr' as [Hr' H3].
  apply orb_false_elim in Hr' as [H1 H2].
  rewrite H1, H2, H3. cbn iota.
  cbn [vm.StateDB vm.set_StateDB vm.Context vm.zvm_Config].
  change (state.AddAddressToAccessList address _)
    with (create_entry zvm caller address).
  unfold create_collides in Hc. cbv zeta in Hc. rewrite Hc.
  destruct (state.Snapshot (create_entry zvm caller address)) as [n s] eqn:Hsnap.
  cbn [snd fst vm.StateDB vm.set_StateDB vm.Context vm.zvm_Config vm.depth
       vm.zvm_TxContext vm.trace].
  rewrite !set_StateDB_twice.
  match goal with
  | |- vm.x_err ?X = None -> _ => set (x := X)
  end.
  intros Hx Hlen Hef Hgas.
  assert (Hl1 : (vm.MaxCodeSize <? Z.of_nat (length (vm.x_ret x)))%Z = false)
    by (apply Z.ltb_ge; exact Hlen).
  rewrite Hx, Hl1. cbn [andb].
  repeat match goal with
         | |- context [@bool_decide ?P ?d] =>
             let E := fresh in
             destruct (@bool_decide P d) eqn:E;
             [apply bool_decide_eq_true_1 in E;
              try discriminate E; try contradiction
             |apply bool_decide_eq_false_1 in E;
              try (exfalso; apply E; reflexivity)];
             cbn [andb negb]
         end.
  rewrite ?andb_false_r.
  unfold vm.UseGas. cbn [vm.Gas vm.set_Gas].
  apply Z.ltb_ge in Hgas. rewrite Hgas.
  cbn [vm.Gas]. fold_traced. vm_norm. repeat split.
Qed.

(** The address of a creation.  Create derives it from the caller and the
    caller's nonce before the call, Create2 from the caller, the salt and
    the hash of the init code; the address is returned whenever create got
    as far as running the init code, whatever the error, and the zero
    address is returned when create was refused at entry or found a
    contract at the address. *)
Theorem created_address (zvm : vm.ZVM) (caller : vm.ContractRef)
  (code : bytes) (gas value salt : Z) :
  let a1 := vm.CreateAddress (vm.Address_of caller)
              (state.GetNonce (vm.Address_of caller) (vm.StateDB zvm)) in
  let a2 := vm.CreateAddress2 (vm.Address_of caller) salt (Keccak256Hash code) in
  vm.c_addr (vm.ZVM_Create zvm caller code gas value)
  = (if create_refuses zvm caller value || create_collides zvm caller a1
     then 0%Z else a1)
  /\ vm.c_addr (vm.ZVM_Create2 zvm caller code gas value salt)
     = (if create_refuses zvm caller value || create_collides zvm caller a2
        then 0%Z else a2).
Proof.
  assert (HA : forall cah address typ,
             vm.c_addr (vm.ZVM_create zvm caller cah gas value address typ)
             = if create_refuses zvm caller value
                  || create_collides zvm caller address
               then 0%Z else address).
  { intros cah address typ.
    destruct (create_refuses zvm caller value) eqn:Hr.
    - unfold vm.ZVM_create, vm.create. unfold create_refuses in Hr.
      destruct (_ <? _)%Z; [reflexivity|].
      destruct (negb _); [reflexivity|]. simpl in Hr. cbv zeta. rewrite Hr.
      reflexivity.
    - cbn [orb]. unfold vm.ZVM_create, vm.create.
      pose proof Hr as Hr'. unfold create_refuses in Hr'.
      apply orb_false_elim in Hr' as [Hr' H3].
      apply orb_false_elim in Hr' as [H1 H2].
      rewrite H1, H2. cbv zeta. rewrite H3.
      cbn [vm.StateDB vm.set_StateDB vm.Context vm.zvm_Config].
      change (state.AddAddressToAccessList address _)
        with (create_entry zvm caller address).
      unfold create_collides. cbv zeta.
      match goal with
      | |- context [if ?c then _ else _] => destruct c; [reflexivity|]
      end.
      vm_cases; reflexivity. }
  cbv zeta. split.
  - unfold vm.ZVM_Create, vm.Create. cbv zeta. apply HA.
  - unfold vm.ZVM_Create2, vm.Create2, vm.codeAndHash_Hash. cbv zeta.
    cbn [vm.cah_hash vm.cah_code].
    destruct (decide (ZeroHash = ZeroHash)); [|contradiction]. apply HA.
Qed.

End MachineProperties.

(* ------------------------------------------------------------------ *)
(** ** The example machine *)
(* ------------------------------------------------------------------ *)

Lemma demo_transfers_keep : transfers_keep demo.blockContext.
Proof. intros s a b v. unfold state.grows. simpl. reflexivity. Qed.

Lemma demo_exec_keeps : @exec_keeps demo.machine.
Proof.
  intros sub zvm contract input readOnly Hs.
  change (@vm.exec demo.machine) with demo.interp. unfold demo.interp.
  destruct (vm.Code contract) as [|b rest]; [apply grows_refl|].
  destruct b; try apply grows_refl.
  - destruct readOnly; [apply grows_refl|].
    simpl. unfold state.grows. reflexivity.
  - simpl. apply Hs. reflexivity.
Qed.

(** C5, witness: a call at depth 1025, one above the limit of 1024. *)
Lemma depth_limit_fails_inner_call_witness :
  @vm.ZVM_Call demo.machine (demo.zvmAt 1025 false) (vm.AccountRef 1) 2 [] 1000 0
  = depthRefusal 1000 (demo.zvmAt 1025 false)
  /\ vm.op_create (@vm.ops demo.machine 7) (demo.zvmAt 1025 false)
       (vm.AccountRef 1) {| vm.cah_code := [x00]; vm.cah_hash := common.ZeroHash |}
       1000 0 777 vm.CREATE
     = depthRefusalCreate 1000 (demo.zvmAt 1025 false).
Proof.
  destruct (@depth_limit_fails_inner_call demo.machine (demo.zvmAt 1025 false) 7)
    as (HC & _ & _ & HK).
  - reflexivity.
  - split; [apply HC | apply HK].
Defined.

(** C10, counterexample: the same call, with zero value to the absent
    address 8, made at depth 1025: it fails with ErrDepth. *)
Lemma call_to_absent_account_above_limit :
  state.Exist 8 (vm.StateDB (demo.zvmAt 1025 false)) = false
  /\ @vm.precompile demo.machine (demo.zvmAt 1025 false) 8 = None
  /\ vm.err (@vm.ZVM_Call demo.machine (demo.zvmAt 1025 false) (vm.AccountRef 1)
               8 [] 1000 0)
     = Some vm.ErrDepth.
Proof. vm_compute. repeat split. Qed.

(** C10, witness: a call with zero value to the absent address 8 at depth
    0. *)
Lemma call_to_absent_account_witness :
  vm.err (@vm.ZVM_Call demo.machine (demo.zvmAt 0 true) (vm.AccountRef 1) 8 []
            1000 0) = None
  /\ vm.leftOverGas (@vm.ZVM_Call demo.machine (demo.zvmAt 0 true) (vm.AccountRef 1)
                       8 [] 1000 0) = 1000%Z
  /\ state.Exist 8 (vm.StateDB (vm.zvm_out
       (@vm.ZVM_Call demo.machine (demo.zvmAt 0 true) (vm.AccountRef 1) 8 []
          1000 0))) = false.
Proof.
  destruct (@call_to_absent_account demo.machine
              (@vm.ops demo.machine (@vm.levels demo.machine (demo.zvmAt 0 true)))
              (demo.zvmAt 0 true) (vm.AccountRef 1) 8 [] 1000)
    as (_ & He & Hg & _ & Hx).
  - vm_compute. discriminate.
  - vm_compute. reflexivity.
  - vm_compute. reflexivity.
  - repeat split; assumption.
Defined.

(** The journaled states of two databases differ when an account's nonce
    differs. *)
Lemma live_differs_by_nonce (a : Z) (s1 s2 : state.StateDB) :
  state.GetNonce a s1 <> state.GetNonce a s2 -> state.live s1 <> state.live s2.
Proof.
  intros Hn Hl. apply Hn.
  unfold state.GetNonce, state.getOrNewStateObject, state.getStateObject.
  rewrite Hl. reflexivity.
Qed.

Lemma live_differs_by_existence (a : Z) (s1 s2 : state.StateDB) :
  state.Exist a s1 <> state.Exist a s2 -> state.live s1 <> state.live s2.
Proof.
  intros Hn Hl. apply Hn.
  unfold state.Exist, state.getStateObject. rewrite Hl. reflexivity.
Qed.

(** C2, witness: a call to the contract at address 2, whose code reverts,
    and a creation whose init code reverts. *)
Lemma failed_subcall_reverts_to_checkpoint_witness :
  state.live (vm.StateDB (vm.zvm_out
    (@vm.ZVM_Call demo.machine (demo.zvmAt 0 false) (vm.AccountRef 1) 2 [] 1000 10)))
  = state.live (vm.StateDB (demo.zvmAt 0 false))
  /\ state.live (vm.StateDB (vm.c_zvm
       (@vm.ZVM_create demo.machine (demo.zvmAt 0 false) (vm.AccountRef 1)
          demo.revertingInit 1000 10 777 vm.CREATE)))
     = state.live (create_entry (demo.zvmAt 0 false) (vm.AccountRef 1) 777).
Proof.
  destruct (@failed_subcall_reverts_to_checkpoint demo.machine (demo.zvmAt 0 false)
              demo_exec_keeps demo_transfers_keep) as (HC & _ & _ & HK).
  split.
  - apply (HC (vm.AccountRef 1) 2%Z [] 1000%Z 10%Z vm.ErrExecutionReverted).
    vm_compute. reflexivity.
  - specialize (HK (vm.AccountRef 1) demo.revertingInit 1000%Z 10%Z 777%Z vm.CREATE
                  vm.ErrExecutionReverted).
    replace (@create_refuses demo.machine (demo.zvmAt 0 false) (vm.AccountRef 1) 10)
      with false in HK by (vm_compute; reflexivity).
    apply HK.
    + vm_compute. reflexivity.
    + discriminate.
Defined.

(** C2, counterexample: create, called by account 1 with init code that
    reverts, returns ErrExecutionReverted, and the state it leaves is not
    the state at entry: the caller's nonce was 0 and is 1. *)
Lemma failed_create_keeps_nonce_increment :
  vm.c_err (@vm.ZVM_create demo.machine (demo.zvmAt 0 false) (vm.AccountRef 1)
              demo.revertingInit 1000 10 777 vm.CREATE)
  = Some vm.ErrExecutionReverted
  /\ state.GetNonce 1 (vm.StateDB (demo.zvmAt 0 false)) = 0%Z
  /\ state.GetNonce 1 (vm.StateDB (vm.c_zvm
       (@vm.ZVM_create demo.machine (demo.zvmAt 0 false) (vm.AccountRef 1)
          demo.revertingInit 1000 10 777 vm.CREATE))) = 1%Z
  /\ state.live (vm.StateDB (vm.c_zvm
       (@vm.ZVM_create demo.machine (demo.zvmAt 0 false) (vm.AccountRef 1)
          demo.revertingInit 1000 10 777 vm.CREATE)))
     <> state.live (vm.StateDB (demo.zvmAt 0 false)).
Proof.
  split; [vm_compute; reflexivity|].
  split; [vm_compute; reflexivity|].
  split; [vm_compute; reflexivity|].
  apply (live_differs_by_nonce 1). vm_compute. discriminate.
Qed.

(** C3, the failing input.  Account 1 creates a contract with 100 gas and a
    value of 10; the init code returns one byte of code, whose storage
    costs 200 gas.  create returns ErrCodeStoreOutOfGas, and the state is
    not reverted: the new account is there, with nonce 1 and the value
    transferred to it, without code; the caller has paid the value; and
    the 100 gas are handed back instead of being used up. *)
Lemma code_store_out_of_gas_is_not_reverted :
  let r := @vm.ZVM_create demo.machine (demo.zvmAt 0 false) (vm.AccountRef 1)
             demo.oneByteInit 100 10 777 vm.CREATE in
  vm.c_err r = Some vm.ErrCodeStoreOutOfGas
  /\ vm.c_leftOverGas r = 100%Z
  /\ state.Exist 777 (vm.StateDB (demo.zvmAt 0 false)) = false
  /\ state.Exist 777 (vm.StateDB (vm.c_zvm r)) = true
  /\ state.GetNonce 777 (vm.StateDB (vm.c_zvm r)) = 1%Z
  /\ state.GetBalance 777 (vm.StateDB (vm.c_zvm r)) = 10%Z
  /\ state.GetBalance 1 (vm.StateDB (vm.c_zvm r)) = 90%Z
  /\ state.GetCode 777 (vm.StateDB (vm.c_zvm r)) = []
  /\ state.live (vm.StateDB (vm.c_zvm r))
     <> state.live (create_entry (demo.zvmAt 0 false)
                      (vm.AccountRef 1) 777).
Proof.
  cbv zeta. repeat split; try (vm_compute; reflexivity).
  apply (live_differs_by_existence 777). vm_compute. discriminate.
Qed.



(** C7, witness: init code that returns 24577 bytes, one more than
    MaxCodeSize. *)
Lemma oversized_code_fails_creation_witness :
  vm.c_err (@vm.ZVM_create demo.machine (demo.zvmAt 0 false) (vm.AccountRef 1)
              demo.oversizedInit 10000000 10 777 vm.CREATE)
  = Some vm.ErrMaxCodeSizeExceeded
  /\ vm.c_leftOverGas (@vm.ZVM_create demo.machine (demo.zvmAt 0 false)
                         (vm.AccountRef 1) demo.oversizedInit 10000000 10 777 vm.CREATE)
     = 0%Z
  /\ state.GetCode 777 (vm.StateDB (vm.c_zvm
       (@vm.ZVM_create demo.machine (demo.zvmAt 0 false) (vm.AccountRef 1)
          demo.oversizedInit 10000000 10 777 vm.CREATE))) = [].
Proof.
  destruct (@oversized_code_fails_creation demo.machine (demo.zvmAt 0 false)
              (vm.AccountRef 1) demo.oversizedInit 10000000 10 777 vm.CREATE
              demo_exec_keeps demo_transfers_keep)
    as (HE & HG & _ & _ & _ & HC).
  - vm_compute. reflexivity.
  - vm_compute. reflexivity.
  - vm_compute. reflexivity.
  - vm_compute. reflexivity.
  - repeat split; assumption.
Defined.

(* ------------------------------------------------------------------ *)
(** ** The order of a map range does not matter to MakePreState *)
(* ------------------------------------------------------------------ *)

Section RangeOrder.
Import common state.

(** A left fold whose steps commute on entries with different keys gives
    the same result on two orders of the same entries. *)
Lemma foldl_order {A K B : Type} (key : A -> K) (f : B -> A -> B) :
  (forall b x y, key x <> key y -> f (f b x) y = f (f b y) x) ->
  forall l1 l2 : list A, l1 ≡ₚ l2 -> NoDup (key <$> l1) ->
  forall b, foldl f b l1 = foldl f b l2.
Proof.
  intros Hcomm l1 l2 Hp. induction Hp as [|x l l' Hp IH|x y l|l l' l'' H1 IH1 H2 IH2];
    intros Hnd b.
  - reflexivity.
  - simpl. apply IH. rewrite fmap_cons in Hnd. apply NoDup_cons in Hnd as [_ Hnd].
    exact Hnd.
  - simpl. f_equal. apply Hcomm.
    rewrite !fmap_cons in Hnd. apply NoDup_cons in Hnd as [Hin _].
    intros Heq. apply Hin. rewrite Heq. left.
  - rewrite IH1 by exact Hnd. apply IH2.
    assert (Hk : key <$> l ≡ₚ key <$> l') by (apply fmap_Permutation; exact H1).
    rewrite <- Hk. exact Hnd.
Qed.

(** An update of the account at one address. *)
Definition upd (addr : Address) (f : Account -> Account) (s : StateDB) : StateDB :=
  setStateObject addr (f (getOrNewStateObject addr s)) s.

Lemma upd_upd (a : Address) (f g : Account -> Account) (s : StateDB) :
  upd a g (upd a f s) = upd a (fun x => g (f x)) s.
Proof.
  destruct s as [[m al lg] th ti vr].
  unfold upd, setStateObject, with_accounts, with_live, getOrNewStateObject,
    getStateObject. simpl.
  rewrite lookup_insert_eq. simpl. rewrite insert_insert_eq. reflexivity.
Qed.

Lemma upd_comm (a1 a2 : Address) (f g : Account -> Account) (s : StateDB) :
  a1 <> a2 -> upd a1 f (upd a2 g s) = upd a2 g (upd a1 f s).
Proof.
  intros Hne. destruct s as [[m al lg] th ti vr].
  unfold upd, setStateObject, with_accounts, with_live, getOrNewStateObject,
    getStateObject. simpl.
  rewrite !lookup_insert_ne by congruence.
  rewrite insert_insert_ne by congruence. reflexivity.
Qed.

(** The write of one storage slot, on the account. *)
Definition storeSlot (a : Account) (kv : Z * Z) : Account :=
  {| nonce := nonce a; balance := balance a; code := code a;
     storage := if (kv.2 =? 0)%Z then delete kv.1 (storage a)
                else <[kv.1 := kv.2]> (storage a) |}.

Lemma storeSlot_comm (a : Account) (x y : Z * Z) :
  x.1 <> y.1 -> storeSlot (storeSlot a x) y = storeSlot (storeSlot a y) x.
Proof.
  intros Hne. unfold storeSlot. simpl. f_equal.
  destruct (x.2 =? 0)%Z, (y.2 =? 0)%Z.
  - apply delete_delete.
  - rewrite delete_insert_ne by congruence. reflexivity.
  - rewrite delete_insert_ne by congruence. reflexivity.
  - apply insert_insert_ne. congruence.
Qed.


Lemma setStorage_upd (addr : Address) (s : StateDB) (kv : Z * Z) :
  t8ntool.setStorage addr s kv = upd addr (fun a => storeSlot a kv) s.
Proof. reflexivity. Qed.

Lemma foldl_setStorage (addr : Address) (l : list (Z * Z)) :
  forall (f : Account -> Account) (s : StateDB),
    foldl (t8ntool.setStorage addr) (upd addr f s) l
    = upd addr (fun x => foldl storeSlot (f x) l) s.
Proof.
  induction l as [|kv l IH]; intros f s.
  - reflexivity.
  - simpl. rewrite setStorage_upd, upd_upd. apply IH.
Qed.

(** The account that MakePreState writes at an address, from the one that
    was there. *)
Definition written (rng : t8ntool.MapRange) (addr : Address)
  (a : t8ntool.GenesisAccount) (x : Account) : Account :=
  foldl storeSlot
    {| nonce := t8ntool.ga_Nonce a; balance := t8ntool.ga_Balance a;
       code := t8ntool.ga_Code a; storage := storage x |}
    (t8ntool.range_storage rng addr (t8ntool.ga_Storage a)).

Lemma setAccount_upd (rng : t8ntool.MapRange) (s : StateDB)
  (e : Z * t8ntool.GenesisAccount) :
  t8ntool.setAccount rng s e = upd e.1 (written rng e.1 e.2) s.
Proof.
  destruct e as [addr a]. unfold t8ntool.setAccount, written. simpl.
  change (SetCode addr (t8ntool.ga_Code a) s)
    with (upd addr (fun x => {| nonce := nonce x; balance := balance x;
                               code := t8ntool.ga_Code a; storage := storage x |}) s).
  change (SetNonce addr (t8ntool.ga_Nonce a) ?s')
    with (upd addr (fun x => {| nonce := t8ntool.ga_Nonce a; balance := balance x;
                               code := code x; storage := storage x |}) s').
  change (SetBalance addr (t8ntool.ga_Balance a) ?s')
    with (upd addr (fun x => {| nonce := nonce x; balance := t8ntool.ga_Balance a;
                               code := code x; storage := storage x |}) s').
  rewrite !upd_upd. rewrite foldl_setStorage. reflexivity.
Qed.

Lemma written_order (rng1 rng2 : t8ntool.MapRange) (addr : Address)
  (a : t8ntool.GenesisAccount) (x : Account) :
  t8ntool.visits_all rng1 -> t8ntool.visits_all rng2 ->
  written rng1 addr a x = written rng2 addr a x.
Proof.
  intros [_ H1] [_ H2]. unfold written.
  apply (foldl_order fst).
  - intros b k1 k2 Hne. apply storeSlot_comm. exact Hne.
  - rewrite H1, H2. reflexivity.
  - rewrite H1. apply NoDup_fst_map_to_list.
Qed.

Lemma foldl_ext_in {A B : Type} (f g : B -> A -> B) (l : list A) :
  (forall b x, f b x = g b x) -> forall b, foldl f b l = foldl g b l.
Proof.
  intros Hfg. induction l as [|x l IH]; intros b; simpl; [reflexivity|].
  rewrite Hfg. apply IH.
Qed.

(** MakePreState gives the same state whatever the order in which the two
    ranges visit the allocation and the storage of each account. *)
Lemma MakePreState_order `{core.Chain} (rng1 rng2 : t8ntool.MapRange)
  (accounts : gmap Z t8ntool.GenesisAccount) :
  t8ntool.visits_all rng1 -> t8ntool.visits_all rng2 ->
  t8ntool.MakePreState rng1 accounts = t8ntool.MakePreState rng2 accounts.
Proof.
  intros V1 V2. unfold t8ntool.MakePreState. cbv zeta.
  replace (foldl (t8ntool.setAccount rng1) (New ∅)
             (t8ntool.range_accounts rng1 accounts))
    with (foldl (t8ntool.setAccount rng2) (New ∅)
            (t8ntool.range_accounts rng2 accounts)); [reflexivity|].
  symmetry.
  rewrite (foldl_ext_in (t8ntool.setAccount rng1) (t8ntool.setAccount rng2)).
  - apply (foldl_order fst).
    + intros b x y Hne. rewrite !setAccount_upd. apply upd_comm. congruence.
    + destruct V1 as [-> _]. destruct V2 as [-> _]. reflexivity.
    + destruct V1 as [-> _]. apply NoDup_fst_map_to_list.
  - intros b x. rewrite !setAccount_upd. unfold upd. f_equal.
    apply written_order; assumption.
Qed.

End RangeOrder.

(* ------------------------------------------------------------------ *)
(** ** The block processor and the transition tool *)
(* ------------------------------------------------------------------ *)

Section BlockProperties.
Import common.
Context `{vm.Machine} `{core.Chain}.

(** The execution of a message and the consensus engine's Finalize do not
    depend on what a run could read besides its arguments. *)
Definition execute_deterministic : Prop :=
  forall (w1 w2 : core.Env) zvm msg g,
    core.execute w1 zvm msg g = core.execute w2 zvm msg g.

Definition finalize_deterministic : Prop :=
  forall (w1 w2 : core.Env) hd s txs,
    core.engine_Finalize w1 hd s txs = core.engine_Finalize w2 hd s txs.

Lemma ApplyMessage_det (w1 w2 : core.Env) zvm msg gp :
  execute_deterministic ->
  core.ApplyMessage w1 zvm msg gp = core.ApplyMessage w2 zvm msg gp.
Proof.
  intros Hd. unfold core.ApplyMessage.
  destruct (core.validate _ _); [reflexivity|].
  destruct (core.SubGas _ _); [reflexivity|].
  destruct (_ <? _)%Z; [reflexivity|].
  rewrite (Hd w1 w2). reflexivity.
Qed.

Lemma applyTransaction_det (w1 w2 : core.Env) msg st bn bh tx :
  execute_deterministic ->
  core.applyTransaction w1 msg st bn bh tx = core.applyTransaction w2 msg st bn bh tx.
Proof.
  intros Hd. unfold core.applyTransaction.
  rewrite (ApplyMessage_det w1 w2) by exact Hd. reflexivity.
Qed.

Lemma processTxs_det (w1 w2 : core.Env) hd bh txs :
  execute_deterministic ->
  forall i receipts logs st,
    core.processTxs w1 hd bh i txs receipts logs st
    = core.processTxs w2 hd bh i txs receipts logs st.
Proof.
  intros Hd. induction txs as [|tx rest IH]; intros i receipts logs st.
  - reflexivity.
  - simpl. destruct (core.TransactionToMessage tx _); [reflexivity|].
    rewrite (applyTransaction_det w1 w2) by exact Hd.
    destruct (core.applyTransaction w2 _ _ _ _ _) as [[e|receipt] st'];
      [reflexivity|]. apply IH.
Qed.

Lemma Process_det (w1 w2 : core.Env) block statedb cfg :
  execute_deterministic -> finalize_deterministic ->
  core.Process w1 block statedb cfg = core.Process w2 block statedb cfg.
Proof.
  intros Hd Hf. unfold core.Process. cbv zeta.
  rewrite (processTxs_det w1 w2) by exact Hd.
  destruct (core.processTxs w2 _ _ _ _ _ _ _) as [[e|[receipts logs]] st];
    [reflexivity|].
  rewrite (Hf w1 w2). reflexivity.
Qed.

Lemma applyTx_det (w1 w2 : core.Env) pre ctx tracer bh i tx v :
  execute_deterministic ->
  t8ntool.applyTx w1 pre ctx tracer bh i tx v
  = t8ntool.applyTx w2 pre ctx tracer bh i tx v.
Proof.
  intros Hd. unfold t8ntool.applyTx.
  destruct (core.TransactionToMessage tx _); [reflexivity|].
  destruct (tracer _ _); [reflexivity|].
  destruct (state.Snapshot _) as [snapshot sdb].
  rewrite (ApplyMessage_det w1 w2) by exact Hd. reflexivity.
Qed.

Lemma applyTxs_det (w1 w2 : core.Env) pre ctx tracer bh txs :
  execute_deterministic ->
  forall i v,
    t8ntool.applyTxs w1 pre ctx tracer bh i txs v
    = t8ntool.applyTxs w2 pre ctx tracer bh i txs v.
Proof.
  intros Hd. induction txs as [|tx rest IH]; intros i v.
  - reflexivity.
  - simpl. rewrite (applyTx_det w1 w2) by exact Hd.
    destruct (t8ntool.applyTx w2 _ _ _ _ _ _ _); [reflexivity|]. apply IH.
Qed.

(** C1.  Block processing is deterministic.  Two runs of
    StateProcessor.Process over the same block, state and configuration
    return the same receipts, the same logs, the same gas used and the
    same error and leave the same state, whatever else the runs could
    read; and two runs of Prestate.Apply over the same inputs return the
    same result (state root, receipts, rejected transactions, gas used)
    and the same state, whatever else they could read and in whichever
    order the ranges of MakePreState visit the allocation map and the
    storage maps.  The execution of a message and the engine's Finalize,
    which are not among the sources, are taken to be deterministic. *)
Theorem block_processing_is_deterministic (w1 w2 : core.Env) :
  execute_deterministic -> finalize_deterministic ->
  (forall block statedb cfg,
     core.Process w1 block statedb cfg = core.Process w2 block statedb cfg)
  /\ (forall rng1 rng2 pre txs miningReward getTracerFn,
        t8ntool.visits_all rng1 -> t8ntool.visits_all rng2 ->
        t8ntool.Apply w1 rng1 pre txs miningReward getTracerFn
        = t8ntool.Apply w2 rng2 pre txs miningReward getTracerFn).
Proof.
  intros Hd Hf. split.
  - intros. apply Process_det; assumption.
  - intros rng1 rng2 pre txs reward tracer V1 V2. unfold t8ntool.Apply.
    rewrite (MakePreState_order rng1 rng2) by assumption.
    destruct (t8ntool.MakePreState rng2 _) as [sdb|]; [|reflexivity].
    cbv zeta. rewrite (applyTxs_det w1 w2) by exact Hd. reflexivity.
Qed.

End BlockProperties.

(* ------------------------------------------------------------------ *)
(** ** The gas pool *)
(* ------------------------------------------------------------------ *)



Section GasPoolProperties.
Import common.
Local Open Scope Z_scope.
Context `{vm.Machine} `{core.Chain}.

(** What the execution of a message gives back lies within the message's
    gas limit. *)
Definition execute_within_budget : Prop :=
  forall (w : core.Env) zvm msg,
    core.IntrinsicGas msg <= core.GasLimit msg ->
    0 <= core.gasRemaining
           (core.execute w zvm msg (core.GasLimit msg - core.IntrinsicGas msg))
      <= core.GasLimit msg.

(** The sum of the gas used by the transactions of the receipts. *)
Definition sumGasUsed (rs : list core.Receipt) : Z :=
  foldr (fun r acc => core.GasUsed r + acc) 0 rs.

Lemma sumGasUsed_app (rs : list core.Receipt) (r : core.Receipt) :
  sumGasUsed (rs ++ [r]) = sumGasUsed rs + core.GasUsed r.
Proof. unfold sumGasUsed. induction rs as [|x rs IH]; simpl; lia. Qed.

(** The pool and the gas used add up to the limit [L], and the gas used is
    the sum over the receipts. *)
Definition pool_inv (L gp used : Z) (rs : list core.Receipt) : Prop :=
  0 <= gp /\ 0 <= used /\ used + gp = L /\ used = sumGasUsed rs.

Lemma wrap64_small (L z : Z) : uint64 L -> 0 <= z <= L -> wrap64 z = z.
Proof.
  unfold uint64, wrap64, MaxUint64. intros HL Hz. apply Z.mod_small. lia.
Qed.

(** A message that ApplyMessage lets through had its gas limit in the pool,
    and takes out of the pool what it used. *)
Lemma ApplyMessage_charges (w : core.Env) zvm msg gp res zvm' gp' q :
  execute_within_budget ->
  core.ApplyMessage w zvm msg gp = (inr res, zvm', gp', q) ->
  core.GasLimit msg <= gp
  /\ 0 <= core.UsedGas res <= core.GasLimit msg
  /\ gp' = gp - core.UsedGas res.
Proof.
  intros Hb. unfold core.ApplyMessage, core.SubGas, core.AddGas.
  destruct (core.validate _ _); [discriminate|].
  destruct (gp <? _) eqn:Hgp; [discriminate|].
  destruct (_ <? core.IntrinsicGas _) eqn:Hi; [discriminate|].
  apply Z.ltb_ge in Hgp. apply Z.ltb_ge in Hi.
  intros [= <- <- <- <-]. simpl.
  specialize (Hb w (vm.set_StateDB zvm (core.purchase msg (vm.StateDB zvm))) msg Hi).
  lia.
Qed.

(** A message that ApplyMessage refuses leaves the pool non-negative. *)
Lemma ApplyMessage_refusal (w : core.Env) zvm msg gp e zvm' gp' q :
  core.ApplyMessage w zvm msg gp = (inl e, zvm', gp', q) ->
  0 <= gp -> 0 <= gp'.
Proof.
  unfold core.ApplyMessage, core.SubGas.
  destruct (core.validate _ _); [intros [= <- <- <- <-]; trivial|].
  destruct (gp <? _) eqn:Hgp; [intros [= <- <- <- <-]; trivial|].
  destruct (_ <? core.IntrinsicGas _); [|discriminate].
  apply Z.ltb_ge in Hgp. intros [= <- <- <- <-]. lia.
Qed.

(** A message whose gas limit exceeds the pool is refused before anything
    is executed: the machine, its state and the pool are as they were. *)
Lemma ApplyMessage_exceeds (w : core.Env) zvm msg gp :
  gp < core.GasLimit msg ->
  exists e, core.ApplyMessage w zvm msg gp = (inl e, zvm, gp, []).
Proof.
  intros Hgp. unfold core.ApplyMessage, core.SubGas.
  destruct (core.validate _ _) as [e|]; [exists e; reflexivity|].
  apply Z.ltb_lt in Hgp. rewrite Hgp. eexists. reflexivity.
Qed.

Lemma applyTransaction_pool (w : core.Env) msg st bn bh tx L rs :
  execute_within_budget -> uint64 L ->
  pool_inv L (core.cur_gp st) (core.cur_usedGas st) rs ->
  match core.applyTransaction w msg st bn bh tx with
  | (inl _, st') => 0 <= core.cur_gp st'
  | (inr receipt, st') =>
      pool_inv L (core.cur_gp st') (core.cur_usedGas st') (rs ++ [receipt])
      /\ core.GasLimit msg <= core.cur_gp st
      /\ core.cur_gp st' = core.cur_gp st - core.GasUsed receipt
  end.
Proof.
  intros Hb HL (Hgp & Hu & Hsum & Hrs). unfold core.applyTransaction. cbv zeta.
  destruct (core.ApplyMessage _ _ _ _) as [[[[e|res] zvm'] gp'] q] eqn:HA.
  - simpl. eapply ApplyMessage_refusal; eassumption.
  - destruct (ApplyMessage_charges _ _ _ _ _ _ _ _ Hb HA) as (Hle & Hres & ->).
    simpl. unfold pool_inv.
    rewrite (wrap64_small L) by (trivial; lia).
    rewrite sumGasUsed_app. simpl. lia.
Qed.

Lemma processTxs_pool (w : core.Env) hd bh L :
  execute_within_budget -> uint64 L ->
  forall txs i rs logs st,
    pool_inv L (core.cur_gp st) (core.cur_usedGas st) rs ->
    match core.processTxs w hd bh i txs rs logs st with
    | (inl _, st') => 0 <= core.cur_gp st'
    | (inr (rs', _), st') =>
        pool_inv L (core.cur_gp st') (core.cur_usedGas st') rs'
    end.
Proof.
  intros Hb HL. induction txs as [|tx rest IH]; intros i rs logs st Hinv.
  - simpl. exact Hinv.
  - simpl. destruct (core.TransactionToMessage tx _) as [e|msg].
    + destruct Hinv as (Hgp & _). exact Hgp.
    + match goal with
      | |- context [core.applyTransaction w msg ?s ?bn bh tx] =>
          pose proof (applyTransaction_pool w msg s bn bh tx L rs Hb HL Hinv) as HT;
          destruct (core.applyTransaction w msg s bn bh tx) as [[e|receipt] st']
      end.
      * exact HT.
      * apply IH. apply HT.
Qed.

(** In Process a transaction whose gas limit exceeds the pool ends the
    loop with an error, the pool and the state as they were before it. *)
Lemma processTxs_exceeds (w : core.Env) hd bh i tx rest rs logs st msg :
  core.TransactionToMessage tx (core.h_BaseFee hd) = inr msg ->
  core.cur_gp st < core.GasLimit msg ->
  exists e st',
    core.processTxs w hd bh i (tx :: rest) rs logs st = (inl e, st')
    /\ core.cur_gp st' = core.cur_gp st
    /\ core.cur_usedGas st' = core.cur_usedGas st
    /\ core.cur_statedb st'
       = state.SetTxContext (core.tx_Hash tx) i (core.cur_statedb st).
Proof.
  intros Hm Hgp. simpl. rewrite Hm. unfold core.applyTransaction. cbv zeta.
  match goal with
  | |- context [core.ApplyMessage w ?z msg ?g] =>
      destruct (ApplyMessage_exceeds w z msg g Hgp) as [e He]; simpl in He;
      simpl; rewrite He
  end.
  eexists _, _. split; [reflexivity|]. simpl. auto.
Qed.

Definition vars_inv (L : Z) (v : t8ntool.Vars) : Prop :=
  pool_inv L (t8ntool.gaspool v) (t8ntool.gasUsed v) (t8ntool.receipts v).

Lemma applyTx_pool (w : core.Env) pre ctx tracer bh i tx v v' L :
  execute_within_budget -> uint64 L ->
  vars_inv L v ->
  t8ntool.applyTx w pre ctx tracer bh i tx v = inr v' ->
  vars_inv L v'.
Proof.
  intros Hb HL Hinv. pose proof Hinv as (Hgp & Hu & Hsum & Hrs).
  unfold t8ntool.applyTx.
  destruct (core.TransactionToMessage tx _) as [e|msg].
  { intros [= <-]. exact Hinv. }
  destruct (tracer _ _) as [e|tr]; [discriminate|].
  destruct (state.Snapshot _) as [snapshot sdb].
  destruct (core.ApplyMessage _ _ _ _) as [[[[e|res] zvm'] gp'] q] eqn:HA.
  - intros [= <-]. exact Hinv.
  - destruct (t8ntool.recordHashError _ _ _); [discriminate|].
    intros [= <-].
    destruct (ApplyMessage_charges _ _ _ _ _ _ _ _ Hb HA) as (Hle & Hres & ->).
    unfold vars_inv, pool_inv. simpl.
    rewrite (wrap64_small L) by (trivial; lia).
    rewrite sumGasUsed_app. simpl. lia.
Qed.

Lemma applyTxs_pool (w : core.Env) pre ctx tracer bh L :
  execute_within_budget -> uint64 L ->
  forall txs i v v',
    vars_inv L v ->
    t8ntool.applyTxs w pre ctx tracer bh i txs v = inr v' ->
    vars_inv L v'.
Proof.
  intros Hb HL. induction txs as [|tx rest IH]; intros i v v' Hinv.
  - simpl. intros [= <-]. exact Hinv.
  - simpl. destruct (t8ntool.applyTx _ _ _ _ _ _ _ _) as [e|v1] eqn:HT;
      [discriminate|].
    apply IH. eapply applyTx_pool; eassumption.
Qed.

(** In Apply a transaction whose gas limit exceeds the pool is reported as
    rejected under its position; nothing of it is executed, and the pool,
    the state, the gas used, the receipts and the included transactions are
    as they were before it. *)
Lemma applyTx_exceeds (w : core.Env) pre ctx tracer bh i tx v msg tr :
  core.TransactionToMessage tx (t8ntool.BaseFee (t8ntool.p_Env pre)) = inr msg ->
  tracer (t8ntool.txIndex v) (core.tx_Hash tx) = inr tr ->
  t8ntool.gaspool v < core.GasLimit msg ->
  exists e,
    t8ntool.applyTx w pre ctx tracer bh i tx v
    = inr {| t8ntool.statedb :=
               state.SetTxContext (core.tx_Hash tx) (t8ntool.txIndex v)
                 (t8ntool.statedb v);
             t8ntool.gaspool := t8ntool.gaspool v;
             t8ntool.rejectedTxs :=
               t8ntool.rejectedTxs v ++ [{| t8ntool.Index := i; t8ntool.Err := e |}];
             t8ntool.includedTxs := t8ntool.includedTxs v;
             t8ntool.gasUsed := t8ntool.gasUsed v;
             t8ntool.receipts := t8ntool.receipts v;
             t8ntool.txIndex := t8ntool.txIndex v;
             t8ntool.hashError := t8ntool.hashError v |}.
Proof.
  intros Hm Ht Hgp. unfold t8ntool.applyTx. rewrite Hm, Ht.
  match goal with
  | |- context [state.Snapshot ?s] =>
      pose proof (Snapshot_Revert s) as HR; destruct (state.Snapshot s) as [id sdb]
  end.
  match goal with
  | |- context [core.ApplyMessage w ?z msg ?g] =>
      destruct (ApplyMessage_exceeds w z msg g Hgp) as [e He]; rewrite He
  end.
  exists e. simpl in *. rewrite HR. reflexivity.
Qed.

Lemma Apply_pool (w : core.Env) rng pre txs reward tracer sdb res :
  execute_within_budget -> uint64 (t8ntool.GasLimit (t8ntool.p_Env pre)) ->
  t8ntool.Apply w rng pre txs reward tracer = Return (inr (sdb, res)) ->
  0 <= t8ntool.GasUsed res <= t8ntool.GasLimit (t8ntool.p_Env pre)
  /\ t8ntool.GasUsed res = sumGasUsed (t8ntool.Receipts res).
Proof.
  intros Hb HL. unfold t8ntool.Apply.
  destruct (t8ntool.MakePreState _ _) as [s0|]; [|discriminate].
  cbv zeta.
  destruct (t8ntool.applyTxs _ _ _ _ _ _ _ _) as [e|v] eqn:HT; [discriminate|].
  apply applyTxs_pool with (L := t8ntool.GasLimit (t8ntool.p_Env pre)) in HT;
    [|assumption|assumption|].
  2:{ unfold vars_inv, pool_inv, core.AddGas, uint64 in *. simpl. lia. }
  destruct (core.Commit _ _ _) as [[root [e|]] s1]; [discriminate|].
  destruct (core.Reopen _ _); [discriminate|].
  intros [= <- <-]. simpl. destruct HT as (? & ? & ? & ?). lia.
Qed.

Lemma Process_pool (w : core.Env) block statedb cfg :
  execute_within_budget -> uint64 (core.h_GasLimit (core.header block)) ->
  core.p_err (core.Process w block statedb cfg) = None ->
  0 <= core.p_usedGas (core.Process w block statedb cfg)
    <= core.h_GasLimit (core.header block)
  /\ core.p_usedGas (core.Process w block statedb cfg)
     = sumGasUsed (core.p_receipts (core.Process w block statedb cfg)).
Proof.
  intros Hb HL. unfold core.Process. cbv zeta.
  match goal with
  | |- context [core.processTxs w ?hd ?bh 0 ?txs [] [] ?st] =>
      pose proof (processTxs_pool w hd bh _ Hb HL txs 0 [] [] st) as HP;
      destruct (core.processTxs w hd bh 0 txs [] [] st) as [[e|[rs logs]] st']
  end.
  - discriminate.
  - intros _. simpl.
    destruct HP as (? & ? & ? & ?).
    { unfold pool_inv, core.AddGas, uint64 in *. simpl. lia. }
    lia.
Qed.

End GasPoolProperties.

Section GasPoolClaim.
Import common.
Local Open Scope Z_scope.
Context `{vm.Machine} `{core.Chain}.

(** C4.  The block-level gas pool starts at the block's gas limit, loses
    for every included transaction the gas that transaction used, and is
    never negative, in StateProcessor.Process and in Prestate.Apply alike.
    A transaction whose gas limit exceeds the gas left in the pool is not
    executed: Process stops with an error, the pool and the state as they
    were; Apply reports the transaction as rejected under its position and
    goes on with the pool, the state, the gas used and the receipts as they
    were.  The gas used is the sum of the gas used by the transactions of
    the receipts and never exceeds the block's gas limit.  What the
    execution of a message gives back is taken to lie within the message's
    gas limit. *)
Theorem gas_pool_bounds_block_gas (w : core.Env) :
  execute_within_budget ->
  (* StateProcessor.Process *)
  (forall block statedb cfg,
     uint64 (core.h_GasLimit (core.header block)) ->
     core.p_err (core.Process w block statedb cfg) = None ->
     0 <= core.p_usedGas (core.Process w block statedb cfg)
       <= core.h_GasLimit (core.header block)
     /\ core.p_usedGas (core.Process w block statedb cfg)
        = sumGasUsed (core.p_receipts (core.Process w block statedb cfg)))
  /\ (forall hd bh L txs i rs logs st,
        uint64 L ->
        pool_inv L (core.cur_gp st) (core.cur_usedGas st) rs ->
        match core.processTxs w hd bh i txs rs logs st with
        | (inl _, st') => 0 <= core.cur_gp st'
        | (inr (rs', _), st') =>
            pool_inv L (core.cur_gp st') (core.cur_usedGas st') rs'
        end)
  /\ (forall msg st bn bh tx L rs,
        uint64 L ->
        pool_inv L (core.cur_gp st) (core.cur_usedGas st) rs ->
        forall receipt st',
          core.applyTransaction w msg st bn bh tx = (inr receipt, st') ->
          core.GasLimit msg <= core.cur_gp st
          /\ core.cur_gp st' = core.cur_gp st - core.GasUsed receipt)
  /\ (forall hd bh i tx rest rs logs st msg,
        core.TransactionToMessage tx (core.h_BaseFee hd) = inr msg ->
        core.cur_gp st < core.GasLimit msg ->
        exists e st',
          core.processTxs w hd bh i (tx :: rest) rs logs st = (inl e, st')
          /\ core.cur_gp st' = core.cur_gp st
          /\ core.cur_usedGas st' = core.cur_usedGas st
          /\ core.cur_statedb st'
             = state.SetTxContext (core.tx_Hash tx) i (core.cur_statedb st))
  (* Prestate.Apply *)
  /\ (forall rng pre txs reward tracer sdb res,
        uint64 (t8ntool.GasLimit (t8ntool.p_Env pre)) ->
        t8ntool.Apply w rng pre txs reward tracer = Return (inr (sdb, res)) ->
        0 <= t8ntool.GasUsed res <= t8ntool.GasLimit (t8ntool.p_Env pre)
        /\ t8ntool.GasUsed res = sumGasUsed (t8ntool.Receipts res))
  /\ (forall pre ctx tracer bh L txs i v v',
        uint64 L -> vars_inv L v ->
        t8ntool.applyTxs w pre ctx tracer bh i txs v = inr v' ->
        vars_inv L v')
  /\ (forall pre ctx tracer bh i tx v msg tr,
        core.TransactionToMessage tx (t8ntool.BaseFee (t8ntool.p_Env pre))
        = inr msg ->
        tracer (t8ntool.txIndex v) (core.tx_Hash tx) = inr tr ->
        t8ntool.gaspool v < core.GasLimit msg ->
        exists e,
          t8ntool.applyTx w pre ctx tracer bh i tx v
          = inr {| t8ntool.statedb :=
                     state.SetTxContext (core.tx_Hash tx) (t8ntool.txIndex v)
                       (t8ntool.statedb v);
                   t8ntool.gaspool := t8ntool.gaspool v;
                   t8ntool.rejectedTxs :=
                     t8ntool.rejectedTxs v
                     ++ [{| t8ntool.Index := i; t8ntool.Err := e |}];
                   t8ntool.includedTxs := t8ntool.includedTxs v;
                   t8ntool.gasUsed := t8ntool.gasUsed v;
                   t8ntool.receipts := t8ntool.receipts v;
                   t8ntool.txIndex := t8ntool.txIndex v;
                   t8ntool.hashError := t8ntool.hashError v |}).
Proof.
  intros Hb. repeat apply conj.
  - intros. apply Process_pool; assumption.
  - intros. apply processTxs_pool; assumption.
  - intros msg st bn bh tx L rs HL Hinv receipt st' HT.
    pose proof (applyTransaction_pool w msg st bn bh tx L rs Hb HL Hinv) as HP.
    rewrite HT in HP. apply HP.
  - intros. eapply processTxs_exceeds; eassumption.
  - intros. eapply Apply_pool; eassumption.
  - intros. eapply applyTxs_pool; eassumption.
  - intros. eapply applyTx_exceeds; eassumption.
Qed.

End GasPoolClaim.

(* ------------------------------------------------------------------ *)
(** ** The example chain *)
(* ------------------------------------------------------------------ *)

Local Open Scope Z_scope.

Lemma demo_execute_deterministic :
  @execute_deterministic demo.chain.
Proof. intros w1 w2 zvm msg g. reflexivity. Qed.

Lemma demo_finalize_deterministic :
  @finalize_deterministic demo.chain.
Proof. intros w1 w2 hd s txs. reflexivity. Qed.

Lemma demo_ascending : t8ntool.visits_all demo.ascending.
Proof. split; intros; reflexivity. Qed.

Lemma demo_descending : t8ntool.visits_all demo.descending.
Proof. split; intros; simpl; apply reverse_Permutation. Qed.

Lemma demo_execute_within_budget :
  @execute_within_budget demo.chain.
Proof.
  intros w zvm msg. cbn [core.IntrinsicGas core.execute demo.chain].
  unfold demo.run. intros Hi.
  destruct (core.To msg); cbn [core.gasRemaining]; lia.
Qed.

(** C1, witness: the block of two transfers under two environments, and
    the transition tool under two environments with the maps ranged over in
    ascending and in descending order. *)
Lemma block_processing_is_deterministic_witness :
  @core.Process demo.machine demo.chain 0%nat demo.block demo.ledger
    {| vm.Tracer := false |}
  = @core.Process demo.machine demo.chain 1%nat demo.block demo.ledger
      {| vm.Tracer := false |}
  /\ @t8ntool.Apply demo.machine demo.chain 0%nat demo.ascending
       demo.prestate demo.txs 0 demo.noTracer
     = @t8ntool.Apply demo.machine demo.chain 1%nat demo.descending
         demo.prestate demo.txs 0 demo.noTracer.
Proof.
  destruct (@block_processing_is_deterministic demo.machine demo.chain 0%nat 1%nat
              demo_execute_deterministic demo_finalize_deterministic) as [HP HA].
  split.
  - apply HP.
  - apply HA; [exact demo_ascending | exact demo_descending].
Defined.

(** C4, witness: the block of two transfers uses no more than its limit of
    50000, and a transaction asking for 40000 when 29000 are left ends the
    loop of Process with the pool at 29000. *)
Lemma gas_pool_bounds_block_gas_witness :
  (0 <= core.p_usedGas
          (@core.Process demo.machine demo.chain 0%nat demo.block
             demo.ledger {| vm.Tracer := false |}) <= 50000)
  /\ exists e st',
       @core.processTxs demo.machine demo.chain 0%nat demo.head50
         (common.BytesToHash 78) 1 [demo.pay 1 40000] [] []
         {| core.cur_gp := 29000; core.cur_statedb := demo.ledger;
            core.cur_usedGas := 21000;
            core.cur_vmenv := demo.zvmAt 0 false |}
       = (inl e, st')
       /\ core.cur_gp st' = 29000.
Proof.
  pose proof (@gas_pool_bounds_block_gas demo.machine demo.chain 0%nat
                demo_execute_within_budget) as (HP & _ & _ & HX & _).
  split.
  - apply (HP demo.block demo.ledger {| vm.Tracer := false |}).
    + unfold uint64, MaxUint64. simpl. lia.
    + vm_compute. reflexivity.
  - destruct (HX demo.head50 (common.BytesToHash 78) 1 (demo.pay 1 40000) [] [] []
                {| core.cur_gp := 29000; core.cur_statedb := demo.ledger;
                   core.cur_usedGas := 21000;
                   core.cur_vmenv := demo.zvmAt 0 false |}
                (demo.pay 1 40000) eq_refl) as (e & st' & HE & Hg & _).
    + simpl. lia.
    + exists e, st'. split; [exact HE | exact Hg].
Defined.

(** The transition tool on the three transactions: the second is rejected
    under its position 1 for want of gas in the pool, the other two are
    included and use 42000 of the 50000. *)
Example Apply_rejects_second :
  match @t8ntool.Apply demo.machine demo.chain 0%nat demo.descending
          demo.prestate demo.txs 0 demo.noTracer with
  | Return (inr (_, res)) =>
      t8ntool.Rejected res
      = [{| t8ntool.Index := 1; t8ntool.Err := core.ErrGasLimitReached |}]
      /\ t8ntool.GasUsed res = 42000
      /\ core.GasUsed <$> t8ntool.Receipts res = [21000; 21000]
  | _ => False
  end.
Proof. vm_compute. auto. Qed.

(** Process on the block whose second transaction asks for more gas than
    is left returns the pool's error and no receipts. *)
Example Process_refuses_overfull :
  let r := @core.Process demo.machine demo.chain 0%nat demo.overfull
             demo.ledger {| vm.Tracer := false |} in
  core.p_err r = Some core.ErrGasLimitReached /\ core.p_receipts r = []
  /\ core.p_usedGas r = 0.
Proof. vm_compute. auto. Qed.

(* ------------------------------------------------------------------ *)
(** ** Transactions: copies, accessors, caches and differences *)
(* ------------------------------------------------------------------ *)

Section TransactionProperties.
Import common types.
Context `{DynamicFeeTxFields} `{!TxHasher} `{!TxSizer}.

Lemma make_copy_length (n : nat) (src : bytes) : length (make_copy n src) = n.
Proof.
  unfold make_copy. rewrite length_app, repeat_length, length_take. lia.
Qed.

Lemma make_copy_exact (n : nat) (src : bytes) :
  length src = n -> make_copy n src = src.
Proof.
  intros Hn. unfold make_copy. rewrite take_ge by lia.
  rewrite Hn, Nat.sub_diag. simpl. apply app_nil_r.
Qed.

(** LegacyTx.copy normalises: in the copy the value and the gas price are
    not nil (nil counts as zero), the public key and the signature have
    the Dilithium lengths (cut or filled with zeros), and a key or
    signature of the right length is kept as it is; copying a copy changes
    nothing. *)
Theorem LegacyTx_copy_normalises (tx : LegacyTx) :
  let cpy := LegacyTx_copy tx in
  Value cpy = Some (default 0%Z (Value tx))
  /\ GasPrice cpy = Some (default 0%Z (GasPrice tx))
  /\ (exists pk, PublicKey cpy = Some pk /\ length pk = DilithiumPublicKeyLength
                 /\ (forall k, PublicKey tx = Some k
                               -> length k = DilithiumPublicKeyLength -> pk = k))
  /\ (exists sg, Signature cpy = Some sg /\ length sg = DilithiumSignatureLength
                 /\ (forall k, Signature tx = Some k
                               -> length k = DilithiumSignatureLength -> sg = k))
  /\ Nonce cpy = Nonce tx /\ Gas cpy = Gas tx /\ To cpy = To tx
  /\ Data cpy = Data tx
  /\ LegacyTx_copy cpy = cpy.
Proof.
  cbv zeta. unfold LegacyTx_copy. cbn [Value GasPrice PublicKey Signature Nonce Gas To Data].
  repeat apply conj; try reflexivity.
  - eexists. split; [reflexivity|]. split; [apply make_copy_length|].
    intros k -> Hk. simpl. apply make_copy_exact. exact Hk.
  - eexists. split; [reflexivity|]. split; [apply make_copy_length|].
    intros k -> Hk. simpl. apply make_copy_exact. exact Hk.
  - simpl. f_equal; f_equal; apply make_copy_exact, make_copy_length.
Qed.

(** A transaction made by NewTransaction or NewContractCreation can be read
    without a panic, whatever was nil among the arguments: Cost is gas
    limit times gas price plus amount, a nil price or amount counting as
    zero; To is the recipient, and nil for a contract creation; the tip cap
    and the fee cap are both the gas price. *)
Theorem legacy_constructors_read_back (n : Z) (recipient : Address)
  (amount : option Z) (gasLimit : Z) (price : option Z) (data : bytes) (now : Z) :
  let tx := NewTransaction n recipient amount gasLimit price data now in
  let cc := NewContractCreation n amount gasLimit price data now in
  Cost tx = Return (default 0 price * gasLimit + default 0 amount)%Z
  /\ Cost cc = Return (default 0 price * gasLimit + default 0 amount)%Z
  /\ To_ tx = Return (Some recipient)
  /\ To_ cc = Return None
  /\ Nonce_ tx = Return n /\ Gas_ tx = Return gasLimit
  /\ Value_ tx = Return (default 0%Z amount)
  /\ GasTipCap tx = Return (default 0%Z price)
  /\ GasFeeCap tx = Return (default 0%Z price).
Proof.
  cbv zeta. repeat apply conj; reflexivity.
Qed.

(** EffectiveGasTip with a base fee returns the smaller of the tip cap and
    of the fee cap less the base fee, and ErrGasFeeCapTooLow exactly when
    the fee cap is below the base fee; with a tip cap that is not negative
    the error comes exactly with a negative value.  Without a base fee it
    returns the tip cap and no error. *)
Theorem EffectiveGasTip_value_and_error (tx : Transaction) (tip cap : Z)
  (baseFee : Z) :
  GasTipCap tx = Return tip -> GasFeeCap tx = Return cap ->
  EffectiveGasTip tx None = Return (tip, None)
  /\ exists v e,
       EffectiveGasTip tx (Some baseFee) = Return (v, e)
       /\ v = Z.min tip (cap - baseFee)
       /\ (e = Some ErrGasFeeCapTooLow <-> (cap < baseFee)%Z)
       /\ (e = None \/ e = Some ErrGasFeeCapTooLow)
       /\ ((0 <= tip)%Z -> (e = Some ErrGasFeeCapTooLow <-> (v < 0)%Z)).
Proof.
  intros Ht Hc. unfold EffectiveGasTip. rewrite Ht, Hc. simpl.
  split; [reflexivity|].
  set (e := if (cap <? baseFee)%Z then Some ErrGasFeeCapTooLow else None).
  assert (Hv : BigMin tip (cap - baseFee) = Z.min tip (cap - baseFee)).
  { unfold BigMin. destruct (Z.ltb_spec (cap - baseFee) tip); lia. }
  assert (He : e = Some ErrGasFeeCapTooLow <-> (cap < baseFee)%Z).
  { unfold e. destruct (Z.ltb_spec cap baseFee); split; intros;
      try discriminate; try reflexivity; lia. }
  exists (BigMin tip (cap - baseFee)), e. split; [reflexivity|].
  split; [exact Hv|]. split; [exact He|]. split.
  - unfold e. destruct (cap <? baseFee)%Z; auto.
  - intros Htip. rewrite He, Hv. lia.
Qed.

(** EffectiveGasTipCmp orders two transactions as their effective tips are
    ordered: it is -1, 0 or 1 as the first tip is below, equal to or above
    the second; for a nil base fee it compares the tip caps. *)
Theorem EffectiveGasTipCmp_orders (tx other : Transaction) (baseFee : option Z)
  (x y : Z) :
  EffectiveGasTipValue tx baseFee = Return x ->
  EffectiveGasTipValue other baseFee = Return y ->
  exists c, EffectiveGasTipCmp tx other baseFee = Return c
            /\ (c = (-1)%Z <-> (x < y)%Z) /\ (c = 0%Z <-> x = y)
            /\ (c = 1%Z <-> (y < x)%Z).
Proof.
  intros Hx Hy.
  assert (HC : forall a b, (Cmp a b = (-1)%Z <-> (a < b)%Z)
                           /\ (Cmp a b = 0%Z <-> a = b)
                           /\ (Cmp a b = 1%Z <-> (b < a)%Z)).
  { intros a b. unfold Cmp. destruct (Z.compare_spec a b); repeat split; lia. }
  destruct baseFee as [bf|].
  - unfold EffectiveGasTipCmp. rewrite Hx, Hy. simpl.
    eexists. split; [reflexivity|]. apply HC.
  - unfold EffectiveGasTipCmp, GasTipCapCmp.
    unfold EffectiveGasTipValue, EffectiveGasTip in Hx, Hy.
    destruct (GasTipCap tx) as [a|]; [|discriminate].
    destruct (GasTipCap other) as [b|]; [|discriminate].
    simpl in *. injection Hx as ->. injection Hy as ->.
    eexists. split; [reflexivity|]. apply HC.
Qed.

(** UnmarshalBinary that fails leaves the receiver as it was.  When it
    succeeds, Size of the receiver is the length of the input, whatever was
    cached before; the hash cache is not touched: a receiver that had a
    hash cached keeps returning it from Hash, whatever was decoded. *)
Theorem UnmarshalBinary_caches (tx tx' : Transaction) (b : bytes) (now : Z)
  (e : option error) :
  UnmarshalBinary tx b now = Return (tx', e) ->
  (e <> None -> tx' = tx)
  /\ (e = None ->
        Size tx' = (Z.of_nat (length b), tx')
        /\ (2 <= length b)%nat
        /\ time tx' = now
        /\ from tx' = from tx
        /\ forall h, hash tx = Some h -> Hash_ tx' = Return (h, tx')).
Proof.
  unfold UnmarshalBinary. intros HU.
  destruct (le_lt_dec (length b) 1) as [Hle|Hgt].
  - rewrite decodeTyped_short in HU by exact Hle. simpl in HU.
    injection HU as <- <-. split; [reflexivity | discriminate].
  - destruct (decodeTyped_returns b) as (i & e0 & Hd & _).
    rewrite Hd in HU. simpl in HU. destruct e0 as [e0|].
    + injection HU as <- <-. split; [reflexivity | discriminate].
    + injection HU as <- <-. split; [congruence|]. intros _.
      unfold Size, setDecoded. cbn [size time from hash inner].
      assert (Hpos : (0 <? Z.of_nat (length b))%Z = true) by (apply Z.ltb_lt; lia).
      rewrite Hpos. repeat apply conj; try reflexivity; try lia.
      intros h Hh. unfold Hash_. cbn [hash]. rewrite Hh. reflexivity.
Qed.

(** Hash computes once: the transaction that a call of Hash leaves returns
    the same hash from then on and is not changed again. *)
Theorem Hash_caches (tx c : Transaction) (h : Hash) :
  Hash_ tx = Return (h, c) ->
  Hash_ c = Return (h, c) /\ inner c = inner tx /\ size c = size tx.
Proof.
  unfold Hash_. destruct (hash tx) as [h0|] eqn:Hh.
  - intros [= <- <-]. rewrite Hh. auto.
  - unfold Type_. destruct (inner tx) as [d|]; [|discriminate]. simpl.
    intros [= <- <-]. simpl. auto.
Qed.

Lemma foldl_remove (b : list Hash) (acc : gset Hash) (h : Hash) :
  h ∈ foldl (fun remove x => {[x]} ∪ remove) acc b <-> h ∈ b \/ h ∈ acc.
Proof.
  revert acc. induction b as [|x b IH]; intros acc; simpl.
  - rewrite elem_of_nil. tauto.
  - rewrite IH, elem_of_cons, elem_of_union, elem_of_singleton. tauto.
Qed.

Lemma foldl_keep {A : Type} (P : A -> Prop) `{!forall x, Decision (P x)}
  (a keep : list A) :
  foldl (fun keep x => if decide (P x) then keep else keep ++ [x]) keep a
  = keep ++ filter (fun x => ~ P x) a.
Proof.
  revert keep. induction a as [|x a IH]; intros keep; simpl.
  - rewrite app_nil_r. reflexivity.
  - rewrite IH, filter_cons. destruct (decide (P x)) as [HP|HP].
    + rewrite decide_False by tauto. reflexivity.
    + rewrite decide_True by exact HP. rewrite <- app_assoc. reflexivity.
Qed.

(** HashDifference keeps, in their order and as often as they occur, the
    hashes of a that do not occur in b. *)
Theorem HashDifference_filters (a b : list Hash) :
  HashDifference a b = filter (fun h => h ∉ b) a.
Proof.
  unfold HashDifference. cbv zeta.
  rewrite (foldl_keep (fun h => h ∈ foldl (fun remove x => {[x]} ∪ remove) ∅ b)).
  simpl. apply list_filter_iff. intros h.
  rewrite foldl_remove. rewrite elem_of_empty. tauto.
Qed.

(** The hash that Hash returns for a transaction, and the transaction as
    the call leaves it. *)
Definition hashOf (tx : Transaction) : Hash :=
  match Hash_ tx with
  | Return (h, _) => h
  | Panic _ => ZeroHash
  end.

Definition hashed (tx : Transaction) : Transaction :=
  match Hash_ tx with
  | Return (_, c) => c
  | Panic _ => tx
  end.

Lemma removeSet_hashes (b : list Transaction) (acc : gset Hash) :
  Forall (fun tx => panics (Hash_ tx) = false) b ->
  removeSet b acc
  = Return (foldl (fun remove h => {[h]} ∪ remove) acc (hashOf <$> b)).
Proof.
  revert acc. induction b as [|tx b IH]; intros acc Hb.
  - reflexivity.
  - inversion Hb as [|? ? Htx Hrest]; subst.
    destruct (Hash_ tx) as [[h c]|] eqn:Hh; [|discriminate].
    assert (Hho : hashOf tx = h) by (unfold hashOf; rewrite Hh; reflexivity).
    cbn [removeSet]. rewrite Hh. cbn [obind].
    rewrite fmap_cons. cbn [foldl]. rewrite Hho. apply IH. exact Hrest.
Qed.

Lemma keepTxs_filter (remove : gset Hash) (a keep : list Transaction) :
  Forall (fun tx => panics (Hash_ tx) = false) a ->
  keepTxs remove a keep
  = Return (keep ++ (hashed <$> filter (fun tx => hashOf tx ∉ remove) a)).
Proof.
  revert keep. induction a as [|tx a IH]; intros keep Ha.
  - simpl. rewrite app_nil_r. reflexivity.
  - inversion Ha as [|? ? Htx Hrest]; subst.
    destruct (Hash_ tx) as [[h c]|] eqn:Hh; [|discriminate].
    assert (Hho : hashOf tx = h) by (unfold hashOf; rewrite Hh; reflexivity).
    assert (Hhd : hashed tx = c) by (unfold hashed; rewrite Hh; reflexivity).
    cbn [keepTxs]. rewrite Hh. cbn [obind].
    rewrite IH by exact Hrest. rewrite filter_cons, Hho.
    destruct (decide (h ∈ remove)) as [Hin|Hin].
    + rewrite decide_False by tauto. reflexivity.
    + rewrite decide_True by exact Hin. rewrite fmap_cons, Hhd.
      rewrite <- app_assoc. reflexivity.
Qed.

(** TxDifference, when Hash panics for none of the transactions (none is
    the zero Transaction), keeps, in their order, the transactions of a
    whose hash is not the hash of a transaction of b, each with its hash
    cached; it panics when Hash panics for a transaction of b. *)
Theorem TxDifference_filters (a b : list Transaction) :
  (Forall (fun tx => panics (Hash_ tx) = false) (a ++ b) ->
   TxDifference a b
   = Return (hashed <$> filter (fun tx => hashOf tx ∉ (hashOf <$> b)) a))
  /\ (Exists (fun tx => panics (Hash_ tx) = true) b ->
      panics (TxDifference a b) = true).
Proof.
  split.
  - intros Hab. apply Forall_app in Hab as [Ha Hb].
    unfold TxDifference. rewrite removeSet_hashes by exact Hb. simpl.
    rewrite keepTxs_filter by exact Ha. simpl. f_equal. f_equal.
    apply list_filter_iff. intros tx. rewrite foldl_remove, elem_of_empty.
    tauto.
  - intros Hb. unfold TxDifference.
    assert (Hp : forall acc, panics (removeSet b acc) = true).
    { induction Hb as [tx b Htx|tx b Hb IH]; intros acc; simpl.
      - destruct (Hash_ tx) as [[h c]|]; [discriminate | reflexivity].
      - destruct (Hash_ tx) as [[h c]|]; [apply IH | reflexivity]. }
    specialize (Hp ∅). destruct (removeSet b ∅); [discriminate | reflexivity].
Qed.

End TransactionProperties.

(* ------------------------------------------------------------------ *)
(** ** Receipts *)
(* ------------------------------------------------------------------ *)

Section ReceiptProperties.
Import common.
Local Open Scope Z_scope.
Context `{vm.Machine} `{core.Chain}.

(** The running totals of a list, from [acc]. *)
Fixpoint running (acc : Z) (l : list Z) : list Z :=
  match l with
  | [] => []
  | x :: l => (acc + x) :: running (acc + x) l
  end.

Lemma running_app (acc : Z) (l : list Z) (x : Z) :
  running acc (l ++ [x]) = running acc l ++ [acc + foldr Z.add 0 l + x].
Proof.
  revert acc. induction l as [|y l IH]; intros acc; simpl.
  - f_equal. lia.
  - rewrite IH. do 3 f_equal. lia.
Qed.

Lemma sumGasUsed_foldr (rs : list core.Receipt) :
  sumGasUsed rs = foldr Z.add 0 (core.GasUsed <$> rs).
Proof.
  induction rs as [|r rs IH]; [reflexivity|].
  rewrite fmap_cons. cbn [foldr]. rewrite <- IH. reflexivity.
Qed.

(** What the loop of Process adds to the receipts and to the logs. *)
Lemma processTxs_receipts (w : core.Env) hd bh txs :
  forall i rs logs st rs' logs' st',
    core.processTxs w hd bh i txs rs logs st = (inr (rs', logs'), st') ->
    exists new,
      rs' = rs ++ new
      /\ core.TxHash <$> new = core.tx_Hash <$> txs
      /\ core.r_Type <$> new = core.tx_Type <$> txs
      /\ logs' = logs ++ concat (core.Logs <$> new)
      /\ Forall (fun r => core.BlockHash r = Some bh
                          /\ core.BlockNumber r = Some (core.h_Number hd)
                          /\ core.PostState r = []
                          /\ (core.Status r = core.ReceiptStatusFailed
                              \/ core.Status r = core.ReceiptStatusSuccessful))
           new.
Proof.
  induction txs as [|tx rest IH]; intros i rs logs st rs' logs' st'.
  - simpl. intros [= <- <- <-]. exists []. rewrite !app_nil_r.
    repeat split; constructor.
  - simpl. destruct (core.TransactionToMessage tx _) as [e|msg]; [discriminate|].
    match goal with
    | |- context [core.applyTransaction w msg ?s ?bn bh tx] =>
        destruct (core.applyTransaction w msg s bn bh tx) as [[e|receipt] st1] eqn:HT
    end; [discriminate|].
    intros HP. apply IH in HP as (new & -> & Hh & Ht & -> & Hf).
    exists (receipt :: new).
    unfold core.applyTransaction in HT. cbv zeta in HT.
    destruct (core.ApplyMessage _ _ _ _) as [[[[e|res] zvm'] gp'] q];
      [discriminate|].
    injection HT as <- <-.
    split; [rewrite <- app_assoc; reflexivity|].
    split; [rewrite !fmap_cons, Hh; reflexivity|].
    split; [rewrite !fmap_cons, Ht; reflexivity|].
    split; [rewrite fmap_cons; cbn [concat]; rewrite <- app_assoc; reflexivity|].
    constructor; [|exact Hf]. simpl. repeat split.
    destruct (core.Failed res); auto.
Qed.

(** Process, when it returns no error, returns one receipt for each
    transaction of the block, in the block's order, with the transaction's
    hash and type, the block's hash and number, an empty post-state and
    status 0 or 1; the logs it returns are the logs of the receipts, in
    order. *)
Theorem Process_receipts_follow_block (w : core.Env) (block : core.Block)
  (statedb : state.StateDB) (cfg : vm.Config) :
  let r := core.Process w block statedb cfg in
  core.p_err r = None ->
  core.TxHash <$> core.p_receipts r = core.tx_Hash <$> core.transactions block
  /\ core.r_Type <$> core.p_receipts r = core.tx_Type <$> core.transactions block
  /\ length (core.p_receipts r) = length (core.transactions block)
  /\ core.p_logs r = concat (core.Logs <$> core.p_receipts r)
  /\ Forall (fun rc => core.BlockHash rc = Some (core.b_hash block)
                       /\ core.BlockNumber rc
                          = Some (core.h_Number (core.header block))
                       /\ core.PostState rc = []
                       /\ (core.Status rc = core.ReceiptStatusFailed
                           \/ core.Status rc = core.ReceiptStatusSuccessful))
       (core.p_receipts r).
Proof.
  cbv zeta. unfold core.Process. cbv zeta.
  match goal with
  | |- context [core.processTxs w ?hd ?bh 0 ?txs [] [] ?st] =>
      destruct (core.processTxs w hd bh 0 txs [] [] st)
        as [[e|[rs logs]] st'] eqn:HP
  end; [discriminate|].
  intros _. simpl.
  apply processTxs_receipts in HP as (new & -> & Hh & Ht & -> & Hf).
  simpl. repeat split; try assumption.
  rewrite <- (length_fmap core.TxHash), Hh, length_fmap. reflexivity.
Qed.

Lemma applyTransaction_cumulative (w : core.Env) msg st bn bh tx L rs receipt st' :
  execute_within_budget -> uint64 L ->
  pool_inv L (core.cur_gp st) (core.cur_usedGas st) rs ->
  core.applyTransaction w msg st bn bh tx = (inr receipt, st') ->
  core.CumulativeGasUsed receipt = core.cur_usedGas st + core.GasUsed receipt
  /\ core.cur_usedGas st' = core.CumulativeGasUsed receipt
  /\ 0 <= core.GasUsed receipt <= core.GasLimit msg.
Proof.
  intros Hb HL (Hgp & Hu & Hsum & Hrs). unfold core.applyTransaction. cbv zeta.
  destruct (core.ApplyMessage _ _ _ _) as [[[[e|res] zvm'] gp'] q] eqn:HA;
    [discriminate|].
  destruct (ApplyMessage_charges _ _ _ _ _ _ _ _ Hb HA) as (Hle & Hres & ->).
  intros [= <- <-]. simpl.
  rewrite (wrap64_small L) by (trivial; lia). auto.
Qed.

Lemma processTxs_cumulative (w : core.Env) hd bh L :
  execute_within_budget -> uint64 L ->
  forall txs i rs logs st rs' logs' st',
    pool_inv L (core.cur_gp st) (core.cur_usedGas st) rs ->
    core.CumulativeGasUsed <$> rs = running 0 (core.GasUsed <$> rs) ->
    Forall (fun r => 0 <= core.GasUsed r) rs ->
    core.processTxs w hd bh i txs rs logs st = (inr (rs', logs'), st') ->
    core.CumulativeGasUsed <$> rs' = running 0 (core.GasUsed <$> rs')
    /\ Forall (fun r => 0 <= core.GasUsed r) rs'.
Proof.
  intros Hb HL. induction txs as [|tx rest IH];
    intros i rs logs st rs' logs' st' Hinv Hrun Hpos.
  - simpl. intros [= <- <- <-]. auto.
  - simpl. destruct (core.TransactionToMessage tx _) as [e|msg]; [discriminate|].
    match goal with
    | |- context [core.applyTransaction w msg ?s ?bn bh tx] =>
        pose proof (applyTransaction_pool w msg s bn bh tx L rs Hb HL Hinv) as HT;
        pose proof (applyTransaction_cumulative w msg s bn bh tx L rs) as HC;
        destruct (core.applyTransaction w msg s bn bh tx) as [[e|receipt] st1]
    end; [discriminate|].
    destruct HT as (Hinv1 & _).
    destruct (HC receipt st1 Hb HL Hinv eq_refl) as (Hcum & _ & Hp).
    apply IH.
    + exact Hinv1.
    + rewrite !fmap_app. simpl. rewrite running_app, Hrun.
      f_equal. f_equal. rewrite Hcum.
      destruct Hinv as (_ & _ & _ & Hs). simpl in Hs. rewrite Hs.
      rewrite sumGasUsed_foldr. simpl. lia.
    + apply Forall_app. split; [exact Hpos|]. constructor; [lia | constructor].
Qed.

Lemma applyTx_cumulative (w : core.Env) pre ctx tracer bh i tx v v' L :
  execute_within_budget -> uint64 L ->
  vars_inv L v ->
  core.CumulativeGasUsed <$> t8ntool.receipts v
  = running 0 (core.GasUsed <$> t8ntool.receipts v) ->
  Forall (fun r => 0 <= core.GasUsed r) (t8ntool.receipts v) ->
  t8ntool.applyTx w pre ctx tracer bh i tx v = inr v' ->
  core.CumulativeGasUsed <$> t8ntool.receipts v'
  = running 0 (core.GasUsed <$> t8ntool.receipts v')
  /\ Forall (fun r => 0 <= core.GasUsed r) (t8ntool.receipts v').
Proof.
  intros Hb HL Hinv Hrun Hpos. pose proof Hinv as (Hgp & Hu & Hsum & Hrs).
  unfold t8ntool.applyTx.
  destruct (core.TransactionToMessage tx _) as [e|msg].
  { intros [= <-]. auto. }
  destruct (tracer _ _) as [e|tr]; [discriminate|].
  destruct (state.Snapshot _) as [snapshot sdb].
  destruct (core.ApplyMessage _ _ _ _) as [[[[e|res] zvm'] gp'] q] eqn:HA.
  - intros [= <-]. auto.
  - destruct (t8ntool.recordHashError _ _ _); [discriminate|].
    intros [= <-].
    destruct (ApplyMessage_charges _ _ _ _ _ _ _ _ Hb HA) as (Hle & Hres & ->).
    simpl. split.
    + rewrite !fmap_app. simpl. rewrite running_app, Hrun.
      f_equal. f_equal. rewrite (wrap64_small L) by (trivial; lia).
      rewrite Hrs, sumGasUsed_foldr. lia.
    + apply Forall_app. split; [exact Hpos|]. constructor; [simpl; lia | constructor].
Qed.

Lemma applyTxs_cumulative (w : core.Env) pre ctx tracer bh L :
  execute_within_budget -> uint64 L ->
  forall txs i v v',
    vars_inv L v ->
    core.CumulativeGasUsed <$> t8ntool.receipts v
    = running 0 (core.GasUsed <$> t8ntool.receipts v) ->
    Forall (fun r => 0 <= core.GasUsed r) (t8ntool.receipts v) ->
    t8ntool.applyTxs w pre ctx tracer bh i txs v = inr v' ->
    core.CumulativeGasUsed <$> t8ntool.receipts v'
    = running 0 (core.GasUsed <$> t8ntool.receipts v')
    /\ Forall (fun r => 0 <= core.GasUsed r) (t8ntool.receipts v').
Proof.
  intros Hb HL. induction txs as [|tx rest IH]; intros i v v' Hinv Hrun Hpos.
  - simpl. intros [= <-]. auto.
  - simpl. destruct (t8ntool.applyTx _ _ _ _ _ _ _ _) as [e|v1] eqn:HT;
      [discriminate|].
    destruct (applyTx_cumulative _ _ _ _ _ _ _ _ _ _ Hb HL Hinv Hrun Hpos HT)
      as (Hrun1 & Hpos1).
    apply IH; try assumption. eapply applyTx_pool; eassumption.
Qed.

(** The cumulative gas of the receipts is the running total of their gas.
    In the receipts that Process returns without error, and in those that
    Apply returns, each receipt's CumulativeGasUsed is the sum of the
    GasUsed of the receipts up to and including it, and no GasUsed is
    negative: the cumulative gas never decreases along the receipts.  What
    the execution of a message gives back is taken to lie within the
    message's gas limit. *)
Theorem cumulative_gas_is_running_total (w : core.Env) :
  execute_within_budget ->
  (forall block statedb cfg,
     uint64 (core.h_GasLimit (core.header block)) ->
     let r := core.Process w block statedb cfg in
     core.p_err r = None ->
     core.CumulativeGasUsed <$> core.p_receipts r
     = running 0 (core.GasUsed <$> core.p_receipts r)
     /\ Forall (fun rc => 0 <= core.GasUsed rc) (core.p_receipts r))
  /\ (forall rng pre txs reward tracer sdb res,
        uint64 (t8ntool.GasLimit (t8ntool.p_Env pre)) ->
        t8ntool.Apply w rng pre txs reward tracer = Return (inr (sdb, res)) ->
        core.CumulativeGasUsed <$> t8ntool.Receipts res
        = running 0 (core.GasUsed <$> t8ntool.Receipts res)
        /\ Forall (fun rc => 0 <= core.GasUsed rc) (t8ntool.Receipts res)).
Proof.
  intros Hb. split.
  - intros block statedb cfg HL. cbv zeta. unfold core.Process. cbv zeta.
    match goal with
    | |- context [core.processTxs w ?hd ?bh 0 ?txs [] [] ?st] =>
        pose proof (processTxs_cumulative w hd bh _ Hb HL txs 0 [] [] st) as HP;
        destruct (core.processTxs w hd bh 0 txs [] [] st)
          as [[e|[rs logs]] st']
    end; [discriminate|].
    intros _. simpl. apply (HP rs logs st'); [|reflexivity|constructor|reflexivity].
    unfold pool_inv, core.AddGas, uint64 in *. simpl. lia.
  - intros rng pre txs reward tracer sdb res HL. unfold t8ntool.Apply.
    destruct (t8ntool.MakePreState _ _) as [s0|]; [|discriminate].
    cbv zeta.
    destruct (t8ntool.applyTxs _ _ _ _ _ _ _ _) as [e|v] eqn:HT; [discriminate|].
    apply applyTxs_cumulative with (L := t8ntool.GasLimit (t8ntool.p_Env pre)) in HT;
      [|assumption|assumption| |reflexivity|constructor].
    2:{ unfold vars_inv, pool_inv, core.AddGas, uint64 in *. simpl. lia. }
    destruct (core.Commit _ _ _) as [[root [e|]] s1]; [discriminate|].
    destruct (core.Reopen _ _); [discriminate|].
    intros [= <- <-]. simpl. exact HT.
Qed.

End ReceiptProperties.

(* ------------------------------------------------------------------ *)
(** ** The transition tool: allocation, partition, reward and withdrawals *)
(* ------------------------------------------------------------------ *)

Section ToolProperties.
Import common.
Local Open Scope Z_scope.
Context `{vm.Machine} `{core.Chain}.

(** Committing, reopening and hashing the state leave the accounts as they
    are. *)
Definition keeps_accounts : Prop :=
  (forall n b s,
     state.accounts (state.live (core.Commit n b s).2)
     = state.accounts (state.live s))
  /\ (forall root s s',
        core.Reopen root s = inr s' ->
        state.accounts (state.live s') = state.accounts (state.live s))
  /\ (forall b s,
        state.accounts (state.live (core.IntermediateRoot b s).2)
        = state.accounts (state.live s)).

Lemma storeSlot_fields (l : list (Z * Z)) :
  forall acc : state.Account,
    state.nonce (foldl storeSlot acc l) = state.nonce acc
    /\ state.balance (foldl storeSlot acc l) = state.balance acc
    /\ state.code (foldl storeSlot acc l) = state.code acc.
Proof.
  induction l as [|kv l IH]; intros acc; simpl; [auto|].
  destruct (IH (storeSlot acc kv)) as (-> & -> & ->). auto.
Qed.

(** What a slot holds after the writes of an allocation: nothing for a
    value of zero. *)
Definition slotOf (v : Z) : option Z := if (v =? 0) then None else Some v.

Lemma storeSlot_lookup (l : list (Z * Z)) :
  NoDup l.*1 ->
  forall (acc : state.Account) (k : Z),
    state.storage (foldl storeSlot acc l) !! k
    = match (list_to_map l : gmap Z Z) !! k with
      | Some v => slotOf v
      | None => state.storage acc !! k
      end.
Proof.
  induction l as [|[k0 v0] l IH]; intros Hnd acc k; [reflexivity|].
  rewrite fmap_cons in Hnd. apply NoDup_cons in Hnd as [Hk0 Hnd].
  cbn [foldl]. rewrite list_to_map_cons, IH by exact Hnd.
  destruct (decide (k = k0)) as [->|Hne].
  - rewrite lookup_insert_eq.
    rewrite (not_elem_of_list_to_map_1 l k0) by exact Hk0.
    unfold storeSlot, slotOf. simpl. destruct (v0 =? 0).
    + apply lookup_delete_eq.
    + apply lookup_insert_eq.
  - rewrite lookup_insert_ne by congruence.
    destruct (list_to_map l !! k); [reflexivity|].
    unfold storeSlot. simpl. destruct (v0 =? 0).
    + apply lookup_delete_ne. congruence.
    + apply lookup_insert_ne. congruence.
Qed.

Lemma setAccount_lookup (rng : t8ntool.MapRange)
  (l : list (Z * t8ntool.GenesisAccount)) :
  NoDup l.*1 ->
  forall (s : state.StateDB) (addr : Address),
    state.getStateObject addr (foldl (t8ntool.setAccount rng) s l)
    = match (list_to_map l : gmap Z t8ntool.GenesisAccount) !! addr with
      | Some a => Some (written rng addr a (state.getOrNewStateObject addr s))
      | None => state.getStateObject addr s
      end.
Proof.
  induction l as [|[k0 a0] l IH]; intros Hnd s addr; [reflexivity|].
  rewrite fmap_cons in Hnd. apply NoDup_cons in Hnd as [Hk0 Hnd].
  cbn [foldl]. rewrite list_to_map_cons, IH by exact Hnd.
  rewrite setAccount_upd. cbn [fst snd].
  unfold upd, state.getOrNewStateObject, state.getStateObject,
    state.setStateObject, state.with_accounts, state.with_live. simpl.
  destruct (decide (addr = k0)) as [->|Hne].
  - rewrite !lookup_insert_eq.
    rewrite (not_elem_of_list_to_map_1 l k0) by exact Hk0. reflexivity.
  - rewrite !lookup_insert_ne by congruence. reflexivity.
Qed.

(** MakePreState loads the allocation, and nothing else.  In the state it
    returns, an address of the allocation exists with the nonce, the
    balance and the code given for it, and each of its storage slots holds
    the value given for it, a slot given as zero holding nothing; an
    address that is not in the allocation does not exist.  This holds for
    every order in which the ranges visit the maps. *)
Theorem MakePreState_loads_allocation (rng : t8ntool.MapRange)
  (alloc : gmap Z t8ntool.GenesisAccount) (s : state.StateDB) :
  keeps_accounts -> t8ntool.visits_all rng ->
  t8ntool.MakePreState rng alloc = Some s ->
  forall addr,
    match alloc !! addr with
    | Some a =>
        state.Exist addr s = true
        /\ state.GetNonce addr s = t8ntool.ga_Nonce a
        /\ state.GetBalance addr s = t8ntool.ga_Balance a
        /\ state.GetCode addr s = t8ntool.ga_Code a
        /\ forall k, state.storage (state.getOrNewStateObject addr s) !! k
                     = t8ntool.ga_Storage a !! k ≫= slotOf
    | None => state.Exist addr s = false
    end.
Proof.
  intros (HC & HR & _) Hv. 
  set (canon := {| t8ntool.range_accounts := map_to_list;
                   t8ntool.range_storage := fun _ => map_to_list |}).
  assert (Hcanon : t8ntool.visits_all canon) by (split; intros; reflexivity).
  rewrite (MakePreState_order rng canon) by assumption.
  unfold t8ntool.MakePreState. cbv zeta.
  set (s0 := foldl (t8ntool.setAccount canon) (state.New ∅)
               (t8ntool.range_accounts canon alloc)).
  pose proof (HC 0 false s0) as HC'.
  destruct (core.Commit 0 false s0) as [[root e] s1]. simpl in HC'.
  destruct (core.Reopen root s1) as [e'|s2] eqn:HRo; [discriminate|].
  intros [= <-] addr. apply HR in HRo.
  assert (Hget : state.getStateObject addr s2
                 = (fun a => written canon addr a state.newAccount) <$> alloc !! addr).
  { unfold state.getStateObject at 1. rewrite HRo, HC'.
    change (state.accounts (state.live s0) !! addr)
      with (state.getStateObject addr s0).
    unfold s0. simpl. rewrite setAccount_lookup by apply NoDup_fst_map_to_list.
    rewrite list_to_map_to_list.
    destruct (alloc !! addr); reflexivity. }
  unfold state.Exist, state.GetNonce, state.GetBalance, state.GetCode,
    state.getOrNewStateObject. rewrite Hget.
  destruct (alloc !! addr) as [a|]; simpl.
  - unfold written.
    destruct (storeSlot_fields (t8ntool.range_storage canon addr (t8ntool.ga_Storage a))
                {| state.nonce := t8ntool.ga_Nonce a;
                   state.balance := t8ntool.ga_Balance a;
                   state.code := t8ntool.ga_Code a;
                   state.storage := state.storage state.newAccount |})
      as (-> & -> & ->).
    repeat split.
    intros k. simpl. rewrite storeSlot_lookup by apply NoDup_fst_map_to_list.
    rewrite list_to_map_to_list. simpl.
    destruct (t8ntool.ga_Storage a !! k); reflexivity.
  - reflexivity.
Qed.

(** What the loop of Apply has made of the transactions [done] when it
    stands at position [i]: the transaction index counts the receipts, every
    transaction so far has a receipt or is rejected, the receipts carry the
    indices 0, 1, 2, ..., the rejected positions are below [i] and
    increase, and the receipts are those of transactions of [done], in
    their order. *)
Definition partitioned (i : Z) (done : list core.Transaction) (v : t8ntool.Vars)
  : Prop :=
  t8ntool.txIndex v = Z.of_nat (length (t8ntool.receipts v))
  /\ Z.of_nat (length (t8ntool.receipts v))
     + Z.of_nat (length (t8ntool.rejectedTxs v)) = i
  /\ core.TransactionIndex <$> t8ntool.receipts v
     = Z.of_nat <$> seq 0 (length (t8ntool.receipts v))
  /\ Forall (fun r => 0 <= t8ntool.Index r < i) (t8ntool.rejectedTxs v)
  /\ StronglySorted Z.lt (t8ntool.Index <$> t8ntool.rejectedTxs v)
  /\ core.TxHash <$> t8ntool.receipts v `sublist_of` core.tx_Hash <$> done.

Lemma StronglySorted_snoc (l : list Z) (x : Z) :
  StronglySorted Z.lt l -> Forall (fun y => y < x) l ->
  StronglySorted Z.lt (l ++ [x]).
Proof.
  induction 1 as [|y l Hs IH Hy]; intros Hx; simpl.
  - repeat constructor.
  - apply Forall_cons in Hx as [Hyx Hx]. constructor; [apply IH; exact Hx|].
    apply Forall_app. split; [exact Hy|]. constructor; [exact Hyx | constructor].
Qed.

Lemma partitioned_reject (i : Z) done tx (v : t8ntool.Vars) e sdb gp he :
  partitioned i done v ->
  partitioned (i + 1) (done ++ [tx])
    {| t8ntool.statedb := sdb; t8ntool.gaspool := gp;
       t8ntool.rejectedTxs :=
         t8ntool.rejectedTxs v ++ [{| t8ntool.Index := i; t8ntool.Err := e |}];
       t8ntool.includedTxs := t8ntool.includedTxs v;
       t8ntool.gasUsed := t8ntool.gasUsed v;
       t8ntool.receipts := t8ntool.receipts v;
       t8ntool.txIndex := t8ntool.txIndex v; t8ntool.hashError := he |}.
Proof.
  intros (Hti & Hlen & Hidx & Hrej & Hsort & Hsub).
  unfold partitioned. simpl.
  split; [exact Hti|]. split; [rewrite length_app; simpl; lia|].
  split; [exact Hidx|]. split.
  { apply Forall_app. split.
    - eapply Forall_impl; [exact Hrej|]. simpl. intros r Hr. lia.
    - constructor; [simpl; lia | constructor]. }
  split.
  { rewrite fmap_app. simpl. apply StronglySorted_snoc; [exact Hsort|].
    apply Forall_fmap. eapply Forall_impl; [exact Hrej|]. simpl. intros r Hr.
    lia. }
  rewrite fmap_app. apply sublist_inserts_r. exact Hsub.
Qed.

Lemma applyTx_partitioned (w : core.Env) pre ctx tracer bh i tx done v v' :
  partitioned i done v ->
  t8ntool.applyTx w pre ctx tracer bh i tx v = inr v' ->
  partitioned (i + 1) (done ++ [tx]) v'.
Proof.
  intros Hp. unfold t8ntool.applyTx.
  destruct (core.TransactionToMessage tx _) as [e|msg].
  { intros [= <-]. apply partitioned_reject. exact Hp. }
  destruct (tracer _ _) as [e|tr]; [discriminate|].
  destruct (state.Snapshot _) as [snapshot sdb].
  destruct (core.ApplyMessage _ _ _ _) as [[[[e|res] zvm'] gp'] q].
  - intros [= <-]. apply partitioned_reject. exact Hp.
  - destruct (t8ntool.recordHashError _ _ _); [discriminate|].
    intros [= <-].
    destruct Hp as (Hti & Hlen & Hidx & Hrej & Hsort & Hsub).
    unfold partitioned. simpl.
    rewrite !length_app. simpl.
    split; [lia|]. split; [lia|]. split.
    { rewrite fmap_app, Hidx. simpl.
      rewrite Nat.add_1_r, seq_S, fmap_app. simpl. rewrite Hti. reflexivity. }
    split.
    { eapply Forall_impl; [exact Hrej|]. simpl. intros r Hr. lia. }
    split; [exact Hsort|].
    rewrite !fmap_app. simpl. apply sublist_app; [exact Hsub | reflexivity].
Qed.

Lemma applyTxs_partitioned (w : core.Env) pre ctx tracer bh txs :
  forall i done v v',
    partitioned i done v ->
    t8ntool.applyTxs w pre ctx tracer bh i txs v = inr v' ->
    partitioned (i + Z.of_nat (length txs)) (done ++ txs) v'.
Proof.
  induction txs as [|tx rest IH]; intros i done v v' Hp.
  - simpl. intros [= <-]. rewrite Z.add_0_r, app_nil_r. exact Hp.
  - simpl. destruct (t8ntool.applyTx _ _ _ _ _ _ _ _) as [e|v1] eqn:HT;
      [discriminate|].
    intros HA. eapply IH in HA; [|eapply applyTx_partitioned; eassumption].
    replace (i + Z.of_nat (S (length rest)))
      with (i + 1 + Z.of_nat (length rest)) by lia.
    rewrite <- app_assoc in HA. exact HA.
Qed.

(** Apply accounts for every transaction once.  In the result of a
    successful Apply every transaction has a receipt or is among the
    rejected; the rejected are listed under their positions in the input,
    in increasing order; the receipts carry the transaction indices
    0, 1, 2, ... (a rejected transaction uses up no index) and are receipts
    of transactions of the input, in the input's order. *)
Theorem Apply_partitions_transactions (w : core.Env) (rng : t8ntool.MapRange)
  (pre : t8ntool.Prestate) (txs : list core.Transaction) (reward : Z)
  (tracer : Z -> Hash -> Z + bool) (sdb : state.StateDB)
  (res : t8ntool.ExecutionResult) :
  t8ntool.Apply w rng pre txs reward tracer = Return (inr (sdb, res)) ->
  (length (t8ntool.Receipts res) + length (t8ntool.Rejected res))%nat
  = length txs
  /\ core.TransactionIndex <$> t8ntool.Receipts res
     = Z.of_nat <$> seq 0 (length (t8ntool.Receipts res))
  /\ Forall (fun r => 0 <= t8ntool.Index r < Z.of_nat (length txs))
       (t8ntool.Rejected res)
  /\ StronglySorted Z.lt (t8ntool.Index <$> t8ntool.Rejected res)
  /\ core.TxHash <$> t8ntool.Receipts res `sublist_of` core.tx_Hash <$> txs.
Proof.
  unfold t8ntool.Apply.
  destruct (t8ntool.MakePreState _ _) as [s0|]; [|discriminate].
  cbv zeta.
  destruct (t8ntool.applyTxs _ _ _ _ _ _ _ _) as [e|v] eqn:HT; [discriminate|].
  apply (applyTxs_partitioned _ _ _ _ _ _ 0 []) in HT.
  2:{ unfold partitioned. simpl. repeat split; try constructor. }
  destruct (core.Commit _ _ _) as [[root [e|]] s1]; [discriminate|].
  destruct (core.Reopen _ _); [discriminate|].
  intros [= <- <-]. simpl.
  destruct HT as (Hti & Hlen & Hidx & Hrej & Hsort & Hsub). simpl in *.
  repeat split; try assumption. lia.
Qed.










End ToolProperties.

(* ------------------------------------------------------------------ *)
(** ** Header gas limit and extra data *)
(* ------------------------------------------------------------------ *)

Section MiscProperties.
Local Open Scope Z_scope.

(** VerifyGaslimit accepts a header gas limit exactly when it lies between
    MinGasLimit and MaxGasLimit, and does not look at the parent's gas
    limit: any change from one block to the next within these bounds is
    accepted.  Above the maximum the error is the one on the maximum, also
    when the limit is below the minimum too. *)
Theorem VerifyGaslimit_checks_bounds_only (MaxGasLimit MinGasLimit : Z)
  (parent parent' header : Z) :
  (misc.VerifyGaslimit MaxGasLimit MinGasLimit parent header = None
   <-> MinGasLimit <= header <= MaxGasLimit)
  /\ (MaxGasLimit < header <->
      misc.VerifyGaslimit MaxGasLimit MinGasLimit parent header
      = Some (misc.errBeyond MaxGasLimit))
  /\ misc.VerifyGaslimit MaxGasLimit MinGasLimit parent header
     = misc.VerifyGaslimit MaxGasLimit MinGasLimit parent' header.
Proof.
  unfold misc.VerifyGaslimit.
  destruct (Z.ltb_spec MaxGasLimit header), (Z.ltb_spec header MinGasLimit);
    repeat split; intros; try discriminate; try reflexivity; try lia.
Qed.

(** makeExtraData never returns more than MaximumExtraDataSize bytes: it
    returns the extra data it is given when that is not empty and within
    the limit, the default extra data for empty input when the default is
    within the limit, and nothing otherwise. *)
Theorem makeExtraData_within_limit (MaximumExtraDataSize : Z)
  (defaultExtraData extra : bytes) :
  0 <= MaximumExtraDataSize ->
  let r := zond.makeExtraData MaximumExtraDataSize defaultExtraData extra in
  Z.of_nat (length r) <= MaximumExtraDataSize
  /\ (extra <> [] -> Z.of_nat (length extra) <= MaximumExtraDataSize ->
      r = extra)
  /\ (extra <> [] -> MaximumExtraDataSize < Z.of_nat (length extra) -> r = [])
  /\ (extra = [] ->
      r = if Z.of_nat (length defaultExtraData) <=? MaximumExtraDataSize
          then defaultExtraData else []).
Proof.
  intros Hmax. cbv zeta. unfold zond.makeExtraData. cbv zeta.
  destruct extra as [|b extra].
  - cbn [length Nat.eqb].
    destruct (Z.ltb_spec MaximumExtraDataSize (Z.of_nat (length defaultExtraData)));
      repeat split; try congruence; simpl; try lia; intros _.
    + destruct (Z.leb_spec (Z.of_nat (length defaultExtraData)) MaximumExtraDataSize);
        [lia | reflexivity].
    + destruct (Z.leb_spec (Z.of_nat (length defaultExtraData)) MaximumExtraDataSize);
        [reflexivity | lia].
  - change (length (b :: extra) =? 0)%nat with false. cbn iota.
    destruct (Z.ltb_spec MaximumExtraDataSize (Z.of_nat (length (b :: extra))));
      repeat split; try congruence; try reflexivity; simpl in *; try lia.
Qed.

End MiscProperties.

(* ------------------------------------------------------------------ *)
(** ** Examples for the further properties *)
(* ------------------------------------------------------------------ *)

(** A dynamic-fee transaction with tip cap 2 and fee cap 7 under a base
    fee of 9: the effective tip is -2 and comes with ErrGasFeeCapTooLow. *)
Lemma EffectiveGasTip_value_and_error_witness :
  @types.EffectiveGasTip demo.codec demo.fields demo.dynTx (Some 9)
  = Return (-2, Some types.ErrGasFeeCapTooLow).
Proof.
  destruct (@EffectiveGasTip_value_and_error demo.codec demo.fields
              demo.dynTx 2 7 9 eq_refl eq_refl)
    as (_ & v & e & Heq & Hv & He & _).
  rewrite Heq. assert (e = Some types.ErrGasFeeCapTooLow) as -> by (apply He; lia).
  rewrite Hv. reflexivity.
Defined.

(** The dynamic-fee transaction (tip cap 2, fee cap 7) against a legacy
    transaction with gas price 1, under a base fee of 1: the effective tips
    are 2 and 0. *)
Lemma EffectiveGasTipCmp_orders_witness :
  @types.EffectiveGasTipCmp demo.codec demo.fields demo.dynTx demo.legacyTx
    (Some 1) = Return 1.
Proof.
  destruct (@EffectiveGasTipCmp_orders demo.codec demo.fields demo.dynTx
              demo.legacyTx (Some 1) 2 0 eq_refl eq_refl)
    as (c & Hc & _ & _ & H1).
  rewrite Hc. f_equal. apply H1. lia.
Defined.

(** A transaction whose hash is cached decodes three bytes: its size is 3
    and Hash goes on returning the cached hash. *)
Lemma UnmarshalBinary_caches_witness :
  let tx := {| types.inner := None; types.time := 0;
               types.hash := Some (common.BytesToHash 1);
               types.size := Some 99; types.from := None |} in
  let tx' := {| types.inner := Some (types.DynamicFeeTxData (H := demo.codec) [x01]);
                types.time := 5; types.hash := Some (common.BytesToHash 1);
                types.size := Some 3; types.from := None |} in
  @types.UnmarshalBinary demo.codec tx [x02; xc0; x01] 5 = Return (tx', None)
  /\ @types.Size demo.codec demo.sizer tx' = (3, tx')
  /\ @types.Hash_ demo.codec demo.hasher tx' = Return (common.BytesToHash 1, tx').
Proof.
  cbv zeta. split; [reflexivity|].
  destruct (@UnmarshalBinary_caches demo.codec demo.hasher demo.sizer
              _ _ [x02; xc0; x01] 5 None
              (eq_refl : @types.UnmarshalBinary demo.codec
                           {| types.inner := None; types.time := 0;
                              types.hash := Some (common.BytesToHash 1);
                              types.size := Some 99; types.from := None |}
                           [x02; xc0; x01] 5 = Return (_, None)))
    as (_ & Hok).
  destruct (Hok eq_refl) as (Hsize & _ & _ & _ & Hhash).
  split; [exact Hsize | apply Hhash; reflexivity].
Defined.

(** The hash of the dynamic-fee transaction is computed once. *)
Lemma Hash_caches_witness :
  match @types.Hash_ demo.codec demo.hasher demo.dynTx with
  | Return (h, c) => @types.Hash_ demo.codec demo.hasher c = Return (h, c)
  | Panic _ => False
  end.
Proof.
  destruct (@types.Hash_ demo.codec demo.hasher demo.dynTx) as [[h c]|m] eqn:E.
  - apply (@Hash_caches demo.codec demo.hasher demo.dynTx c h E).
  - vm_compute in E. discriminate E.
Defined.

(** Account 1 sends 10 to the absent address 8: no error, all gas back,
    and address 8 holds 10. *)
Lemma call_without_code_transfers_witness :
  vm.err (@vm.ZVM_Call demo.machine (demo.zvmAt 0 false) (vm.AccountRef 1) 8 [] 1000 10)
  = None
  /\ vm.leftOverGas (@vm.ZVM_Call demo.machine (demo.zvmAt 0 false) (vm.AccountRef 1)
                       8 [] 1000 10) = 1000
  /\ state.GetBalance 8
       (vm.StateDB (vm.zvm_out (@vm.ZVM_Call demo.machine (demo.zvmAt 0 false)
                                  (vm.AccountRef 1) 8 [] 1000 10))) = 10.
Proof.
  assert (Ha : @call_proceeds demo.machine (demo.zvmAt 0 false) (vm.AccountRef 1) 10
               = true) by (vm_compute; reflexivity).
  assert (Hp : @vm.PrecompiledContractsBerlin demo.machine 8 = None)
    by reflexivity.
  assert (Hv : state.Exist 8 (vm.StateDB (demo.zvmAt 0 false)) = true \/ 10 <> 0)
    by (right; discriminate).
  assert (Hc : state.GetCode 8 (call_entry (demo.zvmAt 0 false) (vm.AccountRef 1) 8 10)
               = []) by (vm_compute; reflexivity).
  destruct (@call_without_code_transfers demo.machine
              (@vm.ops demo.machine (@vm.levels demo.machine (demo.zvmAt 0 false)))
              (demo.zvmAt 0 false) (vm.AccountRef 1) 8 [] 1000 10 Ha Hp Hv Hc)
    as (He & Hg & _ & Hs & _).
  unfold vm.ZVM_Call. rewrite He, Hg, Hs.
  split; [reflexivity|]. split; [reflexivity|]. vm_compute. reflexivity.
Defined.

(** With a tracer, the call to the reverting contract at address 2 ends its
    record with CaptureEnd: no output, no gas used, the revert. *)
Lemma call_tracer_reports_result_witness :
  last (vm.trace (vm.zvm_out (@vm.Call demo.machine
                                (@vm.ops demo.machine
                                   (@vm.levels demo.machine (demo.zvmAt 0 true)))
                                (demo.zvmAt 0 true) (vm.AccountRef 1) 2 [] 1000 0)))
  = Some (vm.CaptureEnd [] 0 (Some vm.ErrExecutionReverted)).
Proof.
  etransitivity.
  - apply (@call_tracer_reports_result demo.machine); vm_compute; reflexivity.
  - vm_compute. reflexivity.
Defined.

(** Account 1 creates at address 2, which holds a contract: collision, no
    gas left, and the nonce of account 1 is 1. *)
Lemma create_collision_burns_gas_witness :
  vm.c_err (@vm.create demo.machine (@vm.ops demo.machine 3) (demo.zvmAt 0 false)
              (vm.AccountRef 1) demo.oneByteInit 1000 0 2 vm.CREATE)
  = Some vm.ErrContractAddressCollision
  /\ state.GetNonce 1
       (vm.StateDB (vm.c_zvm (@vm.create demo.machine (@vm.ops demo.machine 3)
                                (demo.zvmAt 0 false) (vm.AccountRef 1)
                                demo.oneByteInit 1000 0 2 vm.CREATE))) = 1.
Proof.
  assert (Hr : @create_refuses demo.machine (demo.zvmAt 0 false) (vm.AccountRef 1) 0
               = false) by (vm_compute; reflexivity).
  assert (Hc : create_collides (demo.zvmAt 0 false) (vm.AccountRef 1) 2 = true)
    by (vm_compute; reflexivity).
  destruct (@create_collision_burns_gas demo.machine (@vm.ops demo.machine 3)
              (demo.zvmAt 0 false) (vm.AccountRef 1) demo.oneByteInit 1000 0 2
              vm.CREATE Hr Hc) as (Heq & Hn & _).
  split.
  - rewrite Heq. reflexivity.
  - etransitivity; [exact Hn|]. vm_compute. reflexivity.
Defined.

(** Init code that returns the two bytes 0xEF 0x00: the creation fails
    with ErrInvalidCode, no gas is left and address 777 holds no code. *)
Lemma create_rejects_ef_code_witness :
  vm.c_err (@vm.ZVM_create demo.machine (demo.zvmAt 0 false) (vm.AccountRef 1)
              demo.efInit 1000 0 777 vm.CREATE) = Some vm.ErrInvalidCode
  /\ vm.c_leftOverGas (@vm.ZVM_create demo.machine (demo.zvmAt 0 false)
                         (vm.AccountRef 1) demo.efInit 1000 0 777 vm.CREATE) = 0
  /\ state.GetCode 777
       (vm.StateDB (vm.c_zvm (@vm.ZVM_create demo.machine (demo.zvmAt 0 false)
                                (vm.AccountRef 1) demo.efInit 1000 0 777 vm.CREATE)))
     = [].
Proof.
  assert (Hr : @create_refuses demo.machine (demo.zvmAt 0 false) (vm.AccountRef 1) 0
               = false) by (vm_compute; reflexivity).
  assert (Hc : create_collides (demo.zvmAt 0 false) (vm.AccountRef 1) 777 = false)
    by (vm_compute; reflexivity).
  destruct (@create_rejects_ef_code demo.machine (demo.zvmAt 0 false)
              (vm.AccountRef 1) demo.efInit 1000 0 777 vm.CREATE
              demo_exec_keeps demo_transfers_keep Hr Hc)
    as (He & Hg & _ & _ & _ & Hcode).
  - vm_compute. reflexivity.
  - vm_compute. intros Hx. discriminate Hx.
  - vm_compute. reflexivity.
  - repeat split; assumption.
Defined.

(** Init code that returns one byte of code, with 1000 gas: the creation
    succeeds, 200 gas pay for the byte, and address 777 holds it. *)
Lemma create_stores_code_witness :
  vm.c_err (@vm.ZVM_create demo.machine (demo.zvmAt 0 false) (vm.AccountRef 1)
              demo.oneByteInit 1000 0 777 vm.CREATE) = None
  /\ vm.c_leftOverGas (@vm.ZVM_create demo.machine (demo.zvmAt 0 false)
                         (vm.AccountRef 1) demo.oneByteInit 1000 0 777 vm.CREATE)
     = 800
  /\ state.GetCode 777
       (vm.StateDB (vm.c_zvm (@vm.ZVM_create demo.machine (demo.zvmAt 0 false)
                                (vm.AccountRef 1) demo.oneByteInit 1000 0 777
                                vm.CREATE)))
     = [x60].
Proof.
  assert (Hr : @create_refuses demo.machine (demo.zvmAt 0 false) (vm.AccountRef 1) 0
               = false) by (vm_compute; reflexivity).
  assert (Hc : create_collides (demo.zvmAt 0 false) (vm.AccountRef 1) 777 = false)
    by (vm_compute; reflexivity).
  destruct (@create_stores_code demo.machine (demo.zvmAt 0 false)
              (vm.AccountRef 1) demo.oneByteInit 1000 0 777 vm.CREATE Hr Hc)
    as (He & _ & _ & Hg & _ & Hcode).
  - vm_compute. reflexivity.
  - vm_compute. intros Hx. discriminate Hx.
  - vm_compute. intros Hx. discriminate Hx.
  - vm_compute. intros Hx. discriminate Hx.
  - rewrite He, Hg, Hcode.
    split; [reflexivity|]. split; vm_compute; reflexivity.
Defined.

Lemma demo_keeps_accounts : @keeps_accounts demo.chain.
Proof. repeat split; intros; try reflexivity. simpl in *. congruence. Qed.

(** The block of two transfers: two receipts, with the hashes of the two
    transactions. *)
Lemma Process_receipts_follow_block_witness :
  core.TxHash <$> core.p_receipts
                    (@core.Process demo.machine demo.chain 0%nat demo.block
                       demo.ledger {| vm.Tracer := false |})
  = [common.BytesToHash 1000; common.BytesToHash 1001]
  /\ length (core.p_receipts
               (@core.Process demo.machine demo.chain 0%nat demo.block
                  demo.ledger {| vm.Tracer := false |})) = 2%nat.
Proof.
  destruct (@Process_receipts_follow_block demo.machine demo.chain 0%nat
              demo.block demo.ledger {| vm.Tracer := false |})
    as (Hh & _ & Hl & _).
  - vm_compute. reflexivity.
  - split; [exact Hh | exact Hl].
Defined.

(** The block of two transfers: the cumulative gas of its receipts is
    21000 and 42000. *)
Lemma cumulative_gas_is_running_total_witness :
  core.CumulativeGasUsed <$> core.p_receipts
                               (@core.Process demo.machine demo.chain 0%nat
                                  demo.block demo.ledger {| vm.Tracer := false |})
  = [21000; 42000].
Proof.
  destruct (@cumulative_gas_is_running_total demo.machine demo.chain 0%nat
              demo_execute_within_budget) as (HP & _).
  destruct (HP demo.block demo.ledger {| vm.Tracer := false |}) as (Hc & _).
  - unfold uint64, MaxUint64. simpl. lia.
  - vm_compute. reflexivity.
  - etransitivity; [exact Hc|]. vm_compute. reflexivity.
Defined.

(** The allocation of the example: account 1 has balance 1000000 and the
    slots 0 and 1, address 7 is not in it. *)
Lemma MakePreState_loads_allocation_witness :
  exists s,
    @t8ntool.MakePreState demo.chain demo.descending (t8ntool.Pre demo.prestate)
    = Some s
    /\ state.GetBalance 1 s = 1000000
    /\ state.storage (state.getOrNewStateObject 1 s) !! 1 = Some 6
    /\ state.Exist 7 s = false.
Proof.
  destruct (@t8ntool.MakePreState demo.chain demo.descending
              (t8ntool.Pre demo.prestate)) as [s|] eqn:E.
  - exists s. split; [reflexivity|].
    pose proof (@MakePreState_loads_allocation demo.chain demo.descending
                  (t8ntool.Pre demo.prestate) s demo_keeps_accounts
                  demo_descending E) as HL.
    pose proof (HL 1) as H1. pose proof (HL 7) as H7.
    vm_compute (t8ntool.Pre demo.prestate !! 1) in H1.
    vm_compute (t8ntool.Pre demo.prestate !! 7) in H7.
    destruct H1 as (_ & _ & Hb & _ & Hs).
    split; [exact Hb|]. split; [|exact H7].
    etransitivity; [apply Hs|]. vm_compute. reflexivity.
  - vm_compute in E. discriminate E.
Defined.

(** The three transactions of the example: two receipts and one rejected
    transaction, at position 1. *)
Lemma Apply_partitions_transactions_witness :
  exists sdb res,
    @t8ntool.Apply demo.machine demo.chain 0%nat demo.ascending demo.prestate
      demo.txs 0 demo.noTracer = Return (inr (sdb, res))
    /\ (length (t8ntool.Receipts res) + length (t8ntool.Rejected res))%nat = 3%nat
    /\ Forall (fun r => 0 <= t8ntool.Index r < 3) (t8ntool.Rejected res).
Proof.
  destruct (@t8ntool.Apply demo.machine demo.chain 0%nat demo.ascending
              demo.prestate demo.txs 0 demo.noTracer)
    as [[e|[sdb res]]|m] eqn:E.
  - vm_compute in E. discriminate E.
  - exists sdb, res. split; [reflexivity|].
    destruct (@Apply_partitions_transactions demo.machine demo.chain 0%nat
                demo.ascending demo.prestate demo.txs 0 demo.noTracer sdb res E)
      as (Hl & _ & Hr & _).
    split; [exact Hl | exact Hr].
  - vm_compute in E. discriminate E.
Defined.


(** With a limit of 32 bytes, two bytes of extra data are kept. *)
Lemma makeExtraData_within_limit_witness :
  zond.makeExtraData 32 [x01] [x02; x03] = [x02; x03].
Proof.
  destruct (makeExtraData_within_limit 32 [x01] [x02; x03]) as (_ & Hk & _).
  - lia.
  - apply Hk; [discriminate | simpl; lia].
Defined.
